(** * Wallet key vault and transaction builder of the swap client

    A shallow embedding of the key-management and signing core:
    - [src/lib/crypto/wallet.ts]   ([encryptPrivateKey], [decryptPrivateKey],
      [verifyPassword]),
    - the transaction module       ([createAndSignTransaction], the message
      constructors, [validateTransactionParams]),
    - [src/lib/crypto/utils/order.ts] (the three [createSigned...] flows),
    - [src/lib/crypto.ts]          ([CryptoUtils.clearSensitiveData]).

    Conventions.
    - A JavaScript [number] is modelled by [Z] where the callers pass
      integer micro-units, heights and identifiers; the one division of the
      code, [publicKey.length / 2], is carried out in [Q]; the validator,
      which tests its argument at run time, is also modelled over untyped
      values with [NaN] and the infinities ([Dynamic]).
    - A [Uint8Array] is a view (buffer, byteOffset, length) on an [ArrayBuffer]
      of the heap, because the code reads [privateKeyBytes.buffer].
    - The password is a JavaScript string, a list of UTF-16 code units, since
      it goes through [TextEncoder]; every other string of the model only
      carries ASCII (hex digits, tags) and is a [string].
    - A thrown value is a [JsError] with its [name] and [message]; a function
      that can throw returns a [Result].
    - [async] functions are run to completion in program order. *)

From Stdlib Require Import ZArith NArith QArith List String Ascii Bool Lia.
From Stdlib Require Strings.Byte.
Import ListNotations.

Local Open Scope string_scope.
Local Open Scope list_scope.
Local Open Scope Z_scope.

Definition byte : Type := Byte.byte.

(* ------------------------------------------------------------------ *)
(** ** Thrown values and results *)

Record JsError := mkJsError { name : string; message : string }.

(** [new Error(msg)] *)
Definition Error (msg : string) : JsError := mkJsError "Error" msg.

Inductive Result (A : Type) : Type :=
| Ok (a : A)
| Throw (e : JsError).
Arguments Ok {A} a.
Arguments Throw {A} e.

Definition isOk {A} (r : Result A) : bool :=
  match r with Ok _ => true | Throw _ => false end.

(* ------------------------------------------------------------------ *)
(** ** Bytes and hexadecimal strings ([@noble/hashes/utils]) *)

(** Storing a number in a [Uint8Array] cell keeps it modulo 256. *)
Definition byte_of_N (n : N) : byte :=
  match Byte.of_N (n mod 256)%N with
  | Some b => b
  | None => Byte.x00
  end.

(** One digit of [Number.prototype.toString(16)]. *)
Definition hexDigit (n : N) : ascii :=
  if (n <? 10)%N then ascii_of_N (48 + n) else ascii_of_N (87 + n).

(** [b.toString(16).padStart(2, "0")], which is also [hexes[b]] of the
    library's [bytesToHex]. *)
Definition byteToHex (b : byte) : string :=
  let n := Byte.to_N b in
  String (hexDigit (n / 16)%N) (String (hexDigit (n mod 16)%N) EmptyString).

(** [bytesToHex(bytes)]; the flows of [order.ts] compute the same string by
    [Array.from(bytes).map(b => b.toString(16).padStart(2, "0")).join("")]. *)
Definition bytesToHex (bs : list byte) : string :=
  String.concat "" (map byteToHex bs).

Definition asciiToBase16 (ch : ascii) : option N :=
  let c := N_of_ascii ch in
  if ((48 <=? c) && (c <=? 57))%N then Some (c - 48)%N
  else if ((65 <=? c) && (c <=? 70))%N then Some (c - 55)%N
  else if ((97 <=? c) && (c <=? 102))%N then Some (c - 87)%N
  else None.

Definition hexError_unpadded : JsError :=
  Error "hex string expected, got unpadded hex".
Definition hexError_nonhex : JsError :=
  Error "hex string expected, got non-hex character".

(** The loop of [hexToBytes], two characters per byte. *)
Fixpoint hexToBytes_loop (hex : string) : Result (list byte) :=
  match hex with
  | EmptyString => Ok []
  | String _ EmptyString => Throw hexError_unpadded
  | String c1 (String c2 rest) =>
      match asciiToBase16 c1, asciiToBase16 c2 with
      | Some n1, Some n2 =>
          match hexToBytes_loop rest with
          | Ok bs => Ok (byte_of_N (n1 * 16 + n2) :: bs)
          | Throw e => Throw e
          end
      | _, _ => Throw hexError_nonhex
      end
  end.

(** [hexToBytes(hex)]: the parity of the length is tested before any
    character is read. *)
Definition hexToBytes (hex : string) : Result (list byte) :=
  if Nat.odd (String.length hex) then Throw hexError_unpadded
  else hexToBytes_loop hex.

(* ------------------------------------------------------------------ *)
(** ** JavaScript strings and [TextEncoder] *)

(** A JavaScript string: its UTF-16 code units. *)
Definition JsString := list N.

Definition isHighSurrogate (u : N) : bool := ((0xD800 <=? u) && (u <=? 0xDBFF))%N.
Definition isLowSurrogate (u : N) : bool := ((0xDC00 <=? u) && (u <=? 0xDFFF))%N.

(** UTF-8 bytes of one scalar value. *)
Definition utf8_of_codepoint (c : N) : list byte :=
  (if c <? 0x80 then [byte_of_N c]
   else if c <? 0x800 then
     [byte_of_N (0xC0 + c / 64); byte_of_N (0x80 + c mod 64)]
   else if c <? 0x10000 then
     [byte_of_N (0xE0 + c / 4096); byte_of_N (0x80 + (c / 64) mod 64);
      byte_of_N (0x80 + c mod 64)]
   else
     [byte_of_N (0xF0 + c / 262144); byte_of_N (0x80 + (c / 4096) mod 64);
      byte_of_N (0x80 + (c / 64) mod 64); byte_of_N (0x80 + c mod 64)])%N.

(** [new TextEncoder().encode(s)]: surrogate pairs are combined, and a
    surrogate that is not part of a pair is replaced by U+FFFD. *)
Fixpoint TextEncoder_encode (s : JsString) : list byte :=
  match s with
  | [] => []
  | u :: rest =>
      if isHighSurrogate u then
        match rest with
        | l :: rest' =>
            if isLowSurrogate l then
              utf8_of_codepoint (0x10000 + (u - 0xD800) * 0x400 + (l - 0xDC00))%N
                ++ TextEncoder_encode rest'
            else utf8_of_codepoint 0xFFFD%N ++ TextEncoder_encode rest
        | [] => utf8_of_codepoint 0xFFFD%N
        end
      else if isLowSurrogate u then
        utf8_of_codepoint 0xFFFD%N ++ TextEncoder_encode rest
      else utf8_of_codepoint u ++ TextEncoder_encode rest
  end.

(** The code units of an ASCII literal. *)
Definition js (s : string) : JsString :=
  map N_of_ascii (list_ascii_of_string s).

(* ------------------------------------------------------------------ *)
(** ** The world of a call: heap, random source, clock, primitive calls *)

Inductive CurveType := ED25519 | BLS12381.

(** A call of a cryptographic primitive, in program order. *)
Inductive Event :=
| EvGetRandomValues (bytes : list byte)
| EvArgon2i (password salt : list byte)
| EvImportKey (raw : list byte)
| EvAesGcmEncrypt (key iv data : list byte)
| EvAesGcmDecrypt (key iv data : list byte)
| EvDeriveKey (keyMaterial salt : list byte) (iterations length : Z)
| EvSignMessage (signBytes : list byte) (privateKeyHex : string)
                (curveType : CurveType).

Record World := mkWorld {
  heap : list (list byte);   (* the ArrayBuffers, by allocation index *)
  entropy : nat -> byte;     (* the stream behind crypto.getRandomValues *)
  drawn : nat;               (* how many bytes of it were handed out *)
  clock : Z;                 (* Date.now(), milliseconds *)
  trace : list Event }.

(** A [Uint8Array]: a window on an [ArrayBuffer] of the heap. *)
Record Uint8Array := mkUint8Array {
  ta_buffer : nat;
  ta_byteOffset : nat;
  ta_length : nat }.

(** The whole [ArrayBuffer] behind a reference. *)
Definition bufferBytes (w : World) (buf : nat) : list byte :=
  nth buf (heap w) [].

(** The bytes a [Uint8Array] shows. *)
Definition viewBytes (w : World) (a : Uint8Array) : list byte :=
  firstn (ta_length a) (skipn (ta_byteOffset a) (bufferBytes w (ta_buffer a))).

(** Computations: state passing, with exceptions that keep the state. *)
Definition M (A : Type) : Type := World -> Result A * World.

Definition ret {A} (a : A) : M A := fun w => (Ok a, w).
Definition throw {A} (e : JsError) : M A := fun w => (Throw e, w).
Definition bind {A B} (m : M A) (k : A -> M B) : M B :=
  fun w => match m w with
           | (Ok a, w') => k a w'
           | (Throw e, w') => (Throw e, w')
           end.
(** [try { m } catch (error) { h error }] *)
Definition try_catch {A} (m : M A) (h : JsError -> M A) : M A :=
  fun w => match m w with
           | (Ok a, w') => (Ok a, w')
           | (Throw e, w') => h e w'
           end.
Definition lift {A} (r : Result A) : M A := fun w => (r, w).

Notation "x <- m ;; k" := (bind m (fun x => k))
  (at level 61, m at next level, right associativity).
Notation "m ;;; k" := (bind m (fun _ => k))
  (at level 61, right associativity).

Definition emit (e : Event) : M unit :=
  fun w => (Ok tt, mkWorld (heap w) (entropy w) (drawn w) (clock w)
                           (trace w ++ [e])).

(** [w.buffer], [Array.from(a)] and friends only read the heap. *)
Definition readBuffer (buf : nat) : M (list byte) :=
  fun w => (Ok (bufferBytes w buf), w).
Definition readView (a : Uint8Array) : M (list byte) :=
  fun w => (Ok (viewBytes w a), w).

(** [new Uint8Array(data)] on a fresh [ArrayBuffer] holding [data]. *)
Definition new_Uint8Array (data : list byte) : M Uint8Array :=
  fun w => (Ok (mkUint8Array (List.length (heap w)) 0 (List.length data)),
            mkWorld (heap w ++ [data]) (entropy w) (drawn w) (clock w)
                    (trace w)).

(** [a.subarray(begin, end)]: another window on the same buffer. *)
Definition subarray (a : Uint8Array) (from to : nat) : Uint8Array :=
  let from' := Nat.min from (ta_length a) in
  let to' := Nat.max from' (Nat.min to (ta_length a)) in
  mkUint8Array (ta_buffer a) (ta_byteOffset a + from') (to' - from').

(** [crypto.getRandomValues(new Uint8Array(n))] *)
Definition getRandomValues (n : nat) : M (list byte) :=
  fun w =>
    let bytes := map (entropy w) (seq (drawn w) n) in
    (Ok bytes, mkWorld (heap w) (entropy w) (drawn w + n) (clock w)
                       (trace w ++ [EvGetRandomValues bytes])).

(** [Date.now()] *)
Definition Date_now : M Z := fun w => (Ok (clock w), w).

(* ------------------------------------------------------------------ *)
(** ** Data model ([./types], [@/types/wallet]) *)

Record EncryptedCanopyKeyfile := mkKeyfile {
  publicKey : string;
  encrypted : string;
  salt : string;
  keyAddress : string;
  keyNickname : string }.

Record CanopyWalletAccount := mkAccount {
  encryptedKeyfile : EncryptedCanopyKeyfile }.

Record MessageSend := mkSend {
  fromAddress : string;
  toAddress : string;
  amount : Z }.

Record MessageCreateOrderParams := mkCreateOrder {
  co_chainId : Z;
  co_data : string;
  co_amountForSale : Z;
  co_requestedAmount : Z;
  co_sellerReceiveAddress : string;
  co_sellersSendAddress : string;
  co_orderId : string }.

Record MessageEditOrder := mkEditOrder {
  eo_orderId : string;
  eo_chainId : Z;
  eo_data : string;
  eo_amountForSale : Z;
  eo_requestedAmount : Z;
  eo_sellerReceiveAddress : string }.

Record MessageDeleteOrder := mkDeleteOrder {
  do_orderId : string;
  do_chainId : Z }.

Inductive TransactionMessage :=
| MsgSend (m : MessageSend)
| MsgCreateOrder (m : MessageCreateOrderParams)
| MsgEditOrder (m : MessageEditOrder)
| MsgDeleteOrder (m : MessageDeleteOrder).

Record TransactionParams := mkParams {
  type : string;
  msg : TransactionMessage;
  fee : Z;
  memo : string;
  networkID : Z;
  chainID : Z;
  height : Z }.

(** [Omit<RawTransaction, "signature">] *)
Record UnsignedTransaction := mkUnsigned {
  tx_type : string;
  tx_msg : TransactionMessage;
  tx_time : Z;
  tx_createdHeight : Z;
  tx_fee : Z;
  tx_memo : string;
  tx_networkID : Z;
  tx_chainID : Z }.

Record TransactionSignature := mkSignature {
  sig_publicKey : string;
  sig_signature : string }.

(** [{ ...unsignedTx, signature }] *)
Record RawTransaction := mkRaw {
  unsigned : UnsignedTransaction;
  signature : TransactionSignature }.

Record SendRawTransactionRequest := mkRequest {
  raw_transaction : RawTransaction }.

(* ------------------------------------------------------------------ *)
(** ** Constants of [src/lib/crypto/wallet.ts] *)

(** time cost, memory cost in KiB (32 MiB), parallelism *)
Module ARGON2_PARAMS.
Definition t : Z := 3.
Definition m : Z := 32 * 1024.
Definition p : Z := 4.
End ARGON2_PARAMS.

Definition SALT_LENGTH : nat := 16.
Definition NONCE_LENGTH : nat := 12.

(* ------------------------------------------------------------------ *)
(** ** The primitives the code calls *)

(** The cryptography and the wire format sit outside the modelled sources;
    the model is parametric in them. *)
Class Platform := {
  (** [argon2i(password, salt, {t, m, p, dkLen})] of [@noble/hashes] *)
  argon2i : list byte -> list byte -> Z -> Z -> Z -> Z -> Result (list byte);
  (** AES-GCM of Web Crypto, key then iv then data; decryption answers
      [None] when authentication fails *)
  aes_gcm_encrypt : list byte -> list byte -> list byte -> list byte;
  aes_gcm_decrypt : list byte -> list byte -> list byte -> option (list byte);
  (** the protobuf layout of an unsigned transaction, when it has one *)
  wire_encode : UnsignedTransaction -> option (list byte);
  (** raw signature of a message under a hex-encoded private key, [None] on
      malformed key material *)
  curve_sign : CurveType -> list byte -> string -> option (list byte) }.

(** What the model assumes of the primitives. *)
Class PlatformLaws (P : Platform) := {
  (** the derivation accepts every salt of eight bytes or more and returns
      [dkLen = 32] bytes *)
  argon2i_dkLen : forall password salt,
    (8 <= List.length salt)%nat ->
    exists key, argon2i password salt ARGON2_PARAMS.t ARGON2_PARAMS.m
                        ARGON2_PARAMS.p 32 = Ok key
                /\ List.length key = 32%nat;
  (** authenticated decryption undoes encryption under the same key and iv *)
  aes_gcm_correct : forall key iv data,
    aes_gcm_decrypt key iv (aes_gcm_encrypt key iv data) = Some data;
  (** an ED25519 signature is 64 raw bytes *)
  ed25519_signature_length : forall m k s,
    curve_sign ED25519 m k = Some s -> List.length s = 64%nat }.

(* ------------------------------------------------------------------ *)
(** ** [src/lib/crypto/wallet.ts] *)

Definition OperationError : JsError := mkJsError "OperationError" "".
Definition DataError : JsError := mkJsError "DataError" "Invalid key length".

Definition passwordProblem : string :=
  "There's a problem with your password. Please try again.".

Section Wallet.
Context {P : Platform}.

(** [deriveKey(password, salt)] *)
Definition deriveKey (password : JsString) (salt : list byte)
  : M (list byte) :=
  let passwordBytes := TextEncoder_encode password in
  emit (EvArgon2i passwordBytes salt) ;;;
  key <- lift (argon2i passwordBytes salt ARGON2_PARAMS.t ARGON2_PARAMS.m
                       ARGON2_PARAMS.p 32) ;;
  ret key.

(** [crypto.subtle.importKey("raw", raw, { name: "AES-GCM" }, ...)]: an AES
    key has 128, 192 or 256 bits. *)
Definition importKey (raw : list byte) : M (list byte) :=
  emit (EvImportKey raw) ;;;
  if (List.length raw =? 16)%nat || (List.length raw =? 24)%nat
     || (List.length raw =? 32)%nat
  then ret raw else throw DataError.

(** [crypto.subtle.encrypt({ name: "AES-GCM", iv }, key, data)] *)
Definition subtle_encrypt (iv key data : list byte) : M (list byte) :=
  emit (EvAesGcmEncrypt key iv data) ;;;
  ret (aes_gcm_encrypt key iv data).

(** [crypto.subtle.decrypt({ name: "AES-GCM", iv }, key, data)] *)
Definition subtle_decrypt (iv key data : list byte) : M (list byte) :=
  emit (EvAesGcmDecrypt key iv data) ;;;
  match aes_gcm_decrypt key iv data with
  | Some plain => ret plain
  | None => throw OperationError
  end.

(** [encryptPrivateKey(publicKeyBytes, privateKeyBytes, password, address)] *)
Definition encryptPrivateKey (publicKeyBytes privateKeyBytes : Uint8Array)
    (password : JsString) (address : string) : M EncryptedCanopyKeyfile :=
  try_catch
    (salt <- getRandomValues SALT_LENGTH ;;
     derivedKey <- deriveKey password salt ;;
     cryptoKey <- importKey derivedKey ;;
     let nonce := firstn NONCE_LENGTH derivedKey in
     data <- readBuffer (ta_buffer privateKeyBytes) ;;
     encryptedData <- subtle_encrypt nonce cryptoKey data ;;
     pub <- readView publicKeyBytes ;;
     ret {| publicKey := bytesToHex pub;
            encrypted := bytesToHex encryptedData;
            salt := bytesToHex salt;
            keyAddress := address;
            keyNickname := "" |})
    (fun error =>
       throw (Error ("Failed to encrypt private key: " ++ message error)%string)).

(** [decryptPrivateKey(encryptedKeyPair, password)] *)
Definition decryptPrivateKey (encryptedKeyPair : EncryptedCanopyKeyfile)
    (password : JsString) : M Uint8Array :=
  try_catch
    (salt <- lift (hexToBytes (salt encryptedKeyPair)) ;;
     encryptedData <- lift (hexToBytes (encrypted encryptedKeyPair)) ;;
     derivedKey <- deriveKey password salt ;;
     cryptoKey <- importKey derivedKey ;;
     let nonce := firstn NONCE_LENGTH derivedKey in
     decryptedData <- subtle_decrypt nonce cryptoKey encryptedData ;;
     new_Uint8Array decryptedData)
    (fun error =>
       if String.eqb (name error) "OperationError"
       then throw (Error passwordProblem)
       else throw (Error ("Failed to decrypt private key: "
                            ++ message error)%string)).

(** [verifyPassword(encrypted, password)] *)
Definition verifyPassword (encrypted : EncryptedCanopyKeyfile)
    (password : JsString) : M bool :=
  try_catch
    (decryptPrivateKey encrypted password ;;;
     ret true)
    (fun _ => ret false).

End Wallet.

(** The error kinds of the key vault, told apart by what [decryptPrivateKey]
    throws. *)
Definition InvalidPassword (e : JsError) : Prop := e = Error passwordProblem.
Definition CorruptedKeyfile (e : JsError) : Prop :=
  exists why, e = Error ("Failed to decrypt private key: " ++ why)%string.

(* ------------------------------------------------------------------ *)
(** ** The transaction module (transaction building and signing) *)

Section Transaction.
Context {P : Platform}.

(** Modelled from the spec: [getSignBytesProtobuf] of [./protobuf], which is
    not among the sources.  The canonical bytes are a deterministic, pure
    function of the unsigned transaction, and the encoder fails with
    [EncodingMismatch] when the transaction has no supported layout; the
    layout itself is the parameter [wire_encode]. *)
Definition getSignBytesProtobuf (tx : UnsignedTransaction)
  : M (list byte) :=
  match wire_encode tx with
  | Some bytes => ret bytes
  | None => throw (Error "EncodingMismatch")
  end.

(** Modelled from the spec: [signMessage] of [./signing], which is not among
    the sources.  It signs the canonical bytes under the given curve and
    returns the raw signature in hexadecimal; it fails with [SigningFailure]
    on malformed key material and does no other input or output. *)
Definition signMessage (signBytes : list byte) (privateKeyHex : string)
    (curveType : CurveType) : M string :=
  emit (EvSignMessage signBytes privateKeyHex curveType) ;;;
  match curve_sign curveType signBytes privateKeyHex with
  | Some sig => ret (bytesToHex sig)
  | None => throw (Error "SigningFailure")
  end.

(** [createAndSignTransaction(params, privateKeyHex, publicKeyHex, curveType)] *)
Definition createAndSignTransaction (params : TransactionParams)
    (privateKeyHex publicKeyHex : string) (curveType : CurveType)
  : M SendRawTransactionRequest :=
  now <- Date_now ;;
  let unsignedTx :=
    {| tx_type := type params;
       tx_msg := msg params;
       tx_time := now * 1000;
       tx_createdHeight := height params;
       tx_fee := fee params;
       tx_memo := memo params;
       tx_networkID := networkID params;
       tx_chainID := chainID params |} in
  signBytes <- getSignBytesProtobuf unsignedTx ;;
  signatureHex <- signMessage signBytes privateKeyHex curveType ;;
  let signature :=
    {| sig_publicKey := publicKeyHex; sig_signature := signatureHex |} in
  let signedTx := {| unsigned := unsignedTx; signature := signature |} in
  ret {| raw_transaction := signedTx |}.

End Transaction.

(** [createSendMessage(fromAddress, toAddress, amount)] *)
Definition createSendMessage (fromAddress toAddress : string) (amount : Z)
  : TransactionMessage :=
  MsgSend {| fromAddress := fromAddress; toAddress := toAddress;
             amount := amount |}.

(** [createOrderMessage(chainId, data, amountForSale, requestedAmount,
    sellerReceiveAddress, sellersSendAddress)] *)
Definition createOrderMessage (chainId : Z) (data : string)
    (amountForSale requestedAmount : Z)
    (sellerReceiveAddress sellersSendAddress : string)
  : MessageCreateOrderParams :=
  {| co_chainId := chainId;
     co_data := data;
     co_amountForSale := amountForSale;
     co_requestedAmount := requestedAmount;
     co_sellerReceiveAddress := sellerReceiveAddress;
     co_sellersSendAddress := sellersSendAddress;
     co_orderId := "" |}.

(** [createEditOrderMessage(orderId, chainId, data, amountForSale,
    requestedAmount, sellerReceiveAddress)] *)
Definition createEditOrderMessage (orderId : string) (chainId : Z)
    (data : string) (amountForSale requestedAmount : Z)
    (sellerReceiveAddress : string) : TransactionMessage :=
  MsgEditOrder {| eo_orderId := orderId;
                  eo_chainId := chainId;
                  eo_data := data;
                  eo_amountForSale := amountForSale;
                  eo_requestedAmount := requestedAmount;
                  eo_sellerReceiveAddress := sellerReceiveAddress |}.

(** [createDeleteOrderMessage(orderId, chainId)] *)
Definition createDeleteOrderMessage (orderId : string) (chainId : Z)
  : TransactionMessage :=
  MsgDeleteOrder {| do_orderId := orderId; do_chainId := chainId |}.

(** [typeof] and truthiness, at the types of the fields of
    [TransactionParams]: a string is falsy when empty, an object never. *)
Definition typeof_string (_ : string) : string := "string".
Definition typeof_number (_ : Z) : string := "number".
Definition typeof_object (_ : TransactionMessage) : string := "object".
Definition truthy_string (s : string) : bool := negb (String.eqb s "").
Definition truthy_object (_ : TransactionMessage) : bool := true.
Definition differs (a b : string) : bool := negb (String.eqb a b).

(** [validateTransactionParams(params)] *)
Definition validateTransactionParams (params : TransactionParams)
  : Result unit :=
  if negb (truthy_string (type params))
     || differs (typeof_string (type params)) "string" then
    Throw (Error "Invalid message type: must be a non-empty string")
  else if negb (truthy_object (msg params))
          || differs (typeof_object (msg params)) "object" then
    Throw (Error "Invalid message: must be an object")
  else if differs (typeof_number (fee params)) "number"
          || (fee params <? 0) then
    Throw (Error "Invalid fee: must be a non-negative number")
  else if differs (typeof_number (networkID params)) "number"
          || (networkID params <=? 0) then
    Throw (Error "Invalid network ID: must be a positive number")
  else if differs (typeof_number (chainID params)) "number"
          || (chainID params <=? 0) then
    Throw (Error "Invalid chain ID: must be a positive number")
  else if differs (typeof_number (height params)) "number"
          || (height params <? 0) then
    Throw (Error "Invalid height: must be a non-negative number")
  else if truthy_string (memo params)
          && (200 <? String.length (memo params))%nat then
    Throw (Error "Invalid memo: must be 200 characters or less")
  else Ok tt.

(** The error kind of a rejected parameter set: the messages of
    [validateTransactionParams] all start with [Invalid]. *)
Definition InvalidParameter (e : JsError) : Prop :=
  name e = "Error" /\ String.prefix "Invalid " (message e) = true.

(** The validator tests [typeof] and truthiness of every field, and so
    decides on objects that the static types do not admit, and on numbers
    that are not integers: the module below is the same function over the
    values of the language. *)
Module Dynamic.

(** A [number]: an IEEE double, of which the validator sees only the order.
    The finite ones are read as rationals (both zeros as 0). *)
Inductive Number :=
| NaN
| Infinity (negative : bool)
| Finite (q : Q).

Definition Qlt_bool (a b : Q) : bool := negb (Qle_bool b a).

(** [a < b] *)
Definition Number_lt (a b : Number) : bool :=
  match a, b with
  | NaN, _ | _, NaN => false
  | Infinity na, Infinity nb => na && negb nb
  | Infinity na, Finite _ => na
  | Finite _, Infinity nb => negb nb
  | Finite x, Finite y => Qlt_bool x y
  end.

(** [a <= b] *)
Definition Number_le (a b : Number) : bool :=
  match a, b with
  | NaN, _ | _, NaN => false
  | Infinity na, Infinity nb => na || negb nb
  | Infinity na, Finite _ => na
  | Finite _, Infinity nb => negb nb
  | Finite x, Finite y => Qle_bool x y
  end.

(** [a > b] *)
Definition Number_gt (a b : Number) : bool := Number_lt b a.

Definition Number_of_Z (z : Z) : Number := Finite (inject_Z z).
Definition Number_of_nat (n : nat) : Number := Number_of_Z (Z.of_nat n).

(** A value of the language, as far as [typeof], truthiness and the
    [length] property tell values apart.  Of an object (an array included)
    only the number its [length] property converts to is kept, [NaN] when
    it has none. *)
Inductive JsValue :=
| VUndefined
| VNull
| VBoolean (b : bool)
| VNumber (n : Number)
| VString (s : JsString)
| VObject (lengthProperty : Number)
| VFunction (arity : nat)
| VBigInt (z : Z)
| VSymbol.

(** [typeof v] *)
Definition typeof (v : JsValue) : string :=
  match v with
  | VUndefined => "undefined"
  | VNull => "object"
  | VBoolean _ => "boolean"
  | VNumber _ => "number"
  | VString _ => "string"
  | VObject _ => "object"
  | VFunction _ => "function"
  | VBigInt _ => "bigint"
  | VSymbol => "symbol"
  end.

(** [ToBoolean(v)], the test of [!v] and of [v && ...] *)
Definition truthy (v : JsValue) : bool :=
  match v with
  | VUndefined | VNull => false
  | VBoolean b => b
  | VNumber NaN => false
  | VNumber (Infinity _) => true
  | VNumber (Finite q) => negb (Qeq_bool q 0)
  | VString s => match s with [] => false | _ => true end
  | VObject _ | VFunction _ | VSymbol => true
  | VBigInt z => negb (z =? 0)
  end.

(** The number a value is; read only where [typeof] has answered
    ["number"], to the right of [||]. *)
Definition numberOf (v : JsValue) : Number :=
  match v with VNumber n => n | _ => NaN end.

(** [v.length], as the number a comparison converts it to: reading a
    property of [undefined] or [null] throws a [TypeError] (its text is the
    engine's), a value without the property gives [undefined], which
    converts to [NaN]. *)
Definition get_length (v : JsValue) : Result Number :=
  match v with
  | VUndefined | VNull =>
      Throw (mkJsError "TypeError" "")
  | VString s => Ok (Number_of_nat (List.length s))
  | VObject lengthProperty => Ok lengthProperty
  | VFunction arity => Ok (Number_of_nat arity)
  | VBoolean _ | VNumber _ | VBigInt _ | VSymbol => Ok NaN
  end.

(** The argument of [validateTransactionParams] as the function itself
    treats it: an object whose properties may hold any value (a missing
    property reads as [undefined]). *)
Record RawParams := mkRawParams {
  type : JsValue;
  msg : JsValue;
  fee : JsValue;
  memo : JsValue;
  networkID : JsValue;
  chainID : JsValue;
  height : JsValue }.

(** [validateTransactionParams(params)] *)
Definition validateTransactionParams (params : RawParams) : Result unit :=
  if negb (truthy (type params))
     || differs (typeof (type params)) "string" then
    Throw (Error "Invalid message type: must be a non-empty string")
  else if negb (truthy (msg params))
          || differs (typeof (msg params)) "object" then
    Throw (Error "Invalid message: must be an object")
  else if differs (typeof (fee params)) "number"
          || Number_lt (numberOf (fee params)) (Number_of_Z 0) then
    Throw (Error "Invalid fee: must be a non-negative number")
  else if differs (typeof (networkID params)) "number"
          || Number_le (numberOf (networkID params)) (Number_of_Z 0) then
    Throw (Error "Invalid network ID: must be a positive number")
  else if differs (typeof (chainID params)) "number"
          || Number_le (numberOf (chainID params)) (Number_of_Z 0) then
    Throw (Error "Invalid chain ID: must be a positive number")
  else if differs (typeof (height params)) "number"
          || Number_lt (numberOf (height params)) (Number_of_Z 0) then
    Throw (Error "Invalid height: must be a non-negative number")
  else if truthy (memo params) then
    match get_length (memo params) with
    | Throw e => Throw e
    | Ok len =>
        if Number_gt len (Number_of_Z 200) then
          Throw (Error "Invalid memo: must be 200 characters or less")
        else Ok tt
    end
  else Ok tt.

(** The order of numbers, as propositions: [NaN] is below nothing and
    above nothing. *)
Definition below (n : Number) (q : Q) : Prop :=
  match n with
  | NaN => False
  | Infinity negative => negative = true
  | Finite x => (x < q)%Q
  end.

Definition atMost (n : Number) (q : Q) : Prop :=
  match n with
  | NaN => False
  | Infinity negative => negative = true
  | Finite x => (x <= q)%Q
  end.

Definition above (n : Number) (q : Q) : Prop :=
  match n with
  | NaN => False
  | Infinity negative => negative = false
  | Finite x => (q < x)%Q
  end.

Definition isNumber (v : JsValue) : Prop := exists n, v = VNumber n.

(** What the validator refuses, field by field. *)
Definition badType (v : JsValue) : Prop :=
  forall s, v = VString s -> s = [].
Definition badMessage (v : JsValue) : Prop :=
  forall lengthProperty, v <> VObject lengthProperty.
Definition notNumberOrBelow (v : JsValue) (q : Q) : Prop :=
  forall n, v = VNumber n -> below n q.
Definition notNumberOrAtMost (v : JsValue) (q : Q) : Prop :=
  forall n, v = VNumber n -> atMost n q.
Definition longerThan (v : JsValue) (q : Q) : Prop :=
  match v with
  | VString s => (q < inject_Z (Z.of_nat (List.length s)))%Q
  | VObject lengthProperty => above lengthProperty q
  | VFunction arity => (q < inject_Z (Z.of_nat arity))%Q
  | _ => False
  end.

Definition refused (params : RawParams) : Prop :=
  badType (type params)
  \/ badMessage (msg params)
  \/ notNumberOrBelow (fee params) 0
  \/ notNumberOrAtMost (networkID params) 0
  \/ notNumberOrAtMost (chainID params) 0
  \/ notNumberOrBelow (height params) 0
  \/ longerThan (memo params) 200.

End Dynamic.

(** A well-typed parameter set with integer numbers, as the validator
    receives it. *)
Definition rawOf (p : TransactionParams) : Dynamic.RawParams :=
  {| Dynamic.type := Dynamic.VString (js (type p));
     Dynamic.msg := Dynamic.VObject Dynamic.NaN;
     Dynamic.fee := Dynamic.VNumber (Dynamic.Number_of_Z (fee p));
     Dynamic.memo := Dynamic.VString (js (memo p));
     Dynamic.networkID := Dynamic.VNumber (Dynamic.Number_of_Z (networkID p));
     Dynamic.chainID := Dynamic.VNumber (Dynamic.Number_of_Z (chainID p));
     Dynamic.height := Dynamic.VNumber (Dynamic.Number_of_Z (height p)) |}.

(* ------------------------------------------------------------------ *)
(** ** [src/lib/crypto/utils/order.ts] *)

Record OrderParams := mkOrderParams {
  op_chainId : Z;
  op_data : string;
  op_amountForSale : Z;
  op_requestedAmount : Z;
  op_sellerReceiveAddress : string;
  op_sellersSendAddress : string }.

Record EditParams := mkEditParams {
  ep_orderId : string;
  ep_chainId : Z;
  ep_data : string;
  ep_amountForSale : Z;
  ep_requestedAmount : Z;
  ep_sellerReceiveAddress : string }.

Record DeleteParams := mkDeleteParams {
  dp_orderId : string;
  dp_chainId : Z }.

Record NetworkParams := mkNetworkParams {
  np_networkID : Z;
  np_chainID : Z;
  np_currentHeight : Z;
  np_fee : Z }.

(** [s.length] as a JavaScript number *)
Definition String_length (s : string) : Q :=
  inject_Z (Z.of_nat (String.length s)).

(** The curve detection every flow below carries out in line:
    [publicKey.length / 2 === 48 ? CurveType.BLS12381 : CurveType.ED25519]. *)
Definition curveTypeOf (publicKeyHex : string) : CurveType :=
  let publicKeyBytes := (String_length publicKeyHex / 2)%Q in
  if Qeq_bool publicKeyBytes 48 then BLS12381 else ED25519.

Section Order.
Context {P : Platform}.

(** [createSignedOrder(storedKey, password, orderParams, networkParams)] *)
Definition createSignedOrder (storedKey : CanopyWalletAccount)
    (password : JsString) (orderParams : OrderParams)
    (networkParams : NetworkParams) : M SendRawTransactionRequest :=
  privateKeyBytes <- decryptPrivateKey (encryptedKeyfile storedKey) password ;;
  bytes <- readView privateKeyBytes ;;
  let privateKeyHex := String.concat "" (map byteToHex bytes) in
  let publicKeyBytes :=
    (String_length (publicKey (encryptedKeyfile storedKey)) / 2)%Q in
  let curveType :=
    if Qeq_bool publicKeyBytes 48 then BLS12381 else ED25519 in
  let orderMsg :=
    createOrderMessage (op_chainId orderParams) (op_data orderParams)
      (op_amountForSale orderParams) (op_requestedAmount orderParams)
      (op_sellerReceiveAddress orderParams)
      (op_sellersSendAddress orderParams) in
  let txParams :=
    {| type := "createOrder";
       msg := MsgCreateOrder orderMsg;
       fee := np_fee networkParams;
       memo := "";
       networkID := np_networkID networkParams;
       chainID := np_chainID networkParams;
       height := np_currentHeight networkParams |} in
  signedTx <- createAndSignTransaction txParams privateKeyHex
                (publicKey (encryptedKeyfile storedKey)) curveType ;;
  ret signedTx.

(** [createSignedEditOrder(storedKey, password, editParams, networkParams)] *)
Definition createSignedEditOrder (storedKey : CanopyWalletAccount)
    (password : JsString) (editParams : EditParams)
    (networkParams : NetworkParams) : M SendRawTransactionRequest :=
  privateKeyBytes <- decryptPrivateKey (encryptedKeyfile storedKey) password ;;
  bytes <- readView privateKeyBytes ;;
  let privateKeyHex := String.concat "" (map byteToHex bytes) in
  let publicKeyBytes :=
    (String_length (publicKey (encryptedKeyfile storedKey)) / 2)%Q in
  let curveType :=
    if Qeq_bool publicKeyBytes 48 then BLS12381 else ED25519 in
  let editMsg :=
    createEditOrderMessage (ep_orderId editParams) (ep_chainId editParams)
      (ep_data editParams) (ep_amountForSale editParams)
      (ep_requestedAmount editParams)
      (ep_sellerReceiveAddress editParams) in
  let txParams :=
    {| type := "editOrder";
       msg := editMsg;
       fee := np_fee networkParams;
       memo := "";
       networkID := np_networkID networkParams;
       chainID := np_chainID networkParams;
       height := np_currentHeight networkParams |} in
  signedTx <- createAndSignTransaction txParams privateKeyHex
                (publicKey (encryptedKeyfile storedKey)) curveType ;;
  ret signedTx.

(** [createSignedDeleteOrder(storedKey, password, deleteParams,
    networkParams)] *)
Definition createSignedDeleteOrder (storedKey : CanopyWalletAccount)
    (password : JsString) (deleteParams : DeleteParams)
    (networkParams : NetworkParams) : M SendRawTransactionRequest :=
  privateKeyBytes <- decryptPrivateKey (encryptedKeyfile storedKey) password ;;
  bytes <- readView privateKeyBytes ;;
  let privateKeyHex := String.concat "" (map byteToHex bytes) in
  let publicKeyBytes :=
    (String_length (publicKey (encryptedKeyfile storedKey)) / 2)%Q in
  let curveType :=
    if Qeq_bool publicKeyBytes 48 then BLS12381 else ED25519 in
  let deleteMsg :=
    createDeleteOrderMessage (dp_orderId deleteParams)
      (dp_chainId deleteParams) in
  let txParams :=
    {| type := "deleteOrder";
       msg := deleteMsg;
       fee := np_fee networkParams;
       memo := "";
       networkID := np_networkID networkParams;
       chainID := np_chainID networkParams;
       height := np_currentHeight networkParams |} in
  signedTx <- createAndSignTransaction txParams privateKeyHex
                (publicKey (encryptedKeyfile storedKey)) curveType ;;
  ret signedTx.

End Order.

(* ------------------------------------------------------------------ *)
(** ** [src/lib/crypto.ts]: [CryptoUtils.clearSensitiveData] *)

(** [s.repeat(n)] *)
Fixpoint String_repeat (s : string) (n : nat) : string :=
  match n with
  | O => ""
  | S n' => (s ++ String_repeat s n')%string
  end.

(** [data.forEach(f)] *)
Fixpoint forEach {A} (data : list A) (f : A -> M unit) : M unit :=
  match data with
  | [] => ret tt
  | item :: rest => f item ;;; forEach rest f
  end.

(** [clearSensitiveData(...data)].  The callback assigns to its own
    parameter [item]; a string is immutable and the new value is dropped when
    the callback returns. *)
Definition clearSensitiveData (data : list (option string)) : M unit :=
  forEach data
    (fun item =>
       let item :=
         match item with
         | Some s =>
             if truthy_string s && String.eqb (typeof_string s) "string"
             then Some (String_repeat (String (ascii_of_nat 0) "")
                                      (String.length s))
             else item
         | None => item
         end in
       ret tt).

(* ------------------------------------------------------------------ *)
(** ** Observations on a run *)

(** The world after some more primitive calls. *)
Definition logged (evs : list Event) (w : World) : World :=
  mkWorld (heap w) (entropy w) (drawn w) (clock w) (trace w ++ evs).

(** The primitive calls a computation makes from a world. *)
Definition events_of {A} (m : M A) (w : World) : list Event :=
  skipn (List.length (trace w)) (trace (snd (m w))).

Definition signed_with (c : CurveType) (e : Event) : Prop :=
  match e with
  | EvSignMessage _ _ c' => c' = c
  | _ => True
  end.

(** Every signature of the run is made under curve [c], and a run that
    returns has made one. *)
Definition signs_with {A} (c : CurveType) (m : M A) (w : World) : Prop :=
  Forall (signed_with c) (events_of m w)
  /\ (isOk (fst (m w)) = true ->
      exists signBytes privateKeyHex,
        In (EvSignMessage signBytes privateKeyHex c) (events_of m w)).

(** The salt [encryptPrivateKey] draws when started in world [w]. *)
Definition freshSalt (w : World) : list byte :=
  map (entropy w) (seq (drawn w) SALT_LENGTH).

(** The key material a password derives under the salt of a keyfile. *)
Definition derivedKeyOf {P : Platform} (password : JsString)
    (kf : EncryptedCanopyKeyfile) : Result (list byte) :=
  match hexToBytes (salt kf) with
  | Ok s => argon2i (TextEncoder_encode password) s ARGON2_PARAMS.t
                    ARGON2_PARAMS.m ARGON2_PARAMS.p 32
  | Throw e => Throw e
  end.

(** What AES-GCM answers for the ciphertext of a keyfile under the key and
    the nonce a password derives: the authenticated plaintext, or [None]
    when authentication fails (or nothing decodes or derives). *)
Definition aeadOutcome {P : Platform} (password : JsString)
    (kf : EncryptedCanopyKeyfile) : option (list byte) :=
  match derivedKeyOf password kf, hexToBytes (encrypted kf) with
  | Ok key, Ok ciphertext =>
      aes_gcm_decrypt key (firstn NONCE_LENGTH key) ciphertext
  | _, _ => None
  end.

(** [encryptPrivateKey(Uint8Array.from(pub), Uint8Array.from(k), p, addr)]:
    encryption of two byte sequences, each in an array of its own. *)
Definition encryptBytes {P : Platform} (pub k : list byte) (p : JsString)
    (addr : string) : M EncryptedCanopyKeyfile :=
  privateKeyBytes <- new_Uint8Array k ;;
  publicKeyBytes <- new_Uint8Array pub ;;
  encryptPrivateKey publicKeyBytes privateKeyBytes p addr.

(** What [decryptPrivateKey] may ask of the primitives: the key is derived
    from the password and the salt of the keyfile, and the iv of the
    decryption is the head of that key. *)
Definition nonce_from_key {P : Platform} (password : JsString)
    (kf : EncryptedCanopyKeyfile) (e : Event) : Prop :=
  match e with
  | EvArgon2i pw s =>
      pw = TextEncoder_encode password /\ hexToBytes (salt kf) = Ok s
  | EvImportKey key => derivedKeyOf password kf = Ok key
  | EvAesGcmDecrypt key iv data =>
      derivedKeyOf password kf = Ok key /\ iv = firstn NONCE_LENGTH key
      /\ hexToBytes (encrypted kf) = Ok data
  | _ => False
  end.

(** The unsigned transaction [createAndSignTransaction] assembles at time
    [now] (milliseconds). *)
Definition unsignedOf (params : TransactionParams) (now : Z)
  : UnsignedTransaction :=
  {| tx_type := type params;
     tx_msg := msg params;
     tx_time := now * 1000;
     tx_createdHeight := height params;
     tx_fee := fee params;
     tx_memo := memo params;
     tx_networkID := networkID params;
     tx_chainID := chainID params |}.

(** The parameters the three flows hand to [createAndSignTransaction]. *)
Definition orderTxParams (orderParams : OrderParams)
    (networkParams : NetworkParams) : TransactionParams :=
  {| type := "createOrder";
     msg := MsgCreateOrder
              (createOrderMessage (op_chainId orderParams) (op_data orderParams)
                 (op_amountForSale orderParams) (op_requestedAmount orderParams)
                 (op_sellerReceiveAddress orderParams)
                 (op_sellersSendAddress orderParams));
     fee := np_fee networkParams;
     memo := "";
     networkID := np_networkID networkParams;
     chainID := np_chainID networkParams;
     height := np_currentHeight networkParams |}.

Definition editTxParams (editParams : EditParams)
    (networkParams : NetworkParams) : TransactionParams :=
  {| type := "editOrder";
     msg := createEditOrderMessage (ep_orderId editParams)
              (ep_chainId editParams) (ep_data editParams)
              (ep_amountForSale editParams) (ep_requestedAmount editParams)
              (ep_sellerReceiveAddress editParams);
     fee := np_fee networkParams;
     memo := "";
     networkID := np_networkID networkParams;
     chainID := np_chainID networkParams;
     height := np_currentHeight networkParams |}.

Definition deleteTxParams (deleteParams : DeleteParams)
    (networkParams : NetworkParams) : TransactionParams :=
  {| type := "deleteOrder";
     msg := createDeleteOrderMessage (dp_orderId deleteParams)
              (dp_chainId deleteParams);
     fee := np_fee networkParams;
     memo := "";
     networkID := np_networkID networkParams;
     chainID := np_chainID networkParams;
     height := np_currentHeight networkParams |}.

(** Once [decryptPrivateKey] has returned the key and the transaction of
    [txParams] has canonical bytes, the run of [flow] calls what decryption
    calls and then [signMessage], once: on those bytes, with the hex of the
    decrypted key, under curve [c]. *)
Definition signs_once_under {P : Platform} {A} (c : CurveType)
    (kf : EncryptedCanopyKeyfile) (password : JsString)
    (txParams : TransactionParams) (flow : M A) (w : World) : Prop :=
  forall arr w1 signBytes,
    decryptPrivateKey kf password w = (Ok arr, w1) ->
    wire_encode (unsignedOf txParams (clock w)) = Some signBytes ->
    events_of flow w
    = events_of (decryptPrivateKey kf password) w
      ++ [EvSignMessage signBytes (bytesToHex (viewBytes w1 arr)) c].

(** The shape the three flows share: decrypt, read the key as hex, sign. *)
Definition decryptThenSign {P : Platform} (kf : EncryptedCanopyKeyfile)
    (password : JsString) (txParams : TransactionParams) (c : CurveType)
  : M SendRawTransactionRequest :=
  fun w =>
    match decryptPrivateKey kf password w with
    | (Ok privateKeyBytes, w1) =>
        createAndSignTransaction txParams
          (bytesToHex (viewBytes w1 privateKeyBytes)) (publicKey kf) c w1
    | (Throw e, w1) => (Throw e, w1)
    end.

(** The parameter bounds of the builder. *)
Definition within_bounds (params : TransactionParams) : Prop :=
  type params <> ""
  /\ 0 <= fee params
  /\ 0 < networkID params
  /\ 0 < chainID params
  /\ 0 <= height params
  /\ (String.length (memo params) <= 200)%nat.

(* ------------------------------------------------------------------ *)
(** ** A platform small enough to run

    Not a cipher: the envelope carries key and iv in clear in front of the
    data.  It obeys the laws above, and serves to run the code on concrete
    inputs. *)

Fixpoint bytes_eqb (a b : list byte) : bool :=
  match a, b with
  | [], [] => true
  | x :: a', y :: b' => Byte.eqb x y && bytes_eqb a' b'
  | _, _ => false
  end.

Definition toy_argon2i (password salt : list byte) (t m p dkLen : Z)
  : Result (list byte) :=
  if (List.length salt <? 8)%nat
  then Throw (Error "salt should be at least 8 bytes")
  else Ok (firstn (Z.to_nat dkLen)
                  (password ++ salt ++ repeat Byte.x00 (Z.to_nat dkLen))).

Definition toy_encrypt (key iv data : list byte) : list byte :=
  (key ++ iv) ++ data.

Definition toy_decrypt (key iv data : list byte) : option (list byte) :=
  let header := key ++ iv in
  if bytes_eqb header (firstn (List.length header) data)
  then Some (skipn (List.length header) data)
  else None.

Definition toy_wire_encode (tx : UnsignedTransaction) : option (list byte) :=
  if String.eqb (tx_type tx) "" then None
  else Some (map byte_of_N (map N_of_ascii (list_ascii_of_string (tx_type tx)))).

Definition toy_sign (c : CurveType) (m : list byte) (k : string)
  : option (list byte) :=
  if (String.length k =? 64)%nat then
    match c with
    | ED25519 => Some (repeat Byte.x01 64)
    | BLS12381 => Some (repeat Byte.x02 96)
    end
  else None.

Definition ToyPlatform : Platform :=
  {| argon2i := toy_argon2i;
     aes_gcm_encrypt := toy_encrypt;
     aes_gcm_decrypt := toy_decrypt;
     wire_encode := toy_wire_encode;
     curve_sign := toy_sign |}.

(** The world before a call: an empty heap, a counting random source. *)
Definition w0 : World :=
  {| heap := [];
     entropy := fun i => byte_of_N (N.of_nat i);
     drawn := 0;
     clock := 1700000000000;
     trace := [] |}.

(** Sample inputs. *)
Definition sampleKey : list byte := repeat Byte.x01 32.
Definition samplePublicKey : list byte := repeat Byte.xaa 32.
Definition sampleKeyfile : EncryptedCanopyKeyfile :=
  {| publicKey :=
       "aaaaaaaaaaaaaaaaaaaaaaaaaaaaaaaaaaaaaaaaaaaaaaaaaaaaaaaaaaaaaaaa";
     encrypted :=
       "636f72726563742d70617373776f7264000102030405060708090a0b0c0d0e0f636f72726563742d706173730101010101010101010101010101010101010101010101010101010101010101";
     salt := "000102030405060708090a0b0c0d0e0f";
     keyAddress := "addr";
     keyNickname := "" |}.
Definition sampleAccount : CanopyWalletAccount :=
  {| encryptedKeyfile := sampleKeyfile |}.
Definition sampleOrder : OrderParams :=
  {| op_chainId := 1; op_data := ""; op_amountForSale := 100;
     op_requestedAmount := 50; op_sellerReceiveAddress := "aa";
     op_sellersSendAddress := "bb" |}.
Definition sampleEdit : EditParams :=
  {| ep_orderId := "0f"; ep_chainId := 1; ep_data := "";
     ep_amountForSale := 100; ep_requestedAmount := 50;
     ep_sellerReceiveAddress := "aa" |}.
Definition sampleDelete : DeleteParams :=
  {| dp_orderId := "0f"; dp_chainId := 1 |}.
Definition sampleNetwork : NetworkParams :=
  {| np_networkID := 1; np_chainID := 1; np_currentHeight := 500;
     np_fee := 10000 |}.
Definition negativeFeeNetwork : NetworkParams :=
  {| np_networkID := 1; np_chainID := 1; np_currentHeight := 500;
     np_fee := -1 |}.

(* ------------------------------------------------------------------ *)
(** ** [btoa] and [atob] of the platform *)

(** The base64 alphabet, by index. *)
Definition base64Char (i : N) : ascii :=
  (if i <? 26 then ascii_of_N (65 + i)
   else if i <? 52 then ascii_of_N (97 + (i - 26))
   else if i <? 62 then ascii_of_N (48 + (i - 52))
   else if i =? 62 then "+"%char
   else "/"%char)%N.

Definition base64Index (ch : ascii) : option N :=
  let c := N_of_ascii ch in
  (if (65 <=? c) && (c <=? 90) then Some (c - 65)
   else if (97 <=? c) && (c <=? 122) then Some (c - 97 + 26)
   else if (48 <=? c) && (c <=? 57) then Some (c - 48 + 52)
   else if c =? 43 then Some 62
   else if c =? 47 then Some 63
   else None)%N.

(** [btoa] on the code units of a binary string: three bytes give four
    characters, and a last group of one or two bytes is padded with [=]. *)
Fixpoint btoa_chars (bs : list N) : list ascii :=
  match bs with
  | [] => []
  | [b1] =>
      [base64Char (b1 / 4); base64Char ((b1 mod 4) * 16); "="; "="]%char%N
  | [b1; b2] =>
      [base64Char (b1 / 4); base64Char ((b1 mod 4) * 16 + b2 / 16);
       base64Char ((b2 mod 16) * 4); "="]%char%N
  | b1 :: b2 :: b3 :: rest =>
      [base64Char (b1 / 4); base64Char ((b1 mod 4) * 16 + b2 / 16);
       base64Char ((b2 mod 16) * 4 + b3 / 64); base64Char (b3 mod 64)]%N
        ++ btoa_chars rest
  end.

(** [btoa(binary)]; a binary string made of bytes has no code unit above
    255, so the call cannot throw. *)
Definition btoa (binary : string) : string :=
  string_of_list_ascii
    (btoa_chars (map N_of_ascii (list_ascii_of_string binary))).

Definition InvalidCharacterError : JsError :=
  mkJsError "InvalidCharacterError"
            "The string to be decoded is not correctly encoded.".

Definition isAsciiWhitespace (ch : ascii) : bool :=
  let c := N_of_ascii ch in
  ((c =? 9) || (c =? 10) || (c =? 12) || (c =? 13) || (c =? 32))%N.

(** Step 2 of forgiving-base64 decoding: when the length is a multiple of
    four, one or two [=] at the end are removed. *)
Definition stripPadding (data : list ascii) : list ascii :=
  if (List.length data mod 4 =? 0)%nat then
    match rev data with
    | c1 :: r1 =>
        if Ascii.eqb c1 "=" then
          match r1 with
          | c2 :: r2 => if Ascii.eqb c2 "=" then rev r2 else rev r1
          | [] => rev r1
          end
        else data
    | [] => data
    end
  else data.

(** The sextets of the characters, when all are of the alphabet. *)
Fixpoint sextets (data : list ascii) : option (list N) :=
  match data with
  | [] => Some []
  | ch :: rest =>
      match base64Index ch, sextets rest with
      | Some i, Some l => Some (i :: l)
      | _, _ => None
      end
  end.

(** Four sextets give three bytes; of a last group of two or three
    sextets the low 4 or 2 bits are dropped. *)
Fixpoint bytesOfSextets (l : list N) : list N :=
  match l with
  | s1 :: s2 :: s3 :: s4 :: rest =>
      [s1 * 4 + s2 / 16; (s2 mod 16) * 16 + s3 / 4; (s3 mod 4) * 64 + s4]%N
        ++ bytesOfSextets rest
  | [s1; s2; s3] => [s1 * 4 + s2 / 16; (s2 mod 16) * 16 + s3 / 4]%N
  | [s1; s2] => [s1 * 4 + s2 / 16]%N
  | _ => []
  end.

(** [atob(data)]: forgiving-base64 decoding. *)
Definition atob (data : string) : Result string :=
  let d := filter (fun ch => negb (isAsciiWhitespace ch))
                  (list_ascii_of_string data) in
  let d := stripPadding d in
  if (List.length d mod 4 =? 1)%nat then Throw InvalidCharacterError
  else match sextets d with
       | None => Throw InvalidCharacterError
       | Some l => Ok (string_of_list_ascii (map ascii_of_N (bytesOfSextets l)))
       end.

(** The sextets and the padding [btoa] writes for a list of bytes. *)
Fixpoint sextetsOf (bs : list N) : list N :=
  match bs with
  | [] => []
  | [b1] => [b1 / 4; (b1 mod 4) * 16]%N
  | [b1; b2] => [b1 / 4; (b1 mod 4) * 16 + b2 / 16; (b2 mod 16) * 4]%N
  | b1 :: b2 :: b3 :: rest =>
      [b1 / 4; (b1 mod 4) * 16 + b2 / 16; (b2 mod 16) * 4 + b3 / 64;
       b3 mod 64]%N ++ sextetsOf rest
  end.

Fixpoint paddingOf (bs : list N) : list ascii :=
  match bs with
  | [] => []
  | [_] => ["="; "="]%char
  | [_; _] => ["="]%char
  | _ :: _ :: _ :: rest => paddingOf rest
  end.

(** Ranges of a byte and of a base64 digit. *)
Definition isByte (n : N) : Prop := (n < 256)%N.
Definition isSextet (n : N) : Prop := (n < 64)%N.

(* ------------------------------------------------------------------ *)
(** ** [src/lib/crypto.ts]: the rest of [CryptoUtils] *)

(** What [CryptoUtils] takes from its environment: the application secret
    of the configuration, PBKDF2 (password bytes, salt, iterations, key
    length in bits) and SHA-256 of Web Crypto, and [TextDecoder]. *)
Class AppPlatform := {
  KEYFILE_SECRET : JsString;
  pbkdf2_sha256 : list byte -> list byte -> Z -> Z -> list byte;
  sha256 : list byte -> list byte;
  TextDecoder_decode : list byte -> JsString }.

(** [String(error)] of a template literal: [Error.prototype.toString]. *)
Definition Error_toString (e : JsError) : string :=
  if String.eqb (name e) "" then message e
  else if String.eqb (message e) "" then name e
  else (name e ++ ": " ++ message e)%string.

Module CryptoUtils.

Definition SALT_LENGTH : nat := 16.
Definition IV_LENGTH : nat := 12.
Definition KEY_LENGTH : Z := 256.
Definition ITERATIONS : Z := 100000.

Record EncryptedData := mkEncryptedData {
  ed_encryptedData : string;
  ed_salt : string;
  ed_iv : string }.

(** [String.fromCharCode(b)] of a byte, and [s.charCodeAt(i)] stored in a
    [Uint8Array] cell. *)
Definition fromCharCode (b : byte) : ascii := ascii_of_N (Byte.to_N b).
Definition charCodeAt (ch : ascii) : byte := byte_of_N (N_of_ascii ch).

(** [arrayBufferToBase64(buffer)] *)
Definition arrayBufferToBase64 (buffer : list byte) : string :=
  let binary :=
    fold_left (fun binary b => (binary ++ String (fromCharCode b) "")%string)
              buffer "" in
  btoa binary.

(** [base64ToArrayBuffer(base64)] *)
Definition base64ToArrayBuffer (base64 : string) : Result (list byte) :=
  match atob base64 with
  | Ok binary => Ok (map charCodeAt (list_ascii_of_string binary))
  | Throw e => Throw e
  end.

Section Methods.
Context {P : Platform} {A : AppPlatform}.

(** [generateSalt()] *)
Definition generateSalt : M (list byte) := getRandomValues SALT_LENGTH.

(** [generateIV()] *)
Definition generateIV : M (list byte) := getRandomValues IV_LENGTH.

(** [deriveKey(appSecret, salt)]: [crypto.subtle.importKey] of the secret
    as PBKDF2 key material, then [crypto.subtle.deriveKey], which gives the
    AES-GCM key (here its bytes).  Raw PBKDF2 material of any length is
    imported, and the derivation is called with a positive iteration count,
    SHA-256 and a 256-bit AES-GCM key: neither call rejects its input. *)
Definition deriveKey (appSecret : JsString) (salt : list byte)
  : M (list byte) :=
  let secretBuffer := TextEncoder_encode appSecret in
  emit (EvImportKey secretBuffer) ;;;
  let keyMaterial := secretBuffer in
  emit (EvDeriveKey keyMaterial salt ITERATIONS KEY_LENGTH) ;;;
  ret (pbkdf2_sha256 keyMaterial salt ITERATIONS KEY_LENGTH).

(** [encrypt(data)] *)
Definition encrypt (data : JsString) : M EncryptedData :=
  try_catch
    (let dataBuffer := TextEncoder_encode data in
     salt <- generateSalt ;;
     iv <- generateIV ;;
     key <- deriveKey KEYFILE_SECRET salt ;;
     encryptedBuffer <- subtle_encrypt iv key dataBuffer ;;
     ret {| ed_encryptedData := arrayBufferToBase64 encryptedBuffer;
            ed_salt := arrayBufferToBase64 salt;
            ed_iv := arrayBufferToBase64 iv |})
    (fun error =>
       throw (Error ("Encryption failed: " ++ Error_toString error)%string)).

(** [decrypt(encryptedData)] *)
Definition decrypt (encryptedData : EncryptedData) : M JsString :=
  try_catch
    (dataBuffer <- lift (base64ToArrayBuffer
                           (ed_encryptedData encryptedData)) ;;
     salt <- lift (base64ToArrayBuffer (ed_salt encryptedData)) ;;
     iv <- lift (base64ToArrayBuffer (ed_iv encryptedData)) ;;
     key <- deriveKey KEYFILE_SECRET salt ;;
     decryptedBuffer <- subtle_decrypt iv key dataBuffer ;;
     ret (TextDecoder_decode decryptedBuffer))
    (fun error =>
       throw (Error ("Decryption failed: " ++ Error_toString error)%string)).

(** [hash(data)] *)
Definition hash (data : JsString) : M string :=
  let dataBuffer := TextEncoder_encode data in
  let hashBuffer := sha256 dataBuffer in
  ret (arrayBufferToBase64 hashBuffer).

End Methods.

End CryptoUtils.

(** A small [AppPlatform] to run [CryptoUtils] on. *)
Definition ToyApp : AppPlatform :=
  {| KEYFILE_SECRET := js "app-secret";
     pbkdf2_sha256 := fun password salt _ bits =>
       firstn (Z.to_nat (bits / 8))
              (salt ++ password ++ repeat Byte.x00 (Z.to_nat (bits / 8)));
     sha256 := fun data =>
       firstn 32 (data ++ repeat Byte.x00 32);
     TextDecoder_decode := fun bytes => map Byte.to_N bytes |}.

(** A platform whose key derivation fails. *)
Definition FailingKdf : Platform :=
  {| argon2i := fun _ _ _ _ _ _ => Throw (Error "memory allocation failed");
     aes_gcm_encrypt := toy_encrypt;
     aes_gcm_decrypt := toy_decrypt;
     wire_encode := toy_wire_encode;
     curve_sign := toy_sign |}.

(* ------------------------------------------------------------------ *)
(** ** The order summary component: its two handlers

    [handleEditAskOrder] and [handleDeleteAskOrder] of the component that
    edits or cancels an ask order.  The props, the values of the hooks and
    the text of the two inputs are a record; what the handlers do to the
    user interface (toasts, the loading flag, [onClose], the submission) is
    recorded in a [Ui] state passed along with the world.  The helpers the
    component imports are parameters, taken to return without throwing. *)

Module EditCloseOrderSummary.

Record Asset := mkAsset { symbol : string }.

Record TradingPair := mkTradingPair {
  committee : Z;
  contractAddress : string;
  baseAsset : Asset;
  quoteAsset : Asset }.

(** [transaction.rawData.order] *)
Record Order := mkOrder {
  id : string;
  sellerReceiveAddress : string }.

(** [selectedCanopyWallet]: the account with its file name. *)
Record SelectedWallet := mkSelectedWallet {
  filename : string;
  account : CanopyWalletAccount }.

Record Props := mkProps {
  tradingPair : TradingPair;
  isBuySide : bool;
  selectedCanopyWallet : option SelectedWallet;   (* useWallets() *)
  order : option Order;                           (* transaction.rawData.order *)
  height : option Z;                              (* usePollingData(): height?.height *)
  payInput : string;
  receiveInput : string }.

(** The imports of the component that are not among the sources. *)
Class Imports := {
  MINIMUN_FEE : Z;
  (** [getKeyfilePassword(filename)], [None] for no stored password *)
  getKeyfilePassword : string -> option JsString;
  (** [numberToBlockchainUValue(Number(text))] *)
  numberToBlockchainUValue : string -> Z;
  sliceAddress : string -> string;
  (** [submitSignedTransaction(signedTx, committee)], as its outcome *)
  submitSignedTransaction : SendRawTransactionRequest -> Z -> Result unit }.

Inductive Toast :=
| ErrorToast (description : string)
| ProgressToast (title payAssetSymbol receiveAssetSymbol : string).

Record Ui := mkUi {
  isLoading : bool;
  toasts : list Toast;
  submitted : list (SendRawTransactionRequest * Z);
  closed : nat }.

(** Computations of a handler: the [Ui] besides the world. *)
Definition UM (A : Type) : Type := Ui -> World -> Result A * Ui * World.

Definition uret {A} (a : A) : UM A := fun ui w => (Ok a, ui, w).
Definition ubind {A B} (m : UM A) (k : A -> UM B) : UM B :=
  fun ui w => match m ui w with
              | (Ok a, ui', w') => k a ui' w'
              | (Throw e, ui', w') => (Throw e, ui', w')
              end.
(** [await m] of a computation of the core. *)
Definition await {A} (m : M A) : UM A :=
  fun ui w => let (r, w') := m w in (r, ui, w').
(** [try { m } catch (error) { h error } finally { f }], for a handler and a
    final block that do not throw. *)
Definition try_catch_finally (m : UM unit) (h : JsError -> Ui -> Ui)
    (f : Ui -> Ui) : UM unit :=
  fun ui w => match m ui w with
              | (Ok _, ui', w') => (Ok tt, f ui', w')
              | (Throw e, ui', w') => (Ok tt, f (h e ui'), w')
              end.

Definition update (g : Ui -> Ui) : UM unit := fun ui w => (Ok tt, g ui, w).

Definition toast (t : Toast) (ui : Ui) : Ui :=
  mkUi (isLoading ui) (toasts ui ++ [t]) (submitted ui) (closed ui).
Definition setIsLoading (b : bool) (ui : Ui) : Ui :=
  mkUi b (toasts ui) (submitted ui) (closed ui).
Definition onClose (ui : Ui) : Ui :=
  mkUi (isLoading ui) (toasts ui) (submitted ui) (S (closed ui)).

Section Handlers.
Context {P : Platform} {I : Imports}.

(** [await submitSignedTransaction(signedTx, committee)] *)
Definition submit (signedTx : SendRawTransactionRequest) (c : Z) : UM unit :=
  fun ui w =>
    (submitSignedTransaction signedTx c,
     mkUi (isLoading ui) (toasts ui) (submitted ui ++ [(signedTx, c)])
          (closed ui),
     w).

Definition payAsset (props : Props) : Asset :=
  if isBuySide props then baseAsset (tradingPair props)
  else quoteAsset (tradingPair props).
Definition receiveAsset (props : Props) : Asset :=
  if isBuySide props then quoteAsset (tradingPair props)
  else baseAsset (tradingPair props).

(** [height?.height || 0] *)
Definition heightOrZero (h : option Z) : Z :=
  match h with
  | Some n => if n =? 0 then 0 else n
  | None => 0
  end.

(** [{ networkID: tradingPair.committee, chainID: 1,
       currentHeight: height?.height || 0, fee: MINIMUN_FEE }] *)
Definition networkParamsOf (props : Props) : NetworkParams :=
  {| np_networkID := committee (tradingPair props);
     np_chainID := 1;
     np_currentHeight := heightOrZero (height props);
     np_fee := MINIMUN_FEE |}.

Definition editParamsOf (props : Props) (o : Order) : EditParams :=
  {| ep_orderId := id o;
     ep_chainId := committee (tradingPair props);
     ep_data := sliceAddress (contractAddress (tradingPair props));
     ep_amountForSale := numberToBlockchainUValue (payInput props);
     ep_requestedAmount := numberToBlockchainUValue (receiveInput props);
     ep_sellerReceiveAddress := sliceAddress (sellerReceiveAddress o) |}.

Definition deleteParamsOf (props : Props) (o : Order) : DeleteParams :=
  {| dp_orderId := id o;
     dp_chainId := committee (tradingPair props) |}.

(** [handleEditAskOrder()] *)
Definition handleEditAskOrder (props : Props) : UM unit :=
  match selectedCanopyWallet props, order props with
  | Some wallet, Some o =>
      if truthy_string (filename wallet) then
        match getKeyfilePassword (filename wallet) with
        | Some (u :: rest) =>
            let password := u :: rest in
            ubind (update (setIsLoading true)) (fun _ =>
            try_catch_finally
              (ubind (await (createSignedEditOrder (account wallet) password
                               (editParamsOf props o)
                               (networkParamsOf props))) (fun signedTx =>
               ubind (submit signedTx (committee (tradingPair props)))
                 (fun _ =>
               ubind (update (toast (ProgressToast "Edit order in Progress"
                                       (symbol (payAsset props))
                                       (symbol (receiveAsset props)))))
                 (fun _ =>
               update onClose))))
              (fun error =>
                 toast (ErrorToast ("Failed to edit order: "
                                      ++ Error_toString error)%string))
              (setIsLoading false))
        | _ =>
            update (toast (ErrorToast
              "Keyfile password not found. Please re-authenticate your keyfile."))
        end
      else update (toast (ErrorToast "No Canopy wallet or order selected"))
  | _, _ => update (toast (ErrorToast "No Canopy wallet or order selected"))
  end.

(** [handleDeleteAskOrder()] *)
Definition handleDeleteAskOrder (props : Props) : UM unit :=
  match selectedCanopyWallet props, order props with
  | Some wallet, Some o =>
      if truthy_string (filename wallet) then
        match getKeyfilePassword (filename wallet) with
        | Some (u :: rest) =>
            let password := u :: rest in
            ubind (update (setIsLoading true)) (fun _ =>
            try_catch_finally
              (ubind (await (createSignedDeleteOrder (account wallet) password
                               (deleteParamsOf props o)
                               (networkParamsOf props))) (fun signedTx =>
               ubind (submit signedTx (committee (tradingPair props)))
                 (fun _ =>
               ubind (update (toast (ProgressToast "Cancelation in Progress"
                                       (symbol (payAsset props))
                                       (symbol (receiveAsset props)))))
                 (fun _ =>
               update onClose))))
              (fun error =>
                 toast (ErrorToast ("Failed to delete order: "
                                      ++ Error_toString error)%string))
              (setIsLoading false))
        | _ =>
            update (toast (ErrorToast
              "Keyfile password not found. Please re-authenticate your keyfile."))
        end
      else update (toast (ErrorToast "No Canopy wallet or order selected"))
  | _, _ => update (toast (ErrorToast "No Canopy wallet or order selected"))
  end.

(** The guards of both handlers: a wallet with a file name, an order, and a
    non-empty stored password. *)
Definition ready (props : Props) : option (SelectedWallet * Order * JsString) :=
  match selectedCanopyWallet props, order props with
  | Some wallet, Some o =>
      if truthy_string (filename wallet) then
        match getKeyfilePassword (filename wallet) with
        | Some (u :: rest) => Some (wallet, o, u :: rest)
        | _ => None
        end
      else None
  | _, _ => None
  end.

(** What the body of a handler does once the guards have passed. *)
Definition guarded (build : M SendRawTransactionRequest) (c : Z)
    (progress : Toast) (failed : string) : UM unit :=
  ubind (update (setIsLoading true)) (fun _ =>
  try_catch_finally
    (ubind (await build) (fun signedTx =>
     ubind (submit signedTx c) (fun _ =>
     ubind (update (toast progress)) (fun _ =>
     update onClose))))
    (fun error => toast (ErrorToast (failed ++ Error_toString error)%string))
    (setIsLoading false)).

(** The two messages of the guards. *)
Definition noWalletOrOrder : string := "No Canopy wallet or order selected".
Definition noPassword : string :=
  "Keyfile password not found. Please re-authenticate your keyfile.".

End Handlers.

End EditCloseOrderSummary.

(** Imports to run the handlers with: a password for one file name, a
    submission that always succeeds. *)
Definition ToyImports : EditCloseOrderSummary.Imports :=
  {| EditCloseOrderSummary.MINIMUN_FEE := 10000;
     EditCloseOrderSummary.getKeyfilePassword := fun filename =>
       if String.eqb filename "wallet.json"
       then Some (js "correct-password") else None;
     EditCloseOrderSummary.numberToBlockchainUValue := fun text =>
       Z.of_nat (String.length text) * 1000000;
     EditCloseOrderSummary.sliceAddress := fun address => address;
     EditCloseOrderSummary.submitSignedTransaction := fun _ _ => Ok tt |}.

Definition sampleProps : EditCloseOrderSummary.Props :=
  {| EditCloseOrderSummary.tradingPair :=
       EditCloseOrderSummary.mkTradingPair 2 "c0ffee"
         (EditCloseOrderSummary.mkAsset "CNPY")
         (EditCloseOrderSummary.mkAsset "USDC");
     EditCloseOrderSummary.isBuySide := false;
     EditCloseOrderSummary.selectedCanopyWallet :=
       Some (EditCloseOrderSummary.mkSelectedWallet "wallet.json"
               sampleAccount);
     EditCloseOrderSummary.order :=
       Some (EditCloseOrderSummary.mkOrder "0f" "aa");
     EditCloseOrderSummary.height := None;
     EditCloseOrderSummary.payInput := "1";
     EditCloseOrderSummary.receiveInput := "2" |}.

Definition ui0 : EditCloseOrderSummary.Ui :=
  EditCloseOrderSummary.mkUi false [] [] 0.

Definition propsWithoutPassword : EditCloseOrderSummary.Props :=
  EditCloseOrderSummary.mkProps
    (EditCloseOrderSummary.tradingPair sampleProps) false
    (Some (EditCloseOrderSummary.mkSelectedWallet "other.json" sampleAccount))
    (EditCloseOrderSummary.order sampleProps) None "1" "2".

Definition propsWithDamagedKeyfile : EditCloseOrderSummary.Props :=
  EditCloseOrderSummary.mkProps
    (EditCloseOrderSummary.tradingPair sampleProps) false
    (Some (EditCloseOrderSummary.mkSelectedWallet "wallet.json"
             (mkAccount (mkKeyfile "" "" "zz" "" ""))))
    (EditCloseOrderSummary.order sampleProps) None "1" "2".

(** The same imports with a submission that always fails. *)
Definition OfflineImports : EditCloseOrderSummary.Imports :=
  {| EditCloseOrderSummary.MINIMUN_FEE := 10000;
     EditCloseOrderSummary.getKeyfilePassword :=
       EditCloseOrderSummary.getKeyfilePassword (Imports:=ToyImports);
     EditCloseOrderSummary.numberToBlockchainUValue :=
       EditCloseOrderSummary.numberToBlockchainUValue (Imports:=ToyImports);
     EditCloseOrderSummary.sliceAddress := fun address => address;
     EditCloseOrderSummary.submitSignedTransaction := fun _ _ =>
       Throw (mkJsError "TypeError" "Failed to fetch") |}.

(* ================================================================== *)
(** * Properties *)

(* ------------------------------------------------------------------ *)
(** ** Hexadecimal round trip *)

Lemma hexToBytes_loop_byteToHex (b : byte) (rest : string) :
  hexToBytes_loop (byteToHex b ++ rest) =
  match hexToBytes_loop rest with
  | Ok bs => Ok (b :: bs)
  | Throw e => Throw e
  end.
Proof. destruct b; reflexivity. Qed.

Lemma concat_empty_cons (x : string) (xs : list string) :
  String.concat "" (x :: xs) = (x ++ String.concat "" xs)%string.
Proof.
  destruct xs as [|y ys]; simpl.
  - induction x; simpl; congruence.
  - reflexivity.
Qed.

Lemma bytesToHex_cons (b : byte) (bs : list byte) :
  bytesToHex (b :: bs) = (byteToHex b ++ bytesToHex bs)%string.
Proof. unfold bytesToHex. rewrite map_cons. apply concat_empty_cons. Qed.

Lemma bytesToHex_length (bs : list byte) :
  String.length (bytesToHex bs) = (2 * List.length bs)%nat.
Proof.
  induction bs as [|b bs IH]; [reflexivity|].
  rewrite bytesToHex_cons.
  cbn [byteToHex String.append String.length List.length].
  rewrite IH. lia.
Qed.

Lemma hexToBytes_loop_bytesToHex (bs : list byte) :
  hexToBytes_loop (bytesToHex bs) = Ok bs.
Proof.
  induction bs as [|b bs IH]; [reflexivity|].
  rewrite bytesToHex_cons, hexToBytes_loop_byteToHex, IH. reflexivity.
Qed.

Lemma hexToBytes_bytesToHex (bs : list byte) :
  hexToBytes (bytesToHex bs) = Ok bs.
Proof.
  unfold hexToBytes. rewrite bytesToHex_length.
  rewrite Nat.odd_mul. simpl. apply hexToBytes_loop_bytesToHex.
Qed.

(* ------------------------------------------------------------------ *)
(** ** The runnable platform obeys the laws *)

Lemma bytes_eqb_refl (a : list byte) : bytes_eqb a a = true.
Proof.
  induction a as [|x a IH]; [reflexivity|]. simpl.
  rewrite IH, andb_true_r. apply Byte.byte_dec_lb. reflexivity.
Qed.

Lemma bytes_eqb_eq (a b : list byte) : bytes_eqb a b = true -> a = b.
Proof.
  revert b. induction a as [|x a IH]; destruct b as [|y b]; simpl;
    try discriminate; [reflexivity|].
  intros H. apply andb_prop in H. destruct H as [Hx Hab].
  apply Byte.byte_dec_bl in Hx. f_equal; auto.
Qed.

Lemma toy_decrypt_encrypt key iv data :
  toy_decrypt key iv (toy_encrypt key iv data) = Some data.
Proof.
  unfold toy_decrypt, toy_encrypt.
  rewrite firstn_app, Nat.sub_diag, firstn_all, firstn_O, app_nil_r.
  rewrite bytes_eqb_refl.
  rewrite skipn_app, Nat.sub_diag, skipn_all. reflexivity.
Qed.

Lemma ToyLaws : PlatformLaws ToyPlatform.
Proof.
  split.
  - intros password salt Hs. cbn [argon2i ToyPlatform]. unfold toy_argon2i.
    destruct (Nat.ltb_spec (List.length salt) 8); [lia|].
    eexists; split; [reflexivity|].
    change (Z.to_nat 32) with 32%nat.
    rewrite length_firstn, !length_app, repeat_length. lia.
  - intros. apply toy_decrypt_encrypt.
  - intros m k s. cbn [curve_sign ToyPlatform]. unfold toy_sign.
    destruct (_ =? _)%nat; [|discriminate].
    intros E; injection E as <-. reflexivity.
Qed.

(* ------------------------------------------------------------------ *)
(** ** Runs of the key vault *)

Lemma events_of_intro {A} (m : M A) (w : World) (evs : list Event) :
  trace (snd (m w)) = trace w ++ evs -> events_of m w = evs.
Proof.
  intros H. unfold events_of. rewrite H.
  rewrite skipn_app, Nat.sub_diag, skipn_all. reflexivity.
Qed.

Lemma hexToBytes_loop_error (s : string) (e : JsError) :
  hexToBytes_loop s = Throw e -> name e = "Error".
Proof.
  revert e.
  assert (H : forall n s, (String.length s <= n)%nat ->
                forall e, hexToBytes_loop s = Throw e -> name e = "Error").
  { induction n as [|n IH]; intros s' Hn e.
    - destruct s'; simpl in Hn; [discriminate | lia].
    - destruct s' as [|c1 [|c2 rest]]; simpl.
      + discriminate.
      + intros E; injection E as <-; reflexivity.
      + destruct (asciiToBase16 c1), (asciiToBase16 c2);
          try (intros E; injection E as <-; reflexivity).
        destruct (hexToBytes_loop rest) eqn:R; [discriminate|].
        intros E; injection E as <-.
        apply (IH rest); [simpl in Hn; lia | exact R]. }
  intros e. apply (H (String.length s)). lia.
Qed.

Lemma hexToBytes_error (s : string) (e : JsError) :
  hexToBytes s = Throw e -> name e = "Error".
Proof.
  unfold hexToBytes. destruct (Nat.odd _).
  - intros E; injection E as <-; reflexivity.
  - apply hexToBytes_loop_error.
Qed.

Section WalletFacts.
Context {P : Platform}.

Lemma deriveKey_run (password : JsString) (salt : list byte) (w : World) :
  deriveKey password salt w =
  (argon2i (TextEncoder_encode password) salt ARGON2_PARAMS.t ARGON2_PARAMS.m
           ARGON2_PARAMS.p 32,
   logged [EvArgon2i (TextEncoder_encode password) salt] w).
Proof.
  unfold deriveKey, bind, emit, lift, ret, logged. simpl.
  destruct (argon2i _ _ _ _ _ _); reflexivity.
Qed.

Lemma importKey_run32 (raw : list byte) (w : World) :
  List.length raw = 32%nat ->
  importKey raw w = (Ok raw, logged [EvImportKey raw] w).
Proof.
  intros H. unfold importKey, bind, emit, ret, logged. simpl. rewrite H. reflexivity.
Qed.

(** What a run of [decryptPrivateKey] does once the keyfile decodes and the
    key is derived. *)
Lemma decryptPrivateKey_run (kf : EncryptedCanopyKeyfile) (password : JsString)
    (w : World) (s ct key : list byte) :
  hexToBytes (salt kf) = Ok s ->
  hexToBytes (encrypted kf) = Ok ct ->
  argon2i (TextEncoder_encode password) s ARGON2_PARAMS.t ARGON2_PARAMS.m
          ARGON2_PARAMS.p 32 = Ok key ->
  List.length key = 32%nat ->
  decryptPrivateKey kf password w =
  let w' := logged [EvArgon2i (TextEncoder_encode password) s; EvImportKey key;
                    EvAesGcmDecrypt key (firstn NONCE_LENGTH key) ct] w in
  match aes_gcm_decrypt key (firstn NONCE_LENGTH key) ct with
  | Some plain =>
      (Ok (mkUint8Array (List.length (heap w)) 0 (List.length plain)),
       mkWorld (heap w ++ [plain]) (entropy w) (drawn w) (clock w) (trace w'))
  | None => (Throw (Error passwordProblem), w')
  end.
Proof.
  intros Hs Hct Hkey Hlen.
  unfold decryptPrivateKey, try_catch, bind at 1. unfold lift at 1. rewrite Hs.
  unfold bind at 1. unfold lift at 1. rewrite Hct.
  unfold bind at 1. rewrite deriveKey_run, Hkey.
  unfold bind at 1. rewrite (importKey_run32 _ _ Hlen).
  unfold subtle_decrypt, bind, emit, ret, throw, new_Uint8Array, logged. simpl.
  destruct (aes_gcm_decrypt _ _ _); simpl; rewrite <- ?app_assoc; reflexivity.
Qed.

End WalletFacts.

Section VaultFacts.
Context {P : Platform} {L : PlatformLaws P}.

Lemma freshSalt_length (w : World) : List.length (freshSalt w) = 16%nat.
Proof. unfold freshSalt. rewrite length_map, length_seq. reflexivity. Qed.

Lemma encryptPrivateKey_run (publicKeyBytes privateKeyBytes : Uint8Array)
    (password : JsString) (address : string) (w : World) :
  exists key,
    argon2i (TextEncoder_encode password) (freshSalt w) ARGON2_PARAMS.t
            ARGON2_PARAMS.m ARGON2_PARAMS.p 32 = Ok key
    /\ List.length key = 32%nat
    /\ encryptPrivateKey publicKeyBytes privateKeyBytes password address w =
       (Ok {| publicKey := bytesToHex (viewBytes w publicKeyBytes);
              encrypted :=
                bytesToHex (aes_gcm_encrypt key (firstn NONCE_LENGTH key)
                              (bufferBytes w (ta_buffer privateKeyBytes)));
              salt := bytesToHex (freshSalt w);
              keyAddress := address;
              keyNickname := "" |},
        mkWorld (heap w) (entropy w) (drawn w + SALT_LENGTH) (clock w)
          (trace w ++
             [EvGetRandomValues (freshSalt w);
              EvArgon2i (TextEncoder_encode password) (freshSalt w);
              EvImportKey key;
              EvAesGcmEncrypt key (firstn NONCE_LENGTH key)
                (bufferBytes w (ta_buffer privateKeyBytes))])).
Proof.
  destruct (argon2i_dkLen (TextEncoder_encode password) (freshSalt w))
    as (key & Hkey & Hlen).
  { rewrite freshSalt_length. lia. }
  exists key. split; [exact Hkey|]. split; [exact Hlen|].
  unfold encryptPrivateKey, try_catch, bind at 1.
  unfold getRandomValues at 1. fold (freshSalt w).
  unfold bind at 1. rewrite deriveKey_run. cbn [logged heap entropy drawn clock trace].
  rewrite Hkey.
  unfold bind at 1. rewrite (importKey_run32 _ _ Hlen).
  unfold bind, readBuffer, readView, subtle_encrypt, emit, ret, logged,
    bufferBytes, viewBytes. simpl.
  rewrite <- !app_assoc. reflexivity.
Qed.

End VaultFacts.

Lemma viewBytes_new (h : list (list byte)) (d : list byte) e n c t :
  viewBytes (mkWorld (h ++ [d]) e n c t)
            (mkUint8Array (List.length h) 0 (List.length d)) = d.
Proof.
  unfold viewBytes, bufferBytes. simpl.
  rewrite nth_middle. apply firstn_all.
Qed.

Section RoundTrip.
Context {P : Platform} {L : PlatformLaws P}.

Lemma decrypt_encrypt_buffer (publicKeyBytes privateKeyBytes : Uint8Array)
    (p p' : JsString) (address : string) (w : World) :
  TextEncoder_encode p' = TextEncoder_encode p ->
  exists kf arr w1 w2,
    encryptPrivateKey publicKeyBytes privateKeyBytes p address w = (Ok kf, w1)
    /\ decryptPrivateKey kf p' w1 = (Ok arr, w2)
    /\ viewBytes w2 arr = bufferBytes w (ta_buffer privateKeyBytes).
Proof.
  intros Henc.
  destruct (encryptPrivateKey_run publicKeyBytes privateKeyBytes p address w)
    as (key & Hkey & Hlen & Hrun).
  eexists; eexists; eexists; eexists. split; [exact Hrun|].
  erewrite decryptPrivateKey_run;
    [ | apply hexToBytes_bytesToHex | apply hexToBytes_bytesToHex
      | rewrite Henc; exact Hkey | exact Hlen ].
  cbv zeta. rewrite aes_gcm_correct. split; [reflexivity|].
  cbn [heap]. apply viewBytes_new.
Qed.


End RoundTrip.

(* ------------------------------------------------------------------ *)
(** ** Outcomes of decryption, runs of the builder *)

Section DecryptFacts.
Context {P : Platform}.

Lemma decryptPrivateKey_outcome (kf : EncryptedCanopyKeyfile)
    (password : JsString) (w : World) :
  exists evs,
    trace (snd (decryptPrivateKey kf password w)) = trace w ++ evs
    /\ Forall (nonce_from_key password kf) evs
    /\ entropy (snd (decryptPrivateKey kf password w)) = entropy w
    /\ drawn (snd (decryptPrivateKey kf password w)) = drawn w
    /\ clock (snd (decryptPrivateKey kf password w)) = clock w
    /\ match fst (decryptPrivateKey kf password w) with
       | Ok arr =>
           exists plain,
             heap (snd (decryptPrivateKey kf password w)) = heap w ++ [plain]
             /\ arr = mkUint8Array (List.length (heap w)) 0 (List.length plain)
       | Throw e =>
           heap (snd (decryptPrivateKey kf password w)) = heap w
           /\ (InvalidPassword e \/ CorruptedKeyfile e)
       end.
Proof.
  unfold decryptPrivateKey, try_catch, bind, lift, deriveKey, importKey,
    subtle_decrypt, emit, ret, throw, new_Uint8Array, InvalidPassword,
    CorruptedKeyfile.
  simpl.
  destruct (hexToBytes (salt kf)) as [s|e1] eqn:Hs; simpl.
  2:{ exists []. rewrite app_nil_r.
      rewrite (hexToBytes_error _ _ Hs). simpl. repeat split; eauto. }
  destruct (hexToBytes (encrypted kf)) as [ct|e2] eqn:Hct; simpl.
  2:{ exists []. rewrite app_nil_r.
      rewrite (hexToBytes_error _ _ Hct). simpl. repeat split; eauto. }
  assert (Hd : derivedKeyOf password kf =
               argon2i (TextEncoder_encode password) s ARGON2_PARAMS.t
                 ARGON2_PARAMS.m ARGON2_PARAMS.p 32)
    by (unfold derivedKeyOf; rewrite Hs; reflexivity).
  destruct (argon2i _ _ _ _ _ _) as [key|e3] eqn:Hkey; simpl.
  2:{ exists [EvArgon2i (TextEncoder_encode password) s].
      destruct (String.eqb (name e3) "OperationError"); simpl;
        repeat split; eauto; repeat constructor; simpl; auto. }
  destruct (_ || _) eqn:Hlen; simpl.
  - destruct (aes_gcm_decrypt _ _ _) as [plain|] eqn:Hdec; simpl.
    + eexists. rewrite <- !app_assoc. simpl. split; [reflexivity|].
      split; [|repeat split; eauto].
      repeat constructor; simpl; auto.
    + eexists. rewrite <- !app_assoc. simpl. split; [reflexivity|].
      split; [|repeat split; eauto].
      repeat constructor; simpl; auto.
  - eexists. rewrite <- !app_assoc. simpl. split; [reflexivity|].
    split; [|repeat split; eauto].
    repeat constructor; simpl; auto.
Qed.

End DecryptFacts.

Section BuilderFacts.
Context {P : Platform}.

Lemma createAndSignTransaction_run (params : TransactionParams)
    (privateKeyHex publicKeyHex : string) (c : CurveType) (w : World) :
  createAndSignTransaction params privateKeyHex publicKeyHex c w =
  let u := unsignedOf params (clock w) in
  match wire_encode u with
  | None => (Throw (Error "EncodingMismatch"), w)
  | Some signBytes =>
      let w' := logged [EvSignMessage signBytes privateKeyHex c] w in
      match curve_sign c signBytes privateKeyHex with
      | None => (Throw (Error "SigningFailure"), w')
      | Some sig =>
          (Ok {| raw_transaction :=
                   {| unsigned := u;
                      signature := {| sig_publicKey := publicKeyHex;
                                      sig_signature := bytesToHex sig |} |} |},
           w')
      end
  end.
Proof.
  unfold createAndSignTransaction, bind, Date_now, getSignBytesProtobuf,
    signMessage, emit, ret, throw, logged, unsignedOf. simpl.
  destruct (wire_encode _); simpl; [|reflexivity].
  destruct (curve_sign _ _ _); reflexivity.
Qed.

Lemma flow_run {A} (m : M A) (w : World) : bind m (fun x => ret x) w = m w.
Proof. unfold bind, ret. destruct (m w) as [[a|e] w']; reflexivity. Qed.

Lemma createSignedOrder_run storedKey password orderParams networkParams w :
  createSignedOrder storedKey password orderParams networkParams w =
  decryptThenSign (encryptedKeyfile storedKey) password
    (orderTxParams orderParams networkParams)
    (curveTypeOf (publicKey (encryptedKeyfile storedKey))) w.
Proof.
  unfold createSignedOrder, decryptThenSign. unfold bind at 1.
  destruct (decryptPrivateKey _ _ _) as [[arr|e] w1]; [|reflexivity].
  unfold bind at 1, readView at 1. apply flow_run.
Qed.

Lemma createSignedEditOrder_run storedKey password editParams networkParams w :
  createSignedEditOrder storedKey password editParams networkParams w =
  decryptThenSign (encryptedKeyfile storedKey) password
    (editTxParams editParams networkParams)
    (curveTypeOf (publicKey (encryptedKeyfile storedKey))) w.
Proof.
  unfold createSignedEditOrder, decryptThenSign. unfold bind at 1.
  destruct (decryptPrivateKey _ _ _) as [[arr|e] w1]; [|reflexivity].
  unfold bind at 1, readView at 1. apply flow_run.
Qed.

Lemma createSignedDeleteOrder_run storedKey password deleteParams networkParams w :
  createSignedDeleteOrder storedKey password deleteParams networkParams w =
  decryptThenSign (encryptedKeyfile storedKey) password
    (deleteTxParams deleteParams networkParams)
    (curveTypeOf (publicKey (encryptedKeyfile storedKey))) w.
Proof.
  unfold createSignedDeleteOrder, decryptThenSign. unfold bind at 1.
  destruct (decryptPrivateKey _ _ _) as [[arr|e] w1]; [|reflexivity].
  unfold bind at 1, readView at 1. apply flow_run.
Qed.

End BuilderFacts.

Lemma curveTypeOf_spec (publicKeyHex : string) :
  curveTypeOf publicKeyHex =
  if (String.length publicKeyHex =? 96)%nat then BLS12381 else ED25519.
Proof.
  unfold curveTypeOf, String_length, Qeq_bool, Qdiv, Qmult, Qinv, inject_Z.
  simpl.
  destruct (Nat.eqb_spec (String.length publicKeyHex) 96) as [E|E].
  - rewrite E. reflexivity.
  - destruct (Z.eqb_spec (Z.of_nat (String.length publicKeyHex) * 1 * 1) 96);
      [lia | reflexivity].
Qed.

(** The sample keyfile is what encryption of the sample key returns. *)
Lemma sampleKeyfile_encrypted :
  fst (encryptBytes (P:=ToyPlatform) samplePublicKey sampleKey
         (js "correct-password") "addr" w0)
  = Ok sampleKeyfile.
Proof. vm_compute. reflexivity. Qed.

Lemma validateTransactionParams_accepts (params : TransactionParams) :
  within_bounds params -> validateTransactionParams params = Ok tt.
Proof.
  intros (Ht & Hf & Hn & Hc & Hh & Hm).
  unfold validateTransactionParams, truthy_string, truthy_object, differs,
    typeof_string, typeof_number, typeof_object. simpl.
  destruct (String.eqb_spec (type params) ""); [contradiction|]. simpl.
  destruct (Z.ltb_spec (fee params) 0); [lia|].
  destruct (Z.leb_spec (networkID params) 0); [lia|].
  destruct (Z.leb_spec (chainID params) 0); [lia|].
  destruct (Z.ltb_spec (height params) 0); [lia|].
  destruct (Nat.ltb_spec 200 (String.length (memo params))); [lia|].
  rewrite andb_false_r. reflexivity.
Qed.

Lemma validateTransactionParams_rejects (params : TransactionParams) :
  ~ within_bounds params ->
  exists e, validateTransactionParams params = Throw e /\ InvalidParameter e.
Proof.
  intros Hviol.
  unfold validateTransactionParams, truthy_string, truthy_object, differs,
    typeof_string, typeof_number, typeof_object, InvalidParameter. simpl.
  destruct (String.eqb_spec (type params) ""); simpl;
    [eexists; split; [reflexivity | split; reflexivity]|].
  destruct (Z.ltb_spec (fee params) 0);
    [eexists; split; [reflexivity | split; reflexivity]|].
  destruct (Z.leb_spec (networkID params) 0);
    [eexists; split; [reflexivity | split; reflexivity]|].
  destruct (Z.leb_spec (chainID params) 0);
    [eexists; split; [reflexivity | split; reflexivity]|].
  destruct (Z.ltb_spec (height params) 0);
    [eexists; split; [reflexivity | split; reflexivity]|].
  destruct (Nat.ltb_spec 200 (String.length (memo params))) as [Hm|Hm].
  - destruct (String.eqb_spec (memo params) "") as [E|E].
    + rewrite E in Hm. simpl in Hm. lia.
    + simpl. eexists; split; [reflexivity | split; reflexivity].
  - exfalso. apply Hviol. unfold within_bounds. repeat split; auto; lia.
Qed.

Lemma Qlt_bool_iff a b : Dynamic.Qlt_bool a b = true <-> (a < b)%Q.
Proof.
  unfold Dynamic.Qlt_bool. rewrite negb_true_iff. split.
  - intros H. apply Qnot_le_lt. intros Hle.
    apply Qle_bool_iff in Hle. congruence.
  - intros H. destruct (Qle_bool b a) eqn:E; [|reflexivity].
    apply Qle_bool_iff in E. exfalso. exact (Qlt_not_le _ _ H E).
Qed.

Lemma Number_lt_below n q :
  Dynamic.Number_lt n (Dynamic.Finite q) = true <-> Dynamic.below n q.
Proof.
  destruct n as [|neg|x]; simpl.
  - split; [discriminate | tauto].
  - tauto.
  - apply Qlt_bool_iff.
Qed.

Lemma Number_le_atMost n q :
  Dynamic.Number_le n (Dynamic.Finite q) = true <-> Dynamic.atMost n q.
Proof.
  destruct n as [|neg|x]; simpl.
  - split; [discriminate | tauto].
  - tauto.
  - apply Qle_bool_iff.
Qed.

Lemma Number_gt_above n q :
  Dynamic.Number_gt n (Dynamic.Finite q) = true <-> Dynamic.above n q.
Proof.
  destruct n as [|neg|x]; unfold Dynamic.Number_gt; simpl.
  - split; [discriminate | tauto].
  - destruct neg; simpl; split; congruence.
  - apply Qlt_bool_iff.
Qed.

Lemma check_type_iff v :
  negb (Dynamic.truthy v) || differs (Dynamic.typeof v) "string" = true
  <-> Dynamic.badType v.
Proof.
  unfold Dynamic.badType.
  destruct v as [| |b|n|s|l|a|z|];
    try (split; [intros _ s' E; discriminate
                | intros _; cbn; rewrite ?orb_true_r; reflexivity]).
  destruct s as [|u s]; cbn.
  - split; [intros _ s' E; injection E as <-; reflexivity | reflexivity].
  - split; [discriminate|]. intros H. specialize (H _ eq_refl). discriminate.
Qed.

Lemma check_msg_iff v :
  negb (Dynamic.truthy v) || differs (Dynamic.typeof v) "object" = true
  <-> Dynamic.badMessage v.
Proof.
  unfold Dynamic.badMessage.
  destruct v as [| |b|n|s|l|a|z|];
    try (split; [intros _ l' E; discriminate
                | intros _; cbn; rewrite ?orb_true_r; reflexivity]).
  cbn. split; [discriminate|]. intros H. exfalso. exact (H l eq_refl).
Qed.

Lemma check_below_iff v q :
  differs (Dynamic.typeof v) "number"
  || Dynamic.Number_lt (Dynamic.numberOf v) (Dynamic.Finite q) = true
  <-> Dynamic.notNumberOrBelow v q.
Proof.
  unfold Dynamic.notNumberOrBelow.
  destruct v as [| |b|n|s|l|a|z|];
    try (split; [intros _ n' E; discriminate | reflexivity]).
  change (Dynamic.Number_lt n (Dynamic.Finite q) = true
          <-> forall n', Dynamic.VNumber n = Dynamic.VNumber n' ->
                         Dynamic.below n' q).
  rewrite Number_lt_below. split.
  - intros H n' E. injection E as <-. exact H.
  - intros H. exact (H n eq_refl).
Qed.

Lemma check_atMost_iff v q :
  differs (Dynamic.typeof v) "number"
  || Dynamic.Number_le (Dynamic.numberOf v) (Dynamic.Finite q) = true
  <-> Dynamic.notNumberOrAtMost v q.
Proof.
  unfold Dynamic.notNumberOrAtMost.
  destruct v as [| |b|n|s|l|a|z|];
    try (split; [intros _ n' E; discriminate | reflexivity]).
  change (Dynamic.Number_le n (Dynamic.Finite q) = true
          <-> forall n', Dynamic.VNumber n = Dynamic.VNumber n' ->
                         Dynamic.atMost n' q).
  rewrite Number_le_atMost. split.
  - intros H n' E. injection E as <-. exact H.
  - intros H. exact (H n eq_refl).
Qed.

(** The last check: it never throws a [TypeError], because a falsy memo is
    not asked for its length. *)
Lemma check_memo v :
  (Dynamic.longerThan v 200
   /\ Dynamic.truthy v = true
   /\ exists len, Dynamic.get_length v = Ok len
                  /\ Dynamic.Number_gt len (Dynamic.Finite 200) = true)
  \/ (~ Dynamic.longerThan v 200
      /\ (Dynamic.truthy v = false
          \/ exists len, Dynamic.get_length v = Ok len
               /\ Dynamic.Number_gt len (Dynamic.Finite 200) = false)).
Proof.
  assert (Hdec : forall len,
            Dynamic.Number_gt len (Dynamic.Finite 200) = true
            \/ Dynamic.Number_gt len (Dynamic.Finite 200) = false)
    by (intros len; destruct (Dynamic.Number_gt _ _); auto).
  assert (Hnat : forall n : nat,
            Dynamic.above (Dynamic.Number_of_nat n) 200
            <-> (200 < inject_Z (Z.of_nat n))%Q) by (intros n; reflexivity).
  destruct v as [| |b|n|s|l|a|z|]; cbn [Dynamic.longerThan Dynamic.get_length];
    try (right; split; [tauto|]; left; reflexivity);
    try (right; split; [tauto|]; right; eexists; split; reflexivity).
  - (* string *)
    destruct (Hdec (Dynamic.Number_of_nat (List.length s))) as [H|H].
    + left. pose proof H as H'. apply Number_gt_above, Hnat in H'.
      split; [exact H'|]. split.
      * destruct s; [|reflexivity]. exfalso. revert H'. cbn.
        unfold Qlt. cbn. lia.
      * eexists; split; [reflexivity | exact H].
    + right. split.
      * intros Hl. apply Hnat, Number_gt_above in Hl. congruence.
      * right. eexists; split; [reflexivity | exact H].
  - (* object *)
    destruct (Hdec l) as [H|H].
    + left. split; [apply Number_gt_above; exact H|].
      split; [reflexivity|]. eexists; split; [reflexivity | exact H].
    + right. split.
      * intros Hl. apply Number_gt_above in Hl. congruence.
      * right. eexists; split; [reflexivity | exact H].
  - (* function *)
    destruct (Hdec (Dynamic.Number_of_nat a)) as [H|H].
    + left. pose proof H as H'. apply Number_gt_above, Hnat in H'.
      split; [exact H'|].
      split; [reflexivity|]. eexists; split; [reflexivity | exact H].
    + right. split.
      * intros Hl. apply Hnat, Number_gt_above in Hl. congruence.
      * right. eexists; split; [reflexivity | exact H].
Qed.

Lemma Dynamic_validateTransactionParams_cases (params : Dynamic.RawParams) :
  (Dynamic.refused params
   /\ exists e, Dynamic.validateTransactionParams params = Throw e
                /\ InvalidParameter e)
  \/ (~ Dynamic.refused params
      /\ Dynamic.validateTransactionParams params = Ok tt).
Proof.
  unfold Dynamic.validateTransactionParams, Dynamic.refused, InvalidParameter.
  unfold Dynamic.Number_of_Z.
  change (inject_Z 0) with 0%Q. change (inject_Z 200) with 200%Q.
  destruct (negb (Dynamic.truthy (Dynamic.type params))
            || differs (Dynamic.typeof (Dynamic.type params)) "string")
    eqn:E1.
  { left. split; [left; apply check_type_iff; exact E1|].
    eexists; split; [reflexivity | split; reflexivity]. }
  destruct (negb (Dynamic.truthy (Dynamic.msg params))
            || differs (Dynamic.typeof (Dynamic.msg params)) "object")
    eqn:E2.
  { left. split; [right; left; apply check_msg_iff; exact E2|].
    eexists; split; [reflexivity | split; reflexivity]. }
  destruct (differs (Dynamic.typeof (Dynamic.fee params)) "number"
            || Dynamic.Number_lt (Dynamic.numberOf (Dynamic.fee params))
                 (Dynamic.Finite 0)) eqn:E3.
  { left. split; [do 2 right; left; apply check_below_iff; exact E3|].
    eexists; split; [reflexivity | split; reflexivity]. }
  destruct (differs (Dynamic.typeof (Dynamic.networkID params)) "number"
            || Dynamic.Number_le (Dynamic.numberOf (Dynamic.networkID params))
                 (Dynamic.Finite 0)) eqn:E4.
  { left. split; [do 3 right; left; apply check_atMost_iff; exact E4|].
    eexists; split; [reflexivity | split; reflexivity]. }
  destruct (differs (Dynamic.typeof (Dynamic.chainID params)) "number"
            || Dynamic.Number_le (Dynamic.numberOf (Dynamic.chainID params))
                 (Dynamic.Finite 0)) eqn:E5.
  { left. split; [do 4 right; left; apply check_atMost_iff; exact E5|].
    eexists; split; [reflexivity | split; reflexivity]. }
  destruct (differs (Dynamic.typeof (Dynamic.height params)) "number"
            || Dynamic.Number_lt (Dynamic.numberOf (Dynamic.height params))
                 (Dynamic.Finite 0)) eqn:E6.
  { left. split; [do 5 right; left; apply check_below_iff; exact E6|].
    eexists; split; [reflexivity | split; reflexivity]. }
  assert (Hnot : forall (b : bool) (Q : Prop), (b = true <-> Q) -> b = false -> ~ Q)
    by (intros b Q H Hb HQ; apply H in HQ; congruence).
  pose proof (Hnot _ _ (check_type_iff _) E1) as N1.
  pose proof (Hnot _ _ (check_msg_iff _) E2) as N2.
  pose proof (Hnot _ _ (check_below_iff _ _) E3) as N3.
  pose proof (Hnot _ _ (check_atMost_iff _ _) E4) as N4.
  pose proof (Hnot _ _ (check_atMost_iff _ _) E5) as N5.
  pose proof (Hnot _ _ (check_below_iff _ _) E6) as N6.
  destruct (check_memo (Dynamic.memo params))
    as [(Hl & Ht & len & Hg & Hgt) | (Hl & [Ht | (len & Hg & Hgt)])].
  - left. split; [do 6 right; exact Hl|].
    rewrite Ht, Hg, Hgt.
    eexists; split; [reflexivity | split; reflexivity].
  - right. split; [tauto|]. rewrite Ht. reflexivity.
  - right. split; [tauto|]. rewrite Hg, Hgt.
    destruct (Dynamic.truthy (Dynamic.memo params)); reflexivity.
Qed.

Lemma js_length s : List.length (js s) = String.length s.
Proof.
  unfold js. rewrite length_map.
  induction s as [|a s IH]; simpl; [reflexivity | now rewrite IH].
Qed.

Lemma Qlt_bool_inject_Z a b :
  Dynamic.Qlt_bool (inject_Z a) (inject_Z b) = (a <? b).
Proof.
  unfold Dynamic.Qlt_bool, Qle_bool. cbn. rewrite !Z.mul_1_r.
  rewrite Z.ltb_antisym. reflexivity.
Qed.

Lemma Qle_bool_inject_Z a b :
  Qle_bool (inject_Z a) (inject_Z b) = (a <=? b).
Proof. unfold Qle_bool. cbn. rewrite !Z.mul_1_r. reflexivity. Qed.

(** On a well-typed parameter set with integer numbers the validator is the
    one of the typed model. *)
Lemma Dynamic_validateTransactionParams_rawOf (p : TransactionParams) :
  Dynamic.validateTransactionParams (rawOf p)
  = validateTransactionParams p.
Proof.
  unfold Dynamic.validateTransactionParams, validateTransactionParams,
    rawOf, truthy_string, truthy_object, typeof_string,
    typeof_number, typeof_object.
  cbn [Dynamic.type Dynamic.msg Dynamic.fee Dynamic.memo Dynamic.networkID
       Dynamic.chainID Dynamic.height Dynamic.typeof Dynamic.numberOf
       Dynamic.get_length Dynamic.truthy].
  assert (Ht : forall s,
            match js s with [] => false | _ :: _ => true end
            = negb (String.eqb s ""))
    by (intros [|a s]; reflexivity).
  rewrite !Ht.
  unfold Dynamic.Number_of_nat, Dynamic.Number_of_Z, Dynamic.Number_gt,
    Dynamic.Number_lt, Dynamic.Number_le.
  cbv beta iota.
  rewrite !Qlt_bool_inject_Z, !Qle_bool_inject_Z, js_length.
  replace (200 <? Z.of_nat (String.length (memo p)))
    with (200 <? String.length (memo p))%nat.
  2:{ destruct (Nat.ltb_spec 200 (String.length (memo p)));
      destruct (Z.ltb_spec 200 (Z.of_nat (String.length (memo p))));
      try reflexivity; lia. }
  destruct (negb (negb (String.eqb (type p) "")) || _); [reflexivity|].
  destruct (negb true || _); [reflexivity|].
  destruct (_ || (fee p <? 0)); [reflexivity|].
  destruct (_ || (networkID p <=? 0)); [reflexivity|].
  destruct (_ || (chainID p <=? 0)); [reflexivity|].
  destruct (_ || (height p <? 0)); [reflexivity|].
  destruct (negb (String.eqb (memo p) "")); [|reflexivity].
  rewrite andb_true_l.
  destruct (200 <? String.length (memo p))%nat; reflexivity.
Qed.

Lemma refused_rawOf (p : TransactionParams) :
  Dynamic.refused (rawOf p) <-> ~ within_bounds p.
Proof.
  destruct (Dynamic_validateTransactionParams_cases (rawOf p))
    as [(Hr & e & He & _) | (Hr & Hok)];
    rewrite Dynamic_validateTransactionParams_rawOf in *.
  - split; [|intros _; exact Hr]. intros _ Hb.
    rewrite (validateTransactionParams_accepts _ Hb) in He. discriminate.
  - split; [contradiction|]. intros Hb. exfalso.
    destruct (validateTransactionParams_rejects _ Hb) as (e & He & _).
    congruence.
Qed.

Section FlowFacts.
Context {P : Platform}.

Lemma nonce_from_key_signed_with password kf c e :
  nonce_from_key password kf e -> signed_with c e.
Proof. destruct e; simpl; tauto. Qed.

Lemma decryptThenSign_events kf password txParams c w :
  exists evs1 evs2,
    trace (snd (decryptThenSign kf password txParams c w)) =
      trace w ++ evs1 ++ evs2
    /\ Forall (nonce_from_key password kf) evs1
    /\ (evs2 = [] \/ exists b h, evs2 = [EvSignMessage b h c])
    /\ (isOk (fst (decryptThenSign kf password txParams c w)) = true ->
        exists b h, evs2 = [EvSignMessage b h c]).
Proof.
  destruct (decryptPrivateKey_outcome kf password w)
    as (evs1 & Htr & Hall & _).
  exists evs1. unfold decryptThenSign.
  destruct (decryptPrivateKey kf password w) as [[arr|e] w1]; simpl in *.
  - rewrite createAndSignTransaction_run. cbv zeta.
    destruct (wire_encode _) as [b|]; simpl.
    + exists [EvSignMessage b (bytesToHex (viewBytes w1 arr)) c].
      destruct (curve_sign _ _ _); simpl; rewrite Htr, <- app_assoc;
        repeat split; eauto; discriminate.
    + exists []. rewrite app_nil_r. repeat split; auto. discriminate.
  - exists []. rewrite app_nil_r. repeat split; auto. discriminate.
Qed.

Lemma decryptThenSign_signs_with kf password txParams c w :
  signs_with c (decryptThenSign kf password txParams c) w.
Proof.
  destruct (decryptThenSign_events kf password txParams c w)
    as (evs1 & evs2 & Htr & Hall & Hsig & Hok).
  unfold signs_with. rewrite (events_of_intro _ _ _ Htr). split.
  - apply Forall_app. split.
    + eapply Forall_impl; [|exact Hall].
      intros e. apply nonce_from_key_signed_with.
    + destruct Hsig as [-> | (b & h & ->)]; repeat constructor.
  - intros H. destruct (Hok H) as (b & h & ->).
    exists b, h. apply in_or_app. right. left. reflexivity.
Qed.

Lemma decryptThenSign_heap kf password txParams c w :
  heap (snd (decryptThenSign kf password txParams c w)) =
  heap (snd (decryptPrivateKey kf password w)).
Proof.
  unfold decryptThenSign.
  destruct (decryptPrivateKey kf password w) as [[arr|e] w1]; [|reflexivity].
  rewrite createAndSignTransaction_run. cbv zeta.
  destruct (wire_encode _); [|reflexivity].
  destruct (curve_sign _ _ _); reflexivity.
Qed.

Lemma decryptThenSign_result kf password txParams c w req w' :
  decryptThenSign kf password txParams c w = (Ok req, w') ->
  unsigned (raw_transaction req) = unsignedOf txParams (clock w)
  /\ sig_publicKey (signature (raw_transaction req)) = publicKey kf.
Proof.
  unfold decryptThenSign.
  destruct (decryptPrivateKey_outcome kf password w)
    as (_ & _ & _ & _ & _ & Hclock & _).
  destruct (decryptPrivateKey kf password w) as [[arr|e] w1]; [|discriminate].
  simpl in Hclock.
  rewrite createAndSignTransaction_run. cbv zeta.
  destruct (wire_encode _); [|discriminate].
  destruct (curve_sign _ _ _); [|discriminate].
  intros E; injection E as <- _. simpl. rewrite Hclock. split; reflexivity.
Qed.

Lemma viewBytes_heap (w w' : World) (a : Uint8Array) :
  heap w = heap w' -> viewBytes w a = viewBytes w' a.
Proof. intros H. unfold viewBytes, bufferBytes. rewrite H. reflexivity. Qed.

Lemma forEach_pure {A} (data : list A) (f : A -> M unit) (w : World) :
  (forall item w', f item w' = (Ok tt, w')) ->
  forEach data f w = (Ok tt, w).
Proof.
  intros Hf. induction data as [|item rest IH]; [reflexivity|].
  simpl. unfold bind. rewrite Hf. exact IH.
Qed.

End FlowFacts.

Section FlowsMore.
Context {P : Platform}.

Lemma decryptThenSign_failure kf password txParams c w e w1 :
  decryptPrivateKey kf password w = (Throw e, w1) ->
  decryptThenSign kf password txParams c w = (Throw e, w1).
Proof. intros H. unfold decryptThenSign. rewrite H. reflexivity. Qed.

Lemma decryptThenSign_signs kf password txParams c w arr w1 signBytes :
  decryptPrivateKey kf password w = (Ok arr, w1) ->
  wire_encode (unsignedOf txParams (clock w)) = Some signBytes ->
  events_of (decryptThenSign kf password txParams c) w
  = events_of (decryptPrivateKey kf password) w
    ++ [EvSignMessage signBytes (bytesToHex (viewBytes w1 arr)) c]
  /\ fst (decryptThenSign kf password txParams c w)
     = match curve_sign c signBytes (bytesToHex (viewBytes w1 arr)) with
       | Some sig =>
           Ok {| raw_transaction :=
                   {| unsigned := unsignedOf txParams (clock w);
                      signature :=
                        {| sig_publicKey := publicKey kf;
                           sig_signature := bytesToHex sig |} |} |}
       | None => Throw (Error "SigningFailure")
       end.
Proof.
  intros Hdec Henc.
  destruct (decryptPrivateKey_outcome kf password w)
    as (evs & Htr & _ & _ & _ & Hclock & _).
  rewrite Hdec in Htr, Hclock. cbn [snd] in Htr, Hclock.
  assert (Hev : events_of (decryptPrivateKey kf password) w = evs)
    by (apply events_of_intro; rewrite Hdec; exact Htr).
  rewrite Hev.
  assert (Hrun : decryptThenSign kf password txParams c w
                 = createAndSignTransaction txParams
                     (bytesToHex (viewBytes w1 arr)) (publicKey kf) c w1)
    by (unfold decryptThenSign; rewrite Hdec; reflexivity).
  rewrite createAndSignTransaction_run in Hrun. cbv zeta in Hrun.
  rewrite Hclock, Henc in Hrun. split.
  - apply events_of_intro. rewrite Hrun.
    destruct (curve_sign _ _ _); cbn; rewrite Htr, <- app_assoc; reflexivity.
  - rewrite Hrun. destruct (curve_sign _ _ _); reflexivity.
Qed.

End FlowsMore.

(* ------------------------------------------------------------------ *)
(** ** C1: parameter validation *)

(** C1, as amended.  [validateTransactionParams] throws an [Invalid ...]
    error exactly on the parameter objects in which the type is not a
    non-empty string, the message is not an object, the fee or the height
    is not a number or is below 0, the networkID or the chainID is not a
    number or is at most 0, or the memo is longer than 200; it accepts every
    other one (a [NaN] in a numeric field included, which is neither below
    nor at most 0) and calls no primitive.  The build operation does not
    call the validator: on parameters outside the bounds, which the
    validator refuses, [createAndSignTransaction] encodes and signs as soon
    as the encoder and the signer accept its input. *)
Theorem validation_is_separate_from_build :
  (forall params : Dynamic.RawParams,
      (Dynamic.refused params ->
       exists e, Dynamic.validateTransactionParams params = Throw e
                 /\ InvalidParameter e)
      /\ (~ Dynamic.refused params ->
          Dynamic.validateTransactionParams params = Ok tt))
  /\ (forall params : TransactionParams,
        ~ within_bounds params ->
        Dynamic.refused (rawOf params)
        /\ forall (P : Platform) privateKeyHex publicKeyHex c w signBytes sig,
             wire_encode (unsignedOf params (clock w)) = Some signBytes ->
             curve_sign c signBytes privateKeyHex = Some sig ->
             exists req,
               createAndSignTransaction params privateKeyHex publicKeyHex c w
               = (Ok req, logged [EvSignMessage signBytes privateKeyHex c] w)
               /\ tx_fee (unsigned (raw_transaction req)) = fee params).
Proof.
  split.
  - intros params.
    destruct (Dynamic_validateTransactionParams_cases params)
      as [(Hr & He) | (Hr & Hok)].
    + split; [intros _; exact He | contradiction].
    + split; [contradiction | intros _; exact Hok].
  - intros params Hviol. split; [apply refused_rawOf; exact Hviol|].
    intros P privateKeyHex publicKeyHex c w signBytes sig Henc Hsig.
    rewrite createAndSignTransaction_run. cbv zeta. rewrite Henc, Hsig.
    eexists. split; reflexivity.
Qed.

Lemma validation_is_separate_from_build_witness :
  (exists e,
      Dynamic.validateTransactionParams
        (rawOf (orderTxParams sampleOrder negativeFeeNetwork)) = Throw e
      /\ InvalidParameter e)
  /\ Dynamic.validateTransactionParams
       (rawOf (orderTxParams sampleOrder sampleNetwork)) = Ok tt
  /\ exists req,
       createAndSignTransaction (P:=ToyPlatform)
         (orderTxParams sampleOrder negativeFeeNetwork)
         (bytesToHex sampleKey) (publicKey sampleKeyfile) ED25519 w0
       = (Ok req,
          logged [EvSignMessage
                    (map byte_of_N
                       (map N_of_ascii (list_ascii_of_string "createOrder")))
                    (bytesToHex sampleKey) ED25519] w0)
       /\ tx_fee (unsigned (raw_transaction req)) = -1.
Proof.
  destruct validation_is_separate_from_build as [Hv Hb].
  assert (H : ~ within_bounds (orderTxParams sampleOrder negativeFeeNetwork)).
  { unfold within_bounds. simpl. lia. }
  destruct (Hb _ H) as [Hr Hrun].
  split; [exact (proj1 (Hv _) Hr)|]. split.
  - apply (proj2 (Hv _)). intros Hr'. apply refused_rawOf in Hr'.
    apply Hr'. unfold within_bounds. simpl.
    repeat split; try lia; discriminate.
  - exact (Hrun ToyPlatform (bytesToHex sampleKey) (publicKey sampleKeyfile)
             ED25519 w0 _ (repeat Byte.x01 64) eq_refl eq_refl).
Defined.

(** The validator on values the static types leave out: a [NaN] fee, a
    [NaN] height and an infinite networkID pass, though none of them is a
    fee [>= 0] or an id that a chain has; a [null] message, a fee given as a
    string, and an array of 201 elements as memo are refused; a missing memo
    passes. *)
Example validator_accepts_NaN :
  let p type msg fee memo networkID height :=
    Dynamic.mkRawParams type msg fee memo networkID
      (Dynamic.VNumber (Dynamic.Number_of_Z 1)) height in
  let createOrder := Dynamic.VString (js "createOrder") in
  let object := Dynamic.VObject Dynamic.NaN in
  let number z := Dynamic.VNumber (Dynamic.Number_of_Z z) in
  Dynamic.Number_le (Dynamic.Number_of_Z 0) Dynamic.NaN = false
  /\ Dynamic.validateTransactionParams
       (p createOrder object (Dynamic.VNumber Dynamic.NaN)
          (Dynamic.VString []) (number 1) (number 500))
     = Ok tt
  /\ Dynamic.validateTransactionParams
       (p createOrder object (number 10000) Dynamic.VUndefined
          (Dynamic.VNumber (Dynamic.Infinity false))
          (Dynamic.VNumber Dynamic.NaN))
     = Ok tt
  /\ Dynamic.validateTransactionParams
       (p createOrder Dynamic.VNull (number 10000) (Dynamic.VString [])
          (number 1) (number 500))
     = Throw (Error "Invalid message: must be an object")
  /\ Dynamic.validateTransactionParams
       (p createOrder object (Dynamic.VString (js "10000"))
          (Dynamic.VString []) (number 1) (number 500))
     = Throw (Error "Invalid fee: must be a non-negative number")
  /\ Dynamic.validateTransactionParams
       (p createOrder object (number 10000)
          (Dynamic.VObject (Dynamic.Number_of_Z 201)) (number 1)
          (number 500))
     = Throw (Error "Invalid memo: must be 200 characters or less").
Proof. vm_compute. repeat split. Qed.

(** The four boundary cases: fee = -1, networkID = 0, a memo of 201
    characters, height = -1. *)
Example validate_boundary_cases :
  let p fee memo networkID height :=
    mkParams "createOrder" (createDeleteOrderMessage "" 1) fee memo
             networkID 1 height in
  validateTransactionParams (p (-1) "" 1 500)
    = Throw (Error "Invalid fee: must be a non-negative number")
  /\ validateTransactionParams (p 10000 "" 0 500)
    = Throw (Error "Invalid network ID: must be a positive number")
  /\ validateTransactionParams (p 10000 (String_repeat "m" 201) 1 500)
    = Throw (Error "Invalid memo: must be 200 characters or less")
  /\ validateTransactionParams (p 10000 (String_repeat "m" 200) 1 500)
    = Ok tt
  /\ validateTransactionParams (p 10000 "" 1 (-1))
    = Throw (Error "Invalid height: must be a non-negative number").
Proof. vm_compute. repeat split. Qed.

(** C1 fails as stated: with fee = -1 the flow [createSignedOrder] returns a
    signed transaction carrying that fee, after calling the key derivation,
    the cipher and the signer. *)
Lemma build_accepts_negative_fee :
  ~ within_bounds (orderTxParams sampleOrder negativeFeeNetwork)
  /\ exists req,
       fst (createSignedOrder (P:=ToyPlatform) sampleAccount
              (js "correct-password") sampleOrder negativeFeeNetwork w0)
       = Ok req
       /\ tx_fee (unsigned (raw_transaction req)) = -1
       /\ List.length
            (events_of (createSignedOrder (P:=ToyPlatform) sampleAccount
                          (js "correct-password") sampleOrder
                          negativeFeeNetwork) w0) = 4%nat.
Proof.
  split.
  - unfold within_bounds. simpl. lia.
  - eexists. split; [vm_compute; reflexivity|].
    split; vm_compute; reflexivity.
Qed.

(* ------------------------------------------------------------------ *)
(** ** C2, C4: encryption round trip and password isolation *)

Section Vault.
Context {P : Platform} {L : PlatformLaws P}.


End Vault.

(** C2, at an input where the code fails it.  [encryptPrivateKey] encrypts
    [privateKeyBytes.buffer], the whole buffer behind the array: for a key
    handed over as a window of two bytes on a buffer of four, decryption
    with the same password returns the four bytes of the buffer and not the
    two key bytes. *)
Example encrypt_reads_the_whole_buffer :
  let w := {| heap := [[Byte.x09; Byte.x01; Byte.x02; Byte.x09]; []];
              entropy := entropy w0; drawn := 0; clock := 0; trace := [] |} in
  let key := subarray (mkUint8Array 0 0 4) 1 3 in
  viewBytes w key = [Byte.x01; Byte.x02]
  /\ exists kf arr w1 w2,
       encryptPrivateKey (P:=ToyPlatform) (mkUint8Array 1 0 0) key
         (js "pw") "addr" w = (Ok kf, w1)
       /\ decryptPrivateKey (P:=ToyPlatform) kf (js "pw") w1 = (Ok arr, w2)
       /\ viewBytes w2 arr = [Byte.x09; Byte.x01; Byte.x02; Byte.x09].
Proof.
  split; [reflexivity|].
  exact (decrypt_encrypt_buffer (L:=ToyLaws) _ _ _ _ _ _ eq_refl).
Qed.




(* ------------------------------------------------------------------ *)
(** ** C3: [verifyPassword] *)

(** C3, as amended.  [verifyPassword] attempts decryption and never throws:
    it returns true when decryption succeeds and false when decryption fails
    with any error, the password error and every other one alike. *)
Theorem verifyPassword_never_throws (P : Platform)
    (kf : EncryptedCanopyKeyfile) (password : JsString) (w : World) :
  verifyPassword kf password w =
  (Ok (isOk (fst (decryptPrivateKey kf password w))),
   snd (decryptPrivateKey kf password w)).
Proof.
  unfold verifyPassword, try_catch, bind, ret.
  destruct (decryptPrivateKey kf password w) as [[arr|e] w1]; reflexivity.
Qed.

(** C3 fails as stated: on a keyfile whose salt is not hexadecimal,
    decryption fails with an error that is not the password error, and
    [verifyPassword] returns false instead of throwing it. *)
Lemma verifyPassword_swallows_corruption :
  let kf := {| publicKey := publicKey sampleKeyfile;
               encrypted := encrypted sampleKeyfile;
               salt := "zz";
               keyAddress := "addr";
               keyNickname := "" |} in
  (exists e,
      decryptPrivateKey (P:=ToyPlatform) kf (js "correct-password") w0
      = (Throw e, w0)
      /\ CorruptedKeyfile e /\ ~ InvalidPassword e)
  /\ verifyPassword (P:=ToyPlatform) kf (js "correct-password") w0
     = (Ok false, w0).
Proof.
  split.
  - eexists. split; [vm_compute; reflexivity|]. split.
    + eexists. reflexivity.
    + unfold InvalidPassword. discriminate.
  - vm_compute. reflexivity.
Qed.

(* ------------------------------------------------------------------ *)
(** ** C5, C10: curve detection *)

(** C5.  Curve detection is a function of the length of the public-key hex
    string alone: a key of 64 hex characters selects ED25519 and a key of 96
    hex characters selects BLS12381.  In each of the three build flows every
    signature is requested under the detected curve, a flow that returns has
    requested one, and once the key is decrypted and the transaction has
    canonical bytes the flow does call [signMessage], exactly once, on those
    bytes, with the hex of the decrypted key, under the detected curve. *)
Theorem curve_follows_key_length (P : Platform)
    (storedKey : CanopyWalletAccount) (password : JsString)
    (orderParams : OrderParams) (editParams : EditParams)
    (deleteParams : DeleteParams) (networkParams : NetworkParams)
    (w : World) (c : CurveType) :
  (String.length (publicKey (encryptedKeyfile storedKey)) = 64%nat
   /\ c = ED25519)
  \/ (String.length (publicKey (encryptedKeyfile storedKey)) = 96%nat
      /\ c = BLS12381) ->
  curveTypeOf (publicKey (encryptedKeyfile storedKey)) = c
  /\ (forall pk',
        String.length pk'
        = String.length (publicKey (encryptedKeyfile storedKey)) ->
        curveTypeOf pk' = c)
  /\ signs_with c
       (createSignedOrder storedKey password orderParams networkParams) w
  /\ signs_with c
       (createSignedEditOrder storedKey password editParams networkParams) w
  /\ signs_with c
       (createSignedDeleteOrder storedKey password deleteParams networkParams)
       w
  /\ signs_once_under c (encryptedKeyfile storedKey) password
       (orderTxParams orderParams networkParams)
       (createSignedOrder storedKey password orderParams networkParams) w
  /\ signs_once_under c (encryptedKeyfile storedKey) password
       (editTxParams editParams networkParams)
       (createSignedEditOrder storedKey password editParams networkParams) w
  /\ signs_once_under c (encryptedKeyfile storedKey) password
       (deleteTxParams deleteParams networkParams)
       (createSignedDeleteOrder storedKey password deleteParams networkParams)
       w.
Proof.
  intros Hlen.
  assert (Hc : curveTypeOf (publicKey (encryptedKeyfile storedKey)) = c).
  { rewrite curveTypeOf_spec.
    destruct Hlen as [[-> ->] | [-> ->]]; reflexivity. }
  split; [exact Hc|]. split.
  { intros pk' E. rewrite <- Hc, !curveTypeOf_spec, E. reflexivity. }
  unfold signs_with, signs_once_under.
  rewrite createSignedOrder_run, createSignedEditOrder_run,
    createSignedDeleteOrder_run.
  unfold events_of.
  rewrite createSignedOrder_run, createSignedEditOrder_run,
    createSignedDeleteOrder_run.
  rewrite Hc.
  split; [apply decryptThenSign_signs_with|].
  split; [apply decryptThenSign_signs_with|].
  split; [apply decryptThenSign_signs_with|].
  split; [|split]; intros arr w1 signBytes Hdec Henc;
    exact (proj1 (decryptThenSign_signs _ _ _ c _ _ _ _ Hdec Henc)).
Qed.

Lemma curve_follows_key_length_witness :
  ((String.length (publicKey (encryptedKeyfile sampleAccount)) = 64%nat
    /\ ED25519 = ED25519)
   \/ (String.length (publicKey (encryptedKeyfile sampleAccount)) = 96%nat
       /\ ED25519 = BLS12381))
  /\ curveTypeOf (publicKey (encryptedKeyfile sampleAccount)) = ED25519
  /\ exists signBytes,
       wire_encode (Platform:=ToyPlatform)
         (unsignedOf (orderTxParams sampleOrder sampleNetwork) (clock w0))
       = Some signBytes
       /\ events_of
            (createSignedOrder (P:=ToyPlatform) sampleAccount
               (js "correct-password") sampleOrder sampleNetwork) w0
          = events_of
              (decryptPrivateKey (P:=ToyPlatform) sampleKeyfile
                 (js "correct-password")) w0
            ++ [EvSignMessage signBytes (bytesToHex sampleKey) ED25519]
       /\ isOk (fst (createSignedOrder (P:=ToyPlatform) sampleAccount
                       (js "correct-password") sampleOrder sampleNetwork w0))
          = true.
Proof.
  assert (H : (String.length (publicKey (encryptedKeyfile sampleAccount))
               = 64%nat /\ ED25519 = ED25519)
              \/ (String.length (publicKey (encryptedKeyfile sampleAccount))
                  = 96%nat /\ ED25519 = BLS12381)).
  { left. split; reflexivity. }
  split; [exact H|].
  pose proof (curve_follows_key_length ToyPlatform sampleAccount
                (js "correct-password") sampleOrder sampleEdit sampleDelete
                sampleNetwork w0 ED25519 H)
    as (H1 & _ & _ & _ & _ & H2 & _).
  split; [exact H1|].
  eexists. split; [reflexivity|]. split; [|reflexivity].
  exact (H2 (mkUint8Array 0 0 32) _ _ eq_refl eq_refl).
Defined.

(** C10.  Curve detection never fails and defaults to ED25519: it is a total
    function that answers BLS12381 on a key of exactly 96 hex characters and
    ED25519 on a key of any other length, and each build flow runs as
    decryption followed by signing under that curve, with no other step that
    could throw. *)
Theorem curve_detection_defaults_to_ED25519 (P : Platform)
    (storedKey : CanopyWalletAccount) (password : JsString)
    (orderParams : OrderParams) (editParams : EditParams)
    (deleteParams : DeleteParams) (networkParams : NetworkParams)
    (w : World) :
  let kf := encryptedKeyfile storedKey in
  let c := if (String.length (publicKey kf) =? 96)%nat
           then BLS12381 else ED25519 in
  curveTypeOf (publicKey kf) = c
  /\ createSignedOrder storedKey password orderParams networkParams w
     = decryptThenSign kf password (orderTxParams orderParams networkParams)
         c w
  /\ createSignedEditOrder storedKey password editParams networkParams w
     = decryptThenSign kf password (editTxParams editParams networkParams)
         c w
  /\ createSignedDeleteOrder storedKey password deleteParams networkParams w
     = decryptThenSign kf password
         (deleteTxParams deleteParams networkParams) c w.
Proof.
  intros kf c. unfold c, kf. rewrite <- curveTypeOf_spec.
  repeat split.
  - apply createSignedOrder_run.
  - apply createSignedEditOrder_run.
  - apply createSignedDeleteOrder_run.
Qed.

(** Keys of 40 and of 100 hex characters select ED25519. *)
Example curve_of_odd_sized_keys :
  curveTypeOf (String_repeat "a" 40) = ED25519
  /\ curveTypeOf (String_repeat "a" 100) = ED25519
  /\ curveTypeOf (String_repeat "a" 95) = ED25519
  /\ curveTypeOf (String_repeat "a" 97) = ED25519
  /\ curveTypeOf "" = ED25519
  /\ curveTypeOf (String_repeat "a" 96) = BLS12381.
Proof. vm_compute. repeat split. Qed.

(* ------------------------------------------------------------------ *)
(** ** C6: nonce and salt *)

(** C6.  [encryptPrivateKey] draws a fresh 16-byte salt from the random
    source on every call (the next call gets the following 16 bytes), draws
    nothing else, and derives 32 bytes of key material from the password and
    that salt; both [encryptPrivateKey] and [decryptPrivateKey] hand the
    first 12 bytes of the derived key material to AES-GCM as the nonce. *)
Theorem nonce_is_head_of_derived_key (P : Platform) (L : PlatformLaws P)
    (publicKeyBytes privateKeyBytes : Uint8Array) (password : JsString)
    (address : string) (w : World) :
  (exists key kf w',
      encryptPrivateKey publicKeyBytes privateKeyBytes password address w
      = (Ok kf, w')
      /\ List.length (freshSalt w) = 16%nat
      /\ salt kf = bytesToHex (freshSalt w)
      /\ derivedKeyOf password kf = Ok key
      /\ List.length key = 32%nat
      /\ events_of
           (encryptPrivateKey publicKeyBytes privateKeyBytes password address)
           w
         = [EvGetRandomValues (freshSalt w);
            EvArgon2i (TextEncoder_encode password) (freshSalt w);
            EvImportKey key;
            EvAesGcmEncrypt key (firstn 12 key)
              (bufferBytes w (ta_buffer privateKeyBytes))]
      /\ freshSalt w' = map (entropy w) (seq (drawn w + 16) 16)
      /\ forall password' w'',
           exists key',
             derivedKeyOf password' kf = Ok key'
             /\ events_of (decryptPrivateKey kf password') w''
                = [EvArgon2i (TextEncoder_encode password') (freshSalt w);
                   EvImportKey key';
                   EvAesGcmDecrypt key' (firstn 12 key')
                     (aes_gcm_encrypt key (firstn 12 key)
                        (bufferBytes w (ta_buffer privateKeyBytes)))])
  /\ forall kf password' w',
       Forall (nonce_from_key password' kf)
              (events_of (decryptPrivateKey kf password') w').
Proof.
  split.
  - destruct (encryptPrivateKey_run publicKeyBytes privateKeyBytes password
                address w) as (key & Hkey & Hlen & Hrun).
    eexists key, _, _. split; [exact Hrun|].
    split; [apply freshSalt_length|].
    split; [reflexivity|].
    split; [unfold derivedKeyOf; cbn [salt];
            rewrite hexToBytes_bytesToHex; exact Hkey|].
    split; [exact Hlen|].
    split; [apply events_of_intro; rewrite Hrun; reflexivity|].
    split; [reflexivity|].
    intros password' w''.
    destruct (argon2i_dkLen (TextEncoder_encode password') (freshSalt w))
      as (key' & Hkey' & Hlen').
    { rewrite freshSalt_length. lia. }
    exists key'. split.
    + unfold derivedKeyOf. cbn [salt].
      rewrite hexToBytes_bytesToHex. exact Hkey'.
    + apply events_of_intro.
      erewrite decryptPrivateKey_run;
        [ | apply hexToBytes_bytesToHex | apply hexToBytes_bytesToHex
          | exact Hkey' | exact Hlen' ].
      cbv zeta. destruct (aes_gcm_decrypt _ _ _); reflexivity.
  - intros kf password' w'.
    destruct (decryptPrivateKey_outcome kf password' w')
      as (evs & Htr & Hall & _).
    rewrite (events_of_intro _ _ _ Htr). exact Hall.
Qed.

Lemma nonce_is_head_of_derived_key_witness :
  exists key kf w',
    encryptPrivateKey (P:=ToyPlatform) (mkUint8Array 1 0 32)
      (mkUint8Array 0 0 32) (js "correct-password") "addr"
      (snd (new_Uint8Array samplePublicKey
              (snd (new_Uint8Array sampleKey w0))))
    = (Ok kf, w')
    /\ derivedKeyOf (P:=ToyPlatform) (js "correct-password") kf = Ok key
    /\ List.length key = 32%nat.
Proof.
  destruct (proj1 (nonce_is_head_of_derived_key ToyPlatform ToyLaws
                     (mkUint8Array 1 0 32) (mkUint8Array 0 0 32)
                     (js "correct-password") "addr"
                     (snd (new_Uint8Array samplePublicKey
                             (snd (new_Uint8Array sampleKey w0))))))
    as (key & kf & w' & H1 & _ & _ & H2 & H3 & _).
  exists key, kf, w'. repeat split; assumption.
Defined.

(* ------------------------------------------------------------------ *)
(** ** C7: the private-key buffer *)

Lemma clearSensitiveData_changes_nothing (data : list (option string))
    (w : World) :
  clearSensitiveData data w = (Ok tt, w).
Proof. unfold clearSensitiveData. apply forEach_pure. reflexivity. Qed.

(** C7, as amended.  For every transaction-build call, the private-key
    buffer obtained from decryption is left as it is on all exit paths of the
    build operation (success, encoding failure, signing failure): when the
    flow ends the heap is the one decryption left, and the buffer still
    shows the decrypted key bytes.  [clearSensitiveData], which no flow
    calls, changes nothing either. *)
Theorem key_buffer_is_left_untouched (P : Platform)
    (storedKey : CanopyWalletAccount) (password : JsString)
    (orderParams : OrderParams) (editParams : EditParams)
    (deleteParams : DeleteParams) (networkParams : NetworkParams)
    (w w1 : World) (privateKeyBytes : Uint8Array) :
  decryptPrivateKey (encryptedKeyfile storedKey) password w
  = (Ok privateKeyBytes, w1) ->
  (forall w',
      w' = snd (createSignedOrder storedKey password orderParams
                  networkParams w)
      \/ w' = snd (createSignedEditOrder storedKey password editParams
                     networkParams w)
      \/ w' = snd (createSignedDeleteOrder storedKey password deleteParams
                     networkParams w) ->
      heap w' = heap w1
      /\ viewBytes w' privateKeyBytes = viewBytes w1 privateKeyBytes)
  /\ forall data w', clearSensitiveData data w' = (Ok tt, w').
Proof.
  intros Hdec. split; [|apply clearSensitiveData_changes_nothing].
  assert (H : forall txParams c,
             heap (snd (decryptThenSign (encryptedKeyfile storedKey) password
                          txParams c w)) = heap w1).
  { intros. rewrite decryptThenSign_heap, Hdec. reflexivity. }
  intros w' [-> | [-> | ->]];
    rewrite ?createSignedOrder_run, ?createSignedEditOrder_run,
      ?createSignedDeleteOrder_run;
    (split; [apply H | apply viewBytes_heap, H]).
Qed.

Lemma key_buffer_is_left_untouched_witness :
  let run := createSignedOrder (P:=ToyPlatform) sampleAccount
               (js "correct-password") sampleOrder sampleNetwork w0 in
  let privateKeyBytes := mkUint8Array 0 0 32 in
  heap (snd run) = [sampleKey]
  /\ viewBytes (snd run) privateKeyBytes = sampleKey.
Proof.
  refine (proj1 (key_buffer_is_left_untouched ToyPlatform sampleAccount
            (js "correct-password") sampleOrder sampleEdit sampleDelete
            sampleNetwork w0
            (snd (decryptPrivateKey (P:=ToyPlatform) sampleKeyfile
                    (js "correct-password") w0))
            (mkUint8Array 0 0 32) _) _ _).
  - vm_compute. reflexivity.
  - left. reflexivity.
Defined.

(** C7 fails as stated: after a successful [createSignedOrder] the buffer
    that decryption allocated still holds the 32 key bytes, none of them
    zero. *)
Lemma key_bytes_outlive_the_build :
  let run := createSignedOrder (P:=ToyPlatform) sampleAccount
               (js "correct-password") sampleOrder sampleNetwork w0 in
  isOk (fst run) = true
  /\ fst (decryptPrivateKey (P:=ToyPlatform) sampleKeyfile
            (js "correct-password") w0) = Ok (mkUint8Array 0 0 32)
  /\ viewBytes (snd run) (mkUint8Array 0 0 32) = repeat Byte.x01 32
  /\ viewBytes (snd run) (mkUint8Array 0 0 32) <> repeat Byte.x00 32.
Proof.
  vm_compute. repeat split. discriminate.
Qed.

(* ------------------------------------------------------------------ *)
(** ** C8, C9: the signed transaction *)

(** C8.  For every parameter set, private key, public key hex and curve
    type, [createAndSignTransaction] returns a signed transaction when the
    encoder and the signer accept their input, and every signed transaction
    it returns has [signature.publicKey] equal to the input public key hex,
    carries the supplied type, msg, fee, memo, networkID and chainID
    unchanged and has [createdHeight] equal to the supplied height.  Its
    [signature.signature] is the lower-case hex of the raw signature the
    signer made, in one call, over the canonical bytes of that transaction
    with the given key and curve, and decodes back to it; for an ED25519 key
    the raw signature has 64 bytes and the field exactly 128 hex
    characters. *)
Theorem signed_transaction_shape (P : Platform) (L : PlatformLaws P)
    (params : TransactionParams) (privateKeyHex publicKeyHex : string)
    (c : CurveType) (w : World) :
  (forall signBytes sig,
      wire_encode (unsignedOf params (clock w)) = Some signBytes ->
      curve_sign c signBytes privateKeyHex = Some sig ->
      fst (createAndSignTransaction params privateKeyHex publicKeyHex c w)
      = Ok {| raw_transaction :=
                {| unsigned := unsignedOf params (clock w);
                   signature :=
                     {| sig_publicKey := publicKeyHex;
                        sig_signature := bytesToHex sig |} |} |})
  /\ forall req w',
       createAndSignTransaction params privateKeyHex publicKeyHex c w
       = (Ok req, w') ->
       sig_publicKey (signature (raw_transaction req)) = publicKeyHex
       /\ tx_type (unsigned (raw_transaction req)) = type params
       /\ tx_msg (unsigned (raw_transaction req)) = msg params
       /\ tx_fee (unsigned (raw_transaction req)) = fee params
       /\ tx_memo (unsigned (raw_transaction req)) = memo params
       /\ tx_networkID (unsigned (raw_transaction req)) = networkID params
       /\ tx_chainID (unsigned (raw_transaction req)) = chainID params
       /\ tx_createdHeight (unsigned (raw_transaction req)) = height params
       /\ tx_time (unsigned (raw_transaction req)) = clock w * 1000
       /\ exists signBytes sig,
            wire_encode (unsigned (raw_transaction req)) = Some signBytes
            /\ curve_sign c signBytes privateKeyHex = Some sig
            /\ sig_signature (signature (raw_transaction req))
               = bytesToHex sig
            /\ hexToBytes (sig_signature (signature (raw_transaction req)))
               = Ok sig
            /\ trace w'
               = trace w ++ [EvSignMessage signBytes privateKeyHex c]
            /\ (c = ED25519 ->
                List.length sig = 64%nat
                /\ String.length
                     (sig_signature (signature (raw_transaction req)))
                   = 128%nat).
Proof.
  rewrite createAndSignTransaction_run. cbv zeta. split.
  - intros signBytes sig -> ->. reflexivity.
  - intros req w'.
    destruct (wire_encode _) as [signBytes|] eqn:Henc; [|discriminate].
    destruct (curve_sign _ _ _) as [sig|] eqn:Hsig; [|discriminate].
    intros E; injection E as <- <-. cbn.
    do 9 (split; [reflexivity|]).
    exists signBytes, sig.
    split; [exact Henc|]. split; [exact Hsig|]. split; [reflexivity|].
    split; [apply hexToBytes_bytesToHex|]. split; [reflexivity|].
    intros ->. pose proof (ed25519_signature_length _ _ _ Hsig) as Hlen.
    split; [exact Hlen|]. rewrite bytesToHex_length, Hlen. reflexivity.
Qed.

Lemma signed_transaction_shape_witness :
  exists req w' signBytes,
    createAndSignTransaction (P:=ToyPlatform)
      (orderTxParams sampleOrder sampleNetwork) (bytesToHex sampleKey)
      (publicKey sampleKeyfile) ED25519 w0 = (Ok req, w')
    /\ sig_publicKey (signature (raw_transaction req))
       = publicKey sampleKeyfile
    /\ tx_fee (unsigned (raw_transaction req)) = 10000
    /\ tx_createdHeight (unsigned (raw_transaction req)) = 500
    /\ curve_sign (Platform:=ToyPlatform) ED25519 signBytes
         (bytesToHex sampleKey)
       = Some (repeat Byte.x01 64)
    /\ sig_signature (signature (raw_transaction req))
       = bytesToHex (repeat Byte.x01 64)
    /\ String.length (sig_signature (signature (raw_transaction req)))
       = 128%nat.
Proof.
  assert (E : createAndSignTransaction (P:=ToyPlatform)
                (orderTxParams sampleOrder sampleNetwork)
                (bytesToHex sampleKey) (publicKey sampleKeyfile) ED25519 w0
              = (Ok _, _)) by (vm_compute; reflexivity).
  destruct (proj2 (signed_transaction_shape ToyPlatform ToyLaws
                     (orderTxParams sampleOrder sampleNetwork)
                     (bytesToHex sampleKey) (publicKey sampleKeyfile)
                     ED25519 w0) _ _ E)
    as (H1 & _ & _ & H2 & _ & _ & _ & H3 & _
        & signBytes & sig & _ & Hsig & Hhex & _ & _ & H4).
  eexists; eexists; exists signBytes.
  split; [exact E|]. split; [exact H1|]. split; [exact H2|].
  split; [exact H3|].
  assert (Esig : sig = repeat Byte.x01 64).
  { revert Hsig. cbn. intros Hs. injection Hs as <-. reflexivity. }
  rewrite <- Esig.
  split; [exact Hsig|]. split; [exact Hhex|]. exact (proj2 (H4 eq_refl)).
Defined.

(** C9.  Every CreateOrder message that [createOrderMessage] constructs has
    an empty [orderId], and so has the message of every transaction that
    [createSignedOrder] returns. *)
Theorem order_id_is_empty_on_creation (P : Platform)
    (storedKey : CanopyWalletAccount) (password : JsString)
    (orderParams : OrderParams) (networkParams : NetworkParams)
    (w w' : World) (req : SendRawTransactionRequest) :
  createSignedOrder storedKey password orderParams networkParams w
  = (Ok req, w') ->
  (forall chainId data amountForSale requestedAmount sellerReceiveAddress
          sellersSendAddress,
      co_orderId (createOrderMessage chainId data amountForSale
                    requestedAmount sellerReceiveAddress sellersSendAddress)
      = "")
  /\ exists m,
       tx_msg (unsigned (raw_transaction req)) = MsgCreateOrder m
       /\ co_orderId m = ""
       /\ co_chainId m = op_chainId orderParams
       /\ co_amountForSale m = op_amountForSale orderParams
       /\ co_requestedAmount m = op_requestedAmount orderParams.
Proof.
  intros Hrun. split; [reflexivity|].
  rewrite createSignedOrder_run in Hrun.
  destruct (decryptThenSign_result _ _ _ _ _ _ _ Hrun) as [Hu _].
  rewrite Hu. cbn. eexists. split; [reflexivity|]. repeat split.
Qed.

Lemma order_id_is_empty_on_creation_witness :
  exists req w',
    createSignedOrder (P:=ToyPlatform) sampleAccount (js "correct-password")
      sampleOrder sampleNetwork w0 = (Ok req, w')
    /\ exists m,
         tx_msg (unsigned (raw_transaction req)) = MsgCreateOrder m
         /\ co_orderId m = "".
Proof.
  eexists; eexists.
  assert (E : createSignedOrder (P:=ToyPlatform) sampleAccount
                (js "correct-password") sampleOrder sampleNetwork w0
              = (Ok _, _)) by (vm_compute; reflexivity).
  split; [exact E|].
  destruct (proj2 (order_id_is_empty_on_creation ToyPlatform sampleAccount
                     (js "correct-password") sampleOrder sampleNetwork
                     w0 _ _ E)) as (m & Hm & Hid & _).
  exists m. split; assumption.
Defined.

(* ================================================================== *)
(** * Further properties of the code *)

(* ------------------------------------------------------------------ *)
(** ** Base64 *)

Ltac euclid := zify; Z.to_euclidean_division_equations; lia.

Lemma list_ind3 {A} (Q : list A -> Prop) :
  Q [] -> (forall a, Q [a]) -> (forall a b, Q [a; b]) ->
  (forall a b c l, Q l -> Q (a :: b :: c :: l)) ->
  forall l, Q l.
Proof.
  intros H0 H1 H2 H3.
  assert (H : forall l, Q l /\ (forall a, Q (a :: l))
                        /\ (forall a b, Q (a :: b :: l))).
  { induction l as [|x l (IH0 & IH1 & IH2)]; repeat split; auto. }
  intros l. apply H.
Qed.

Lemma base64Index_base64Char (i : N) :
  (i < 64)%N -> base64Index (base64Char i) = Some i.
Proof.
  intros H. rewrite <- (N2Nat.id i).
  assert (Hn : (N.to_nat i < 64)%nat) by lia.
  generalize dependent (N.to_nat i). clear. intros n Hn.
  do 64 (destruct n as [|n]; [reflexivity|]). lia.
Qed.

Lemma base64Char_plain (i : N) :
  (i < 64)%N ->
  isAsciiWhitespace (base64Char i) = false
  /\ Ascii.eqb (base64Char i) "=" = false.
Proof.
  intros H. rewrite <- (N2Nat.id i).
  assert (Hn : (N.to_nat i < 64)%nat) by lia.
  generalize dependent (N.to_nat i). clear. intros n Hn.
  do 64 (destruct n as [|n]; [split; reflexivity|]). lia.
Qed.

Lemma btoa_chars_split (bs : list N) :
  btoa_chars bs = map base64Char (sextetsOf bs) ++ paddingOf bs.
Proof.
  induction bs as [| | |a b c l IH] using list_ind3; try reflexivity.
  cbn [btoa_chars sextetsOf paddingOf]. rewrite IH, map_app, <- app_assoc.
  reflexivity.
Qed.


Lemma sextetsOf_bound (bs : list N) :
  Forall isByte bs -> Forall isSextet (sextetsOf bs).
Proof.
  unfold isByte, isSextet.
  induction bs as [| | |a b c l IH] using list_ind3; intros H.
  - constructor.
  - inversion_clear H. repeat (apply Forall_cons; [euclid|]); apply Forall_nil.
  - inversion_clear H as [|? ? ? H']. inversion_clear H'.
    repeat (apply Forall_cons; [euclid|]); apply Forall_nil.
  - inversion_clear H as [|? ? ? H']. inversion_clear H' as [|? ? ? H''].
    inversion_clear H''. cbn [sextetsOf].
    apply Forall_app. split; [|auto].
    repeat (apply Forall_cons; [euclid|]); apply Forall_nil.
Qed.

Lemma bytesOfSextets_sextetsOf (bs : list N) :
  Forall isByte bs -> bytesOfSextets (sextetsOf bs) = bs.
Proof.
  unfold isByte.
  induction bs as [| | |a b c l IH] using list_ind3; intros H.
  - reflexivity.
  - inversion_clear H. cbn. f_equal. euclid.
  - inversion_clear H as [|? ? ? H']. inversion_clear H'.
    cbn. f_equal; [euclid|]. f_equal. euclid.
  - inversion_clear H as [|? ? ? H']. inversion_clear H' as [|? ? ? H''].
    inversion_clear H''. cbn [sextetsOf app bytesOfSextets].
    rewrite IH by assumption.
    f_equal; [euclid|]. f_equal; [euclid|]. f_equal. euclid.
Qed.



Lemma sextets_base64Char (l : list N) :
  Forall isSextet l -> sextets (map base64Char l) = Some l.
Proof.
  induction 1 as [|i l Hi _ IH]; [reflexivity|].
  cbn [map sextets]. rewrite (base64Index_base64Char i Hi), IH. reflexivity.
Qed.

Lemma filter_base64Char (l : list N) (pad : list ascii) :
  Forall isSextet l -> Forall (fun c => c = "="%char) pad ->
  filter (fun ch => negb (isAsciiWhitespace ch)) (map base64Char l ++ pad)
  = map base64Char l ++ pad.
Proof.
  intros Hl Hp. rewrite filter_app. f_equal.
  - induction Hl as [|i l Hi _ IH]; [reflexivity|].
    cbn [map filter]. rewrite (proj1 (base64Char_plain i Hi)). cbn [negb].
    rewrite IH. reflexivity.
  - induction Hp as [|c pad -> _ IH]; [reflexivity|].
    cbn [filter]. rewrite IH. reflexivity.
Qed.

Lemma paddingOf_cases (bs : list N) :
  (paddingOf bs = [] /\ (List.length (sextetsOf bs) mod 4 = 0)%nat)
  \/ (paddingOf bs = ["="; "="]%char
      /\ (List.length (sextetsOf bs) mod 4 = 2)%nat)
  \/ (paddingOf bs = ["="]%char
      /\ (List.length (sextetsOf bs) mod 4 = 3)%nat).
Proof.
  induction bs as [| | |a b c l IH] using list_ind3.
  - left. split; reflexivity.
  - right. left. split; reflexivity.
  - right. right. split; reflexivity.
  - cbn [paddingOf sextetsOf]. rewrite length_app.
    change (List.length [(a / 4)%N; (a mod 4 * 16 + b / 16)%N;
                         (b mod 16 * 4 + c / 64)%N; (c mod 64)%N]) with 4%nat.
    replace ((4 + List.length (sextetsOf l)) mod 4)%nat
      with (List.length (sextetsOf l) mod 4)%nat; [exact IH|].
    rewrite Nat.add_comm.
    rewrite <- (Nat.Div0.mod_add (List.length (sextetsOf l)) 1 4).
    reflexivity.
Qed.

Lemma rev_base64_head (l : list N) :
  Forall isSextet l ->
  rev (map base64Char l) = []
  \/ exists c r, rev (map base64Char l) = c :: r /\ Ascii.eqb c "=" = false.
Proof.
  intros Hl. destruct (rev l) as [|i r] eqn:E.
  - left. rewrite <- map_rev, E. reflexivity.
  - right. exists (base64Char i), (map base64Char r).
    rewrite <- map_rev, E. split; [reflexivity|].
    apply base64Char_plain.
    assert (Hin : In i l) by (apply in_rev; rewrite E; left; reflexivity).
    exact (proj1 (Forall_forall _ _) Hl i Hin).
Qed.

Lemma stripPadding_btoa (bs : list N) :
  Forall isByte bs ->
  stripPadding (map base64Char (sextetsOf bs) ++ paddingOf bs)
  = map base64Char (sextetsOf bs).
Proof.
  intros Hb. pose proof (sextetsOf_bound bs Hb) as Hs.
  pose proof (rev_base64_head _ Hs) as Hrev.
  pose proof (length_map base64Char (sextetsOf bs)) as Hlen.
  set (A := map base64Char (sextetsOf bs)) in *.
  unfold stripPadding. rewrite length_app, rev_app_distr, Hlen.
  destruct (paddingOf_cases bs) as [[-> Hm] | [[-> Hm] | [-> Hm]]].
  - cbn [List.length rev app]. rewrite Nat.add_0_r, Hm, app_nil_r.
    cbn [Nat.eqb].
    destruct Hrev as [E | (c & r & E & Hc)]; rewrite E; [reflexivity|].
    rewrite Hc. reflexivity.
  - cbn [List.length rev app].
    replace ((List.length (sextetsOf bs) + 2) mod 4)%nat with 0%nat
      by (rewrite Nat.Div0.add_mod, Hm by lia; reflexivity).
    cbn. apply rev_involutive.
  - cbn [List.length rev app].
    replace ((List.length (sextetsOf bs) + 1) mod 4)%nat with 0%nat
      by (rewrite Nat.Div0.add_mod, Hm by lia; reflexivity).
    cbn [Nat.eqb].
    change (Ascii.eqb "=" "=") with true. cbv iota.
    destruct Hrev as [E | (c & r & E & Hc)].
    + rewrite E. rewrite <- E. apply rev_involutive.
    + rewrite E, Hc, <- E. apply rev_involutive.
Qed.

Lemma paddingOf_equals (bs : list N) :
  Forall (fun c => c = "="%char) (paddingOf bs).
Proof.
  destruct (paddingOf_cases bs) as [[-> _] | [[-> _] | [-> _]]];
    repeat constructor.
Qed.

Lemma isByte_N_of_ascii (l : list ascii) : Forall isByte (map N_of_ascii l).
Proof.
  induction l as [|c l IH]; constructor; [|exact IH].
  unfold isByte. apply N_ascii_bounded.
Qed.

(** [atob] undoes [btoa]. *)
Lemma atob_btoa (binary : string) : atob (btoa binary) = Ok binary.
Proof.
  unfold atob, btoa. rewrite list_ascii_of_string_of_list_ascii.
  set (bs := map N_of_ascii (list_ascii_of_string binary)).
  assert (Hb : Forall isByte bs) by apply isByte_N_of_ascii.
  pose proof (sextetsOf_bound bs Hb) as Hs.
  rewrite btoa_chars_split.
  rewrite (filter_base64Char _ _ Hs (paddingOf_equals bs)).
  rewrite (stripPadding_btoa bs Hb), length_map.
  destruct (paddingOf_cases bs) as [[_ Hm] | [[_ Hm] | [_ Hm]]];
    rewrite Hm; cbn [Nat.eqb];
    rewrite (sextets_base64Char _ Hs), (bytesOfSextets_sextetsOf bs Hb);
    unfold bs; rewrite map_map;
    rewrite (map_ext _ (fun c => c)) by apply ascii_N_embedding;
    rewrite map_id, string_of_list_ascii_of_string; reflexivity.
Qed.

Lemma btoa_length (binary : string) :
  String.length (btoa binary)
  = (4 * ((String.length binary + 2) / 3))%nat.
Proof.
  unfold btoa.
  rewrite <- (string_of_list_ascii_of_string binary) at 2.
  generalize (list_ascii_of_string binary). intros l.
  assert (Hlen : forall l', String.length (string_of_list_ascii l')
                            = List.length l').
  { induction l' as [|c l' IH]; [reflexivity|]. cbn. rewrite IH. reflexivity. }
  rewrite !Hlen. rewrite <- (length_map N_of_ascii l).
  generalize (map N_of_ascii l). clear. intros bs.
  induction bs as [| | |a b c l IH] using list_ind3; try reflexivity.
  cbn [btoa_chars]. rewrite length_app, IH.
  cbn [List.length app].
  replace (S (S (S (List.length l))) + 2)%nat
    with (List.length l + 2 + 1 * 3)%nat by lia.
  rewrite Nat.div_add by lia. lia.
Qed.

(* ------------------------------------------------------------------ *)
(** ** [CryptoUtils]: base64 fields, encryption under the app secret *)

Lemma charCodeAt_fromCharCode (b : byte) :
  CryptoUtils.charCodeAt (CryptoUtils.fromCharCode b) = b.
Proof. destruct b; reflexivity. Qed.

Lemma binary_of_buffer (buffer : list byte) (acc : string) :
  fold_left
    (fun binary b =>
       (binary ++ String (CryptoUtils.fromCharCode b) "")%string)
    buffer acc
  = (acc ++ string_of_list_ascii (map CryptoUtils.fromCharCode buffer))%string.
Proof.
  revert acc. induction buffer as [|b l IH]; intros acc; cbn.
  - induction acc as [|c acc IHa]; cbn; congruence.
  - rewrite IH. clear IH.
    induction acc as [|c acc IHa]; cbn; [reflexivity|]. rewrite IHa.
    reflexivity.
Qed.

Lemma string_of_list_ascii_length (l : list ascii) :
  String.length (string_of_list_ascii l) = List.length l.
Proof. induction l as [|c l IH]; [reflexivity|]. cbn. rewrite IH. reflexivity. Qed.

Lemma base64ToArrayBuffer_arrayBufferToBase64 (buffer : list byte) :
  CryptoUtils.base64ToArrayBuffer (CryptoUtils.arrayBufferToBase64 buffer)
  = Ok buffer.
Proof.
  unfold CryptoUtils.base64ToArrayBuffer, CryptoUtils.arrayBufferToBase64.
  rewrite binary_of_buffer. cbn [String.append].
  rewrite atob_btoa, list_ascii_of_string_of_list_ascii, map_map.
  rewrite (map_ext _ (fun b => b)) by apply charCodeAt_fromCharCode.
  rewrite map_id. reflexivity.
Qed.

(** X1.  Decoding the base64 text of a buffer gives the buffer back, for
    every buffer, the empty one and those whose length is not a multiple of
    three included. *)
Theorem base64_roundtrip (buffer : list byte) :
  CryptoUtils.base64ToArrayBuffer (CryptoUtils.arrayBufferToBase64 buffer)
  = Ok buffer.
Proof. apply base64ToArrayBuffer_arrayBufferToBase64. Qed.

(** X2.  The base64 text of a buffer of [n] bytes has [4 * ceil(n / 3)]
    characters. *)
Theorem base64_length (buffer : list byte) :
  String.length (CryptoUtils.arrayBufferToBase64 buffer)
  = (4 * ((List.length buffer + 2) / 3))%nat.
Proof.
  unfold CryptoUtils.arrayBufferToBase64.
  rewrite binary_of_buffer. cbn [String.append].
  rewrite btoa_length, string_of_list_ascii_length, length_map. reflexivity.
Qed.

Section AppSecret.
Context {P : Platform} {A : AppPlatform}.

(** The key [CryptoUtils] derives for a salt. *)
Lemma CryptoUtils_encrypt_run (data : JsString) (w : World) :
  let salt := map (entropy w) (seq (drawn w) 16) in
  let iv := map (entropy w) (seq (drawn w + 16) 12) in
  let key := pbkdf2_sha256 (TextEncoder_encode KEYFILE_SECRET) salt
                           CryptoUtils.ITERATIONS CryptoUtils.KEY_LENGTH in
  CryptoUtils.encrypt data w =
  (Ok {| CryptoUtils.ed_encryptedData :=
           CryptoUtils.arrayBufferToBase64
             (aes_gcm_encrypt key iv (TextEncoder_encode data));
         CryptoUtils.ed_salt := CryptoUtils.arrayBufferToBase64 salt;
         CryptoUtils.ed_iv := CryptoUtils.arrayBufferToBase64 iv |},
   mkWorld (heap w) (entropy w) (drawn w + 28) (clock w)
     (trace w ++ [EvGetRandomValues salt; EvGetRandomValues iv;
                  EvImportKey (TextEncoder_encode KEYFILE_SECRET);
                  EvDeriveKey (TextEncoder_encode KEYFILE_SECRET) salt
                    CryptoUtils.ITERATIONS CryptoUtils.KEY_LENGTH;
                  EvAesGcmEncrypt key iv (TextEncoder_encode data)])).
Proof.
  unfold CryptoUtils.encrypt, CryptoUtils.generateSalt,
    CryptoUtils.generateIV, CryptoUtils.deriveKey, subtle_encrypt, try_catch,
    bind, getRandomValues, emit, ret. cbn.
  rewrite <- !app_assoc, <- Nat.add_assoc. reflexivity.
Qed.

Lemma CryptoUtils_decrypt_run (ed : CryptoUtils.EncryptedData) (w : World)
    (data salt iv : list byte) :
  CryptoUtils.base64ToArrayBuffer (CryptoUtils.ed_encryptedData ed) = Ok data ->
  CryptoUtils.base64ToArrayBuffer (CryptoUtils.ed_salt ed) = Ok salt ->
  CryptoUtils.base64ToArrayBuffer (CryptoUtils.ed_iv ed) = Ok iv ->
  let key := pbkdf2_sha256 (TextEncoder_encode KEYFILE_SECRET) salt
                           CryptoUtils.ITERATIONS CryptoUtils.KEY_LENGTH in
  CryptoUtils.decrypt ed w =
  (match aes_gcm_decrypt key iv data with
   | Some plain => Ok (TextDecoder_decode plain)
   | None => Throw (Error ("Decryption failed: "
                             ++ Error_toString OperationError)%string)
   end,
   logged [EvImportKey (TextEncoder_encode KEYFILE_SECRET);
           EvDeriveKey (TextEncoder_encode KEYFILE_SECRET) salt
             CryptoUtils.ITERATIONS CryptoUtils.KEY_LENGTH;
           EvAesGcmDecrypt key iv data] w).
Proof.
  intros Hd Hs Hi key.
  unfold CryptoUtils.decrypt, CryptoUtils.deriveKey, subtle_decrypt,
    try_catch, bind, lift, emit, ret, throw, logged.
  rewrite Hd, Hs, Hi. subst key. cbn.
  rewrite <- !app_assoc.
  destruct (aes_gcm_decrypt _ _ _); reflexivity.
Qed.

End AppSecret.

Lemma base64ToArrayBuffer_error (base64 : string) (e : JsError) :
  CryptoUtils.base64ToArrayBuffer base64 = Throw e ->
  e = InvalidCharacterError.
Proof.
  unfold CryptoUtils.base64ToArrayBuffer, atob.
  destruct (_ =? 1)%nat; [intros E; injection E as <-; reflexivity|].
  destruct (sextets _); [discriminate|].
  intros E; injection E as <-; reflexivity.
Qed.

(** X3.  [CryptoUtils.encrypt] draws a 16-byte salt and then a 12-byte IV
    from the random source, the IV being random bytes of its own and not a
    part of the key; it then imports the application secret as PBKDF2
    material, derives the AES-GCM key from it and the salt (100000
    iterations, 256 bits), and encrypts the UTF-8 bytes of the data under
    that key and IV, in this order and with no other call.  Salt and IV are
    stored in base64 beside the ciphertext and decode back to the bytes
    drawn; the heap is left alone, and the next call draws the next 28
    bytes. *)
Theorem CryptoUtils_encrypt_fresh_salt_and_iv (P : Platform)
    (A : AppPlatform) (data : JsString) (w : World) :
  exists ed w',
    CryptoUtils.encrypt data w = (Ok ed, w')
    /\ CryptoUtils.base64ToArrayBuffer (CryptoUtils.ed_salt ed)
       = Ok (map (entropy w) (seq (drawn w) 16))
    /\ CryptoUtils.base64ToArrayBuffer (CryptoUtils.ed_iv ed)
       = Ok (map (entropy w) (seq (drawn w + 16) 12))
    /\ events_of (CryptoUtils.encrypt data) w
       = [EvGetRandomValues (map (entropy w) (seq (drawn w) 16));
          EvGetRandomValues (map (entropy w) (seq (drawn w + 16) 12));
          EvImportKey (TextEncoder_encode KEYFILE_SECRET);
          EvDeriveKey (TextEncoder_encode KEYFILE_SECRET)
            (map (entropy w) (seq (drawn w) 16)) 100000 256;
          EvAesGcmEncrypt
            (pbkdf2_sha256 (TextEncoder_encode KEYFILE_SECRET)
               (map (entropy w) (seq (drawn w) 16)) 100000 256)
            (map (entropy w) (seq (drawn w + 16) 12))
            (TextEncoder_encode data)]
    /\ drawn w' = (drawn w + 28)%nat
    /\ entropy w' = entropy w
    /\ heap w' = heap w.
Proof.
  eexists; eexists. split; [apply CryptoUtils_encrypt_run|].
  cbn [CryptoUtils.ed_salt CryptoUtils.ed_iv drawn entropy heap].
  rewrite !base64ToArrayBuffer_arrayBufferToBase64.
  repeat split.
  apply events_of_intro. rewrite CryptoUtils_encrypt_run. reflexivity.
Qed.

(** X4.  On a cipher whose decryption undoes its encryption,
    [CryptoUtils.decrypt] of what [CryptoUtils.encrypt] returned for [data]
    returns the decoding of the UTF-8 bytes of [data]. *)
Theorem CryptoUtils_decrypt_encrypt (P : Platform) (A : AppPlatform)
    (data : JsString) (w : World) :
  (forall key iv plain,
      aes_gcm_decrypt key iv (aes_gcm_encrypt key iv plain) = Some plain) ->
  exists ed w1,
    CryptoUtils.encrypt data w = (Ok ed, w1)
    /\ forall w2,
         fst (CryptoUtils.decrypt ed w2)
         = Ok (TextDecoder_decode (TextEncoder_encode data)).
Proof.
  intros Hc. eexists; eexists. split; [apply CryptoUtils_encrypt_run|].
  intros w2.
  erewrite CryptoUtils_decrypt_run by apply base64ToArrayBuffer_arrayBufferToBase64.
  cbn [fst]. rewrite Hc. reflexivity.
Qed.

Lemma CryptoUtils_decrypt_encrypt_witness :
  exists ed w1,
    CryptoUtils.encrypt (P:=ToyPlatform) (A:=ToyApp) (js "keyfile") w0
    = (Ok ed, w1)
    /\ fst (CryptoUtils.decrypt (P:=ToyPlatform) (A:=ToyApp) ed w1)
       = Ok (js "keyfile").
Proof.
  destruct (CryptoUtils_decrypt_encrypt ToyPlatform ToyApp (js "keyfile") w0
              toy_decrypt_encrypt) as (ed & w1 & H1 & H2).
  exists ed, w1. split; [exact H1 | exact (H2 w1)].
Defined.

(** X5.  Every failure of [CryptoUtils.decrypt] is an [Error] whose message
    is [Decryption failed: ] followed by the text of its cause, and the
    cause is one of two: an [InvalidCharacterError] of [atob], for a field
    that is not base64, thrown before any key is imported or derived and
    before any decryption (the state is as it was); or the [OperationError]
    of a failed AES-GCM authentication (wrong secret, altered ciphertext,
    salt or IV), after the key import, the derivation and one decryption
    call.  In both cases no random bytes are drawn and the heap is left
    alone. *)
Theorem CryptoUtils_decrypt_failure (P : Platform) (A : AppPlatform)
    (ed : CryptoUtils.EncryptedData) (w w' : World) (e : JsError) :
  CryptoUtils.decrypt ed w = (Throw e, w') ->
  drawn w' = drawn w /\ heap w' = heap w
  /\ exists cause,
       e = Error ("Decryption failed: " ++ Error_toString cause)%string
       /\ ((name cause = "InvalidCharacterError" /\ w' = w)
           \/ (name cause = "OperationError"
               /\ exists key salt iv data,
                    CryptoUtils.base64ToArrayBuffer (CryptoUtils.ed_salt ed)
                    = Ok salt
                    /\ events_of (CryptoUtils.decrypt ed) w
                       = [EvImportKey (TextEncoder_encode KEYFILE_SECRET);
                          EvDeriveKey (TextEncoder_encode KEYFILE_SECRET)
                            salt 100000 256;
                          EvAesGcmDecrypt key iv data]
                    /\ aes_gcm_decrypt key iv data = None)).
Proof.
  destruct (CryptoUtils.base64ToArrayBuffer (CryptoUtils.ed_encryptedData ed))
    as [data|e1] eqn:Hd;
  [destruct (CryptoUtils.base64ToArrayBuffer (CryptoUtils.ed_salt ed))
     as [salt|e2] eqn:Hs;
   [destruct (CryptoUtils.base64ToArrayBuffer (CryptoUtils.ed_iv ed))
      as [iv|e3] eqn:Hi|]|].
  - pose proof (CryptoUtils_decrypt_run ed w data salt iv Hd Hs Hi) as Hrun.
    cbv zeta in Hrun. rewrite Hrun.
    destruct (aes_gcm_decrypt _ _ _) eqn:Hdec; [discriminate|].
    intros E; injection E as <- <-. split; [reflexivity|].
    split; [reflexivity|]. exists OperationError.
    split; [reflexivity|]. right. split; [reflexivity|].
    eexists; exists salt; eexists; eexists.
    split; [reflexivity|]. split; [|exact Hdec].
    apply events_of_intro. rewrite Hrun. reflexivity.
  - apply base64ToArrayBuffer_error in Hi as Hi'. subst e3.
    unfold CryptoUtils.decrypt, try_catch, bind, lift, throw.
    rewrite Hd, Hs, Hi.
    intros E; injection E as <- <-. split; [reflexivity|].
    split; [reflexivity|]. exists InvalidCharacterError.
    split; [reflexivity|]. left. split; reflexivity.
  - apply base64ToArrayBuffer_error in Hs as Hs'. subst e2.
    unfold CryptoUtils.decrypt, try_catch, bind, lift, throw.
    rewrite Hd, Hs.
    intros E; injection E as <- <-. split; [reflexivity|].
    split; [reflexivity|]. exists InvalidCharacterError.
    split; [reflexivity|]. left. split; reflexivity.
  - apply base64ToArrayBuffer_error in Hd as Hd'. subst e1.
    unfold CryptoUtils.decrypt, try_catch, bind, lift, throw.
    rewrite Hd.
    intros E; injection E as <- <-. split; [reflexivity|].
    split; [reflexivity|]. exists InvalidCharacterError.
    split; [reflexivity|]. left. split; reflexivity.
Qed.

Lemma CryptoUtils_decrypt_failure_witness :
  exists e w' cause,
    CryptoUtils.decrypt (P:=ToyPlatform) (A:=ToyApp)
      (CryptoUtils.mkEncryptedData "AAA" "AA==" "AA==") w0 = (Throw e, w')
    /\ e = Error ("Decryption failed: " ++ Error_toString cause)%string
    /\ name cause = "OperationError"
    /\ drawn w' = drawn w0 /\ heap w' = heap w0.
Proof.
  assert (E : CryptoUtils.decrypt (P:=ToyPlatform) (A:=ToyApp)
                (CryptoUtils.mkEncryptedData "AAA" "AA==" "AA==") w0
              = (Throw (Error ("Decryption failed: "
                                 ++ Error_toString OperationError)%string),
                 snd (CryptoUtils.decrypt (P:=ToyPlatform) (A:=ToyApp)
                        (CryptoUtils.mkEncryptedData "AAA" "AA==" "AA==")
                        w0)))
    by (vm_compute; reflexivity).
  destruct (CryptoUtils_decrypt_failure ToyPlatform ToyApp _ _ _ _ E)
    as (H1 & H2 & _).
  eexists; eexists; exists OperationError.
  split; [exact E|]. split; [reflexivity|]. split; [reflexivity|].
  split; assumption.
Defined.

(* ------------------------------------------------------------------ *)
(** ** More on the key vault *)

(** X6.  A keyfile whose salt or ciphertext is not hexadecimal (an odd
    length, a character outside [0-9a-fA-F]) makes [decryptPrivateKey] fail
    with [Failed to decrypt private key: ...], which is not the password
    error, before any key derivation: the world is left as it was. *)
Theorem decrypt_rejects_malformed_hex (P : Platform)
    (kf : EncryptedCanopyKeyfile) (password : JsString) (w : World)
    (e : JsError) :
  hexToBytes (salt kf) = Throw e
  \/ (isOk (hexToBytes (salt kf)) = true
      /\ hexToBytes (encrypted kf) = Throw e) ->
  decryptPrivateKey kf password w
  = (Throw (Error ("Failed to decrypt private key: " ++ message e)%string), w)
  /\ ~ InvalidPassword
         (Error ("Failed to decrypt private key: " ++ message e)%string).
Proof.
  intros H. split; [|unfold InvalidPassword; discriminate].
  unfold decryptPrivateKey, try_catch, bind, lift, throw.
  destruct H as [Hs | [Hs Hc]].
  - rewrite Hs, (hexToBytes_error _ _ Hs). reflexivity.
  - destruct (hexToBytes (salt kf)); [|discriminate].
    rewrite Hc, (hexToBytes_error _ _ Hc). reflexivity.
Qed.

Lemma decrypt_rejects_malformed_hex_witness :
  let kf := {| publicKey := ""; encrypted := "0g";
               salt := "000102030405060708090a0b0c0d0e0f";
               keyAddress := ""; keyNickname := "" |} in
  decryptPrivateKey (P:=ToyPlatform) kf (js "pw") w0
  = (Throw (Error ("Failed to decrypt private key: "
                     ++ message hexError_nonhex)%string), w0).
Proof.
  refine (proj1 (decrypt_rejects_malformed_hex ToyPlatform _ (js "pw") w0
                   hexError_nonhex _)).
  right. split; reflexivity.
Defined.

(** X7.  [decryptPrivateKey] returns the key in a buffer of its own, newly
    allocated, and leaves every buffer that existed as it was; when it fails
    it allocates nothing and the error is either the password error or a
    [Failed to decrypt private key: ...] one.  It never draws random bytes
    and never encrypts or signs. *)
Theorem decrypt_allocates_fresh_buffer (P : Platform)
    (kf : EncryptedCanopyKeyfile) (password : JsString) (w : World) :
  let r := decryptPrivateKey kf password w in
  drawn (snd r) = drawn w
  /\ Forall (nonce_from_key password kf)
            (events_of (decryptPrivateKey kf password) w)
  /\ (forall buf, (buf < List.length (heap w))%nat ->
                  bufferBytes (snd r) buf = bufferBytes w buf)
  /\ match fst r with
     | Ok privateKeyBytes =>
         ta_buffer privateKeyBytes = List.length (heap w)
         /\ ta_byteOffset privateKeyBytes = 0%nat
         /\ List.length (heap (snd r)) = S (List.length (heap w))
         /\ viewBytes (snd r) privateKeyBytes
            = bufferBytes (snd r) (ta_buffer privateKeyBytes)
     | Throw e =>
         heap (snd r) = heap w /\ (InvalidPassword e \/ CorruptedKeyfile e)
     end.
Proof.
  cbv zeta.
  destruct (decryptPrivateKey_outcome kf password w)
    as (evs & Htr & Hall & _ & Hdrawn & _ & Hres).
  split; [exact Hdrawn|].
  split; [rewrite (events_of_intro _ _ _ Htr); exact Hall|].
  destruct (fst (decryptPrivateKey kf password w)) as [arr|e].
  - destruct Hres as (plain & Hheap & ->). split.
    + intros buf Hbuf. unfold bufferBytes. rewrite Hheap.
      apply app_nth1. exact Hbuf.
    + cbn [ta_buffer ta_byteOffset].
      split; [reflexivity|]. split; [reflexivity|].
      split; [rewrite Hheap, length_app; cbn; lia|].
      unfold viewBytes, bufferBytes. cbn [ta_buffer ta_byteOffset ta_length].
      rewrite Hheap, nth_middle. apply firstn_all.
  - destruct Hres as [Hheap Hkind]. split; [|split; assumption].
    intros buf _. unfold bufferBytes. rewrite Hheap. reflexivity.
Qed.

(** X8.  For a keyfile [encryptPrivateKey] returned under password [p],
    [verifyPassword] answers true for [p], in any later world, and for any
    password it answers true exactly when AES-GCM authenticates the
    ciphertext under the key and nonce that password derives: false when
    authentication fails, never an error. *)
Theorem verifyPassword_decides (P : Platform) (L : PlatformLaws P)
    (publicKeyBytes privateKeyBytes : Uint8Array) (p : JsString)
    (addr : string) (w w1 w' : World) (kf : EncryptedCanopyKeyfile) :
  encryptPrivateKey publicKeyBytes privateKeyBytes p addr w = (Ok kf, w1) ->
  fst (verifyPassword kf p w') = Ok true
  /\ forall p',
       fst (verifyPassword kf p' w')
       = Ok (match aeadOutcome p' kf with
             | Some _ => true
             | None => false
             end).
Proof.
  intros Hrun.
  destruct (encryptPrivateKey_run publicKeyBytes privateKeyBytes p addr w)
    as (key & Hkey & Hlen & Henc).
  rewrite Henc in Hrun. injection Hrun as <- _.
  assert (Hany : forall p',
    fst (verifyPassword
           {| publicKey := bytesToHex (viewBytes w publicKeyBytes);
              encrypted :=
                bytesToHex (aes_gcm_encrypt key (firstn NONCE_LENGTH key)
                              (bufferBytes w (ta_buffer privateKeyBytes)));
              salt := bytesToHex (freshSalt w);
              keyAddress := addr;
              keyNickname := "" |} p' w')
    = Ok (match aeadOutcome p'
                  {| publicKey := bytesToHex (viewBytes w publicKeyBytes);
                     encrypted :=
                       bytesToHex
                         (aes_gcm_encrypt key (firstn NONCE_LENGTH key)
                            (bufferBytes w (ta_buffer privateKeyBytes)));
                     salt := bytesToHex (freshSalt w);
                     keyAddress := addr;
                     keyNickname := "" |} with
          | Some _ => true
          | None => false
          end)).
  { intros p'.
    destruct (argon2i_dkLen (TextEncoder_encode p') (freshSalt w))
      as (key' & Hkey' & Hlen').
    { rewrite freshSalt_length. lia. }
    unfold aeadOutcome, derivedKeyOf. cbn [salt encrypted].
    rewrite !hexToBytes_bytesToHex, Hkey'.
    unfold verifyPassword, try_catch, bind, ret.
    erewrite decryptPrivateKey_run;
      [ | apply hexToBytes_bytesToHex | apply hexToBytes_bytesToHex
        | exact Hkey' | exact Hlen' ].
    cbv zeta. destruct (aes_gcm_decrypt _ _ _); reflexivity. }
  split; [|exact Hany].
  rewrite Hany. unfold aeadOutcome, derivedKeyOf. cbn [salt encrypted].
  rewrite !hexToBytes_bytesToHex, Hkey, aes_gcm_correct. reflexivity.
Qed.

Lemma verifyPassword_decides_witness :
  fst (verifyPassword (P:=ToyPlatform) sampleKeyfile (js "correct-password")
         w0) = Ok true
  /\ fst (verifyPassword (P:=ToyPlatform) sampleKeyfile (js "wrong-password")
            w0) = Ok false.
Proof.
  assert (E : encryptPrivateKey (P:=ToyPlatform) (mkUint8Array 1 0 32)
                (mkUint8Array 0 0 32) (js "correct-password") "addr"
                (snd (new_Uint8Array samplePublicKey
                        (snd (new_Uint8Array sampleKey w0))))
              = (Ok sampleKeyfile,
                 snd (encryptPrivateKey (P:=ToyPlatform) (mkUint8Array 1 0 32)
                        (mkUint8Array 0 0 32) (js "correct-password") "addr"
                        (snd (new_Uint8Array samplePublicKey
                                (snd (new_Uint8Array sampleKey w0)))))))
    by (vm_compute; reflexivity).
  destruct (verifyPassword_decides ToyPlatform ToyLaws _ _ _ _ _ _ w0 _ E)
    as [H1 H2].
  split; [exact H1 | exact (H2 (js "wrong-password"))].
Defined.

(** X9.  On primitives that obey the laws [encryptPrivateKey] always returns
    a keyfile: its [publicKey] is the hex of the public-key bytes, two
    characters a byte, its [salt] is 32 hex characters that decode to the
    salt drawn, its ciphertext is hexadecimal, [keyAddress] is the address
    given and [keyNickname] is empty; the heap, and with it the key buffer,
    is left as it was. *)
Theorem encryptPrivateKey_keyfile_shape (P : Platform) (L : PlatformLaws P)
    (publicKeyBytes privateKeyBytes : Uint8Array) (password : JsString)
    (address : string) (w : World) :
  exists kf w',
    encryptPrivateKey publicKeyBytes privateKeyBytes password address w
    = (Ok kf, w')
    /\ publicKey kf = bytesToHex (viewBytes w publicKeyBytes)
    /\ String.length (publicKey kf)
       = (2 * List.length (viewBytes w publicKeyBytes))%nat
    /\ String.length (salt kf) = 32%nat
    /\ hexToBytes (salt kf) = Ok (freshSalt w)
    /\ isOk (hexToBytes (encrypted kf)) = true
    /\ keyAddress kf = address
    /\ keyNickname kf = ""
    /\ heap w' = heap w.
Proof.
  destruct (encryptPrivateKey_run publicKeyBytes privateKeyBytes password
              address w) as (key & _ & _ & Hrun).
  eexists; eexists. split; [exact Hrun|].
  cbn [publicKey salt encrypted keyAddress keyNickname heap].
  rewrite !bytesToHex_length, !hexToBytes_bytesToHex, freshSalt_length.
  repeat split.
Qed.

Lemma encryptPrivateKey_keyfile_shape_witness :
  exists kf w',
    encryptPrivateKey (P:=ToyPlatform) (mkUint8Array 1 0 32)
      (mkUint8Array 0 0 32) (js "correct-password") "addr"
      (snd (new_Uint8Array samplePublicKey
              (snd (new_Uint8Array sampleKey w0)))) = (Ok kf, w')
    /\ String.length (salt kf) = 32%nat
    /\ keyAddress kf = "addr".
Proof.
  destruct (encryptPrivateKey_keyfile_shape ToyPlatform ToyLaws
              (mkUint8Array 1 0 32) (mkUint8Array 0 0 32)
              (js "correct-password") "addr"
              (snd (new_Uint8Array samplePublicKey
                      (snd (new_Uint8Array sampleKey w0)))))
    as (kf & w' & H1 & _ & _ & H2 & _ & _ & H3 & _).
  exists kf, w'. repeat split; assumption.
Defined.

(** X10.  When the key derivation throws, [encryptPrivateKey] throws
    [Failed to encrypt private key: ] followed by the message of that error,
    returns no keyfile and has called neither the key import nor the
    cipher. *)
Theorem encryptPrivateKey_wraps_derivation_error (P : Platform)
    (publicKeyBytes privateKeyBytes : Uint8Array) (password : JsString)
    (address : string) (w : World) (e : JsError) :
  argon2i (TextEncoder_encode password) (freshSalt w) ARGON2_PARAMS.t
          ARGON2_PARAMS.m ARGON2_PARAMS.p 32 = Throw e ->
  fst (encryptPrivateKey publicKeyBytes privateKeyBytes password address w)
  = Throw (Error ("Failed to encrypt private key: " ++ message e)%string)
  /\ events_of
       (encryptPrivateKey publicKeyBytes privateKeyBytes password address) w
     = [EvGetRandomValues (freshSalt w);
        EvArgon2i (TextEncoder_encode password) (freshSalt w)].
Proof.
  intros Hkdf.
  assert (Hrun :
    encryptPrivateKey publicKeyBytes privateKeyBytes password address w
    = (Throw (Error ("Failed to encrypt private key: " ++ message e)%string),
       mkWorld (heap w) (entropy w) (drawn w + SALT_LENGTH) (clock w)
         (trace w ++ [EvGetRandomValues (freshSalt w);
                      EvArgon2i (TextEncoder_encode password) (freshSalt w)]))).
  { unfold encryptPrivateKey, try_catch, bind at 1.
    unfold getRandomValues at 1. fold (freshSalt w).
    unfold bind at 1. rewrite deriveKey_run.
    cbn [logged heap entropy drawn clock trace].
    rewrite Hkdf. unfold throw, logged. cbn. rewrite <- app_assoc.
    reflexivity. }
  rewrite Hrun. split; [reflexivity|].
  apply events_of_intro. rewrite Hrun. reflexivity.
Qed.

Lemma encryptPrivateKey_wraps_derivation_error_witness :
  fst (encryptPrivateKey (P:=FailingKdf) (mkUint8Array 0 0 0)
         (mkUint8Array 0 0 0) (js "pw") "addr" w0)
  = Throw (Error "Failed to encrypt private key: memory allocation failed").
Proof.
  exact (proj1 (encryptPrivateKey_wraps_derivation_error FailingKdf
                  (mkUint8Array 0 0 0) (mkUint8Array 0 0 0) (js "pw") "addr"
                  w0 (Error "memory allocation failed") eq_refl)).
Defined.

(* ------------------------------------------------------------------ *)
(** ** More on the build flows and the validator *)

(** X11.  [validateTransactionParams] accepts a parameter set exactly when
    it is within the bounds: non-empty type, fee >= 0, networkID > 0,
    chainID > 0, height >= 0 and a memo of at most 200 characters; the
    bounds themselves (fee 0, height 0, a memo of 200) are accepted. *)
Theorem validateTransactionParams_accepts_iff (params : TransactionParams) :
  validateTransactionParams params = Ok tt <-> within_bounds params.
Proof.
  split; [|apply validateTransactionParams_accepts].
  intros Hok.
  destruct (String.eqb_spec (type params) "") as [Ht|Ht].
  { unfold validateTransactionParams, truthy_string in Hok.
    rewrite Ht in Hok. discriminate. }
  destruct (Z.ltb_spec (fee params) 0) as [Hf|Hf].
  { unfold validateTransactionParams, truthy_string, truthy_object, differs,
      typeof_string, typeof_number, typeof_object in Hok.
    cbn in Hok. destruct (String.eqb (type params) ""); [discriminate|].
    cbn in Hok. destruct (Z.ltb_spec (fee params) 0); [discriminate|lia]. }
  pose proof (validateTransactionParams_rejects params) as Hrej.
  destruct (Z.leb_spec (networkID params) 0) as [Hn|Hn];
  [|destruct (Z.leb_spec (chainID params) 0) as [Hc|Hc];
    [|destruct (Z.ltb_spec (height params) 0) as [Hh|Hh];
      [|destruct (Nat.leb_spec (String.length (memo params)) 200)
          as [Hm|Hm]]]];
    try (destruct Hrej as (e & He & _);
         [unfold within_bounds; lia | rewrite Hok in He; discriminate]).
  unfold within_bounds. repeat split; auto; lia.
Qed.

(** X12.  When decryption of the stored key fails, each build flow fails
    with the very same error, in the world decryption left: with a wrong
    password the caller sees the password error, and nothing is encoded or
    signed. *)
Theorem flows_propagate_decryption_failure (P : Platform)
    (storedKey : CanopyWalletAccount) (password : JsString)
    (orderParams : OrderParams) (editParams : EditParams)
    (deleteParams : DeleteParams) (networkParams : NetworkParams)
    (w w1 : World) (e : JsError) :
  decryptPrivateKey (encryptedKeyfile storedKey) password w = (Throw e, w1) ->
  createSignedOrder storedKey password orderParams networkParams w
  = (Throw e, w1)
  /\ createSignedEditOrder storedKey password editParams networkParams w
     = (Throw e, w1)
  /\ createSignedDeleteOrder storedKey password deleteParams networkParams w
     = (Throw e, w1).
Proof.
  intros H.
  rewrite createSignedOrder_run, createSignedEditOrder_run,
    createSignedDeleteOrder_run.
  repeat split; apply decryptThenSign_failure; exact H.
Qed.

Lemma flows_propagate_decryption_failure_witness :
  fst (createSignedOrder (P:=ToyPlatform) sampleAccount (js "wrong-password")
         sampleOrder sampleNetwork w0) = Throw (Error passwordProblem)
  /\ fst (createSignedDeleteOrder (P:=ToyPlatform) sampleAccount
            (js "wrong-password") sampleDelete sampleNetwork w0)
     = Throw (Error passwordProblem).
Proof.
  assert (E : decryptPrivateKey (P:=ToyPlatform)
                (encryptedKeyfile sampleAccount) (js "wrong-password") w0
              = (Throw (Error passwordProblem),
                 snd (decryptPrivateKey (P:=ToyPlatform)
                        (encryptedKeyfile sampleAccount)
                        (js "wrong-password") w0)))
    by (vm_compute; reflexivity).
  destruct (flows_propagate_decryption_failure ToyPlatform sampleAccount
              (js "wrong-password") sampleOrder sampleEdit sampleDelete
              sampleNetwork w0 _ _ E) as (H1 & _ & H3).
  rewrite H1, H3. split; reflexivity.
Defined.

(** X13.  In each build flow, once the key is decrypted and the transaction
    has a wire layout, the signer is called exactly once, after decryption,
    with the lower-case hex of the decrypted key bytes (two characters a
    byte, decoding back to the key), the canonical bytes and the detected
    curve. *)
Theorem signer_receives_hex_of_key (P : Platform)
    (storedKey : CanopyWalletAccount) (password : JsString)
    (orderParams : OrderParams) (editParams : EditParams)
    (deleteParams : DeleteParams) (networkParams : NetworkParams)
    (w w1 : World) (privateKeyBytes : Uint8Array) :
  decryptPrivateKey (encryptedKeyfile storedKey) password w
  = (Ok privateKeyBytes, w1) ->
  let kf := encryptedKeyfile storedKey in
  let hex := bytesToHex (viewBytes w1 privateKeyBytes) in
  let c := curveTypeOf (publicKey kf) in
  hexToBytes hex = Ok (viewBytes w1 privateKeyBytes)
  /\ String.length hex = (2 * List.length (viewBytes w1 privateKeyBytes))%nat
  /\ (forall signBytes,
         wire_encode (unsignedOf (orderTxParams orderParams networkParams)
                        (clock w)) = Some signBytes ->
         events_of (createSignedOrder storedKey password orderParams
                      networkParams) w
         = events_of (decryptPrivateKey kf password) w
           ++ [EvSignMessage signBytes hex c])
  /\ (forall signBytes,
         wire_encode (unsignedOf (editTxParams editParams networkParams)
                        (clock w)) = Some signBytes ->
         events_of (createSignedEditOrder storedKey password editParams
                      networkParams) w
         = events_of (decryptPrivateKey kf password) w
           ++ [EvSignMessage signBytes hex c])
  /\ (forall signBytes,
         wire_encode (unsignedOf (deleteTxParams deleteParams networkParams)
                        (clock w)) = Some signBytes ->
         events_of (createSignedDeleteOrder storedKey password deleteParams
                      networkParams) w
         = events_of (decryptPrivateKey kf password) w
           ++ [EvSignMessage signBytes hex c]).
Proof.
  intros Hdec kf hex c.
  split; [apply hexToBytes_bytesToHex|].
  split; [apply bytesToHex_length|].
  unfold events_of.
  repeat split; intros signBytes Henc;
    rewrite ?createSignedOrder_run, ?createSignedEditOrder_run,
      ?createSignedDeleteOrder_run;
    exact (proj1 (decryptThenSign_signs _ _ _ _ _ _ _ _ Hdec Henc)).
Qed.

Lemma signer_receives_hex_of_key_witness :
  events_of (createSignedOrder (P:=ToyPlatform) sampleAccount
               (js "correct-password") sampleOrder sampleNetwork) w0
  = events_of (decryptPrivateKey (P:=ToyPlatform) sampleKeyfile
                 (js "correct-password")) w0
    ++ [EvSignMessage
          (map byte_of_N
             (map N_of_ascii (list_ascii_of_string "createOrder")))
          (bytesToHex sampleKey) ED25519].
Proof.
  assert (E : decryptPrivateKey (P:=ToyPlatform)
                (encryptedKeyfile sampleAccount) (js "correct-password") w0
              = (Ok (mkUint8Array 0 0 32),
                 snd (decryptPrivateKey (P:=ToyPlatform)
                        (encryptedKeyfile sampleAccount)
                        (js "correct-password") w0)))
    by (vm_compute; reflexivity).
  destruct (signer_receives_hex_of_key ToyPlatform sampleAccount
              (js "correct-password") sampleOrder sampleEdit sampleDelete
              sampleNetwork w0 _ _ E) as (_ & _ & H & _).
  exact (H _ eq_refl).
Defined.

(** X14.  Every transaction the edit flow returns carries the type
    [editOrder] and the order id and the parameters of the caller in its
    message; every transaction the delete flow returns carries the type
    [deleteOrder] and a message of order id and chain id.  Each of them,
    whatever the other flow does, has an empty memo, the network
    parameters, the current height as [createdHeight], the call time in
    microseconds, and the public key of the keyfile in the signature. *)
Theorem edit_and_delete_transactions (P : Platform)
    (storedKey : CanopyWalletAccount) (password : JsString)
    (editParams : EditParams) (deleteParams : DeleteParams)
    (networkParams : NetworkParams) (w : World) :
  (forall reqE wE,
      createSignedEditOrder storedKey password editParams networkParams w
      = (Ok reqE, wE) ->
      unsigned (raw_transaction reqE)
      = {| tx_type := "editOrder";
           tx_msg := MsgEditOrder
                       {| eo_orderId := ep_orderId editParams;
                          eo_chainId := ep_chainId editParams;
                          eo_data := ep_data editParams;
                          eo_amountForSale := ep_amountForSale editParams;
                          eo_requestedAmount := ep_requestedAmount editParams;
                          eo_sellerReceiveAddress :=
                            ep_sellerReceiveAddress editParams |};
           tx_time := clock w * 1000;
           tx_createdHeight := np_currentHeight networkParams;
           tx_fee := np_fee networkParams;
           tx_memo := "";
           tx_networkID := np_networkID networkParams;
           tx_chainID := np_chainID networkParams |}
      /\ sig_publicKey (signature (raw_transaction reqE))
         = publicKey (encryptedKeyfile storedKey))
  /\ (forall reqD wD,
        createSignedDeleteOrder storedKey password deleteParams networkParams
          w
        = (Ok reqD, wD) ->
        unsigned (raw_transaction reqD)
        = {| tx_type := "deleteOrder";
             tx_msg := MsgDeleteOrder
                         {| do_orderId := dp_orderId deleteParams;
                            do_chainId := dp_chainId deleteParams |};
             tx_time := clock w * 1000;
             tx_createdHeight := np_currentHeight networkParams;
             tx_fee := np_fee networkParams;
             tx_memo := "";
             tx_networkID := np_networkID networkParams;
             tx_chainID := np_chainID networkParams |}
        /\ sig_publicKey (signature (raw_transaction reqD))
           = publicKey (encryptedKeyfile storedKey)).
Proof.
  split.
  - intros reqE wE HE. rewrite createSignedEditOrder_run in HE.
    destruct (decryptThenSign_result _ _ _ _ _ _ _ HE) as [Hu Hp].
    rewrite Hu, Hp. split; reflexivity.
  - intros reqD wD HD. rewrite createSignedDeleteOrder_run in HD.
    destruct (decryptThenSign_result _ _ _ _ _ _ _ HD) as [Hu Hp].
    rewrite Hu, Hp. split; reflexivity.
Qed.

Lemma edit_and_delete_transactions_witness :
  exists reqE reqD,
    fst (createSignedEditOrder (P:=ToyPlatform) sampleAccount
           (js "correct-password") sampleEdit sampleNetwork w0) = Ok reqE
    /\ fst (createSignedDeleteOrder (P:=ToyPlatform) sampleAccount
              (js "correct-password") sampleDelete sampleNetwork w0) = Ok reqD
    /\ tx_type (unsigned (raw_transaction reqE)) = "editOrder"
    /\ tx_msg (unsigned (raw_transaction reqD))
       = MsgDeleteOrder {| do_orderId := "0f"; do_chainId := 1 |}.
Proof.
  assert (HE : createSignedEditOrder (P:=ToyPlatform) sampleAccount
                 (js "correct-password") sampleEdit sampleNetwork w0
               = (Ok _, _)) by (vm_compute; reflexivity).
  assert (HD : createSignedDeleteOrder (P:=ToyPlatform) sampleAccount
                 (js "correct-password") sampleDelete sampleNetwork w0
               = (Ok _, _)) by (vm_compute; reflexivity).
  destruct (edit_and_delete_transactions ToyPlatform sampleAccount
              (js "correct-password") sampleEdit sampleDelete sampleNetwork
              w0) as (H1 & H2).
  destruct (H1 _ _ HE) as (H1' & _). destruct (H2 _ _ HD) as (H2' & _).
  eexists; eexists. rewrite HE, HD.
  split; [reflexivity|]. split; [reflexivity|].
  rewrite H1', H2'. split; reflexivity.
Defined.

(** X15.  Encryption and the create flow compose: for the keyfile
    [encryptPrivateKey] returned for a key array and a public-key array,
    [createSignedOrder] under the same password calls the signer once, with
    the hex of the bytes of the key array's buffer (the key itself when the
    array spans its buffer) and the curve given by the size of the public
    key (BLS12381 for 48 bytes, ED25519 otherwise), and, when the encoder
    and the signer accept, returns the transaction with the hex of the
    public key in its signature. *)
Theorem encrypted_key_signs_order (P : Platform) (L : PlatformLaws P)
    (publicKeyBytes privateKeyBytes : Uint8Array) (p : JsString)
    (addr : string) (w w1 w' : World) (kf : EncryptedCanopyKeyfile)
    (orderParams : OrderParams) (networkParams : NetworkParams)
    (signBytes sig : list byte) :
  encryptPrivateKey publicKeyBytes privateKeyBytes p addr w = (Ok kf, w1) ->
  wire_encode (unsignedOf (orderTxParams orderParams networkParams)
                 (clock w')) = Some signBytes ->
  curve_sign (if (List.length (viewBytes w publicKeyBytes) =? 48)%nat
              then BLS12381 else ED25519)
             signBytes
             (bytesToHex (bufferBytes w (ta_buffer privateKeyBytes)))
  = Some sig ->
  fst (createSignedOrder {| encryptedKeyfile := kf |} p orderParams
         networkParams w')
  = Ok {| raw_transaction :=
            {| unsigned := unsignedOf (orderTxParams orderParams networkParams)
                                      (clock w');
               signature :=
                 {| sig_publicKey := bytesToHex (viewBytes w publicKeyBytes);
                    sig_signature := bytesToHex sig |} |} |}
  /\ events_of (createSignedOrder {| encryptedKeyfile := kf |} p orderParams
                  networkParams) w'
     = events_of (decryptPrivateKey kf p) w'
       ++ [EvSignMessage signBytes
             (bytesToHex (bufferBytes w (ta_buffer privateKeyBytes)))
             (if (List.length (viewBytes w publicKeyBytes) =? 48)%nat
              then BLS12381 else ED25519)].
Proof.
  intros Hrun Henc Hsig.
  destruct (encryptPrivateKey_run publicKeyBytes privateKeyBytes p addr w)
    as (key & Hkey & Hlen & Hkf).
  rewrite Hkf in Hrun. injection Hrun as <- _.
  unfold events_of. rewrite createSignedOrder_run.
  change (encryptedKeyfile {| encryptedKeyfile := ?k |}) with k.
  remember {| publicKey := bytesToHex (viewBytes w publicKeyBytes) |}
    as kf eqn:Ekf.
  assert (Hpk : publicKey kf = bytesToHex (viewBytes w publicKeyBytes))
    by (rewrite Ekf; reflexivity).
  assert (Hsalt : salt kf = bytesToHex (freshSalt w))
    by (rewrite Ekf; reflexivity).
  assert (Hct : encrypted kf
                = bytesToHex (aes_gcm_encrypt key (firstn NONCE_LENGTH key)
                                (bufferBytes w (ta_buffer privateKeyBytes))))
    by (rewrite Ekf; reflexivity).
  clear Ekf Hkf. rewrite Hpk.
  assert (Hdec : exists arr w2,
             decryptPrivateKey kf p w' = (Ok arr, w2)
             /\ viewBytes w2 arr = bufferBytes w (ta_buffer privateKeyBytes)).
  { erewrite decryptPrivateKey_run;
      [ | rewrite Hsalt; apply hexToBytes_bytesToHex
        | rewrite Hct; apply hexToBytes_bytesToHex
        | exact Hkey | exact Hlen ].
    cbv zeta. rewrite aes_gcm_correct.
    eexists; eexists. split; [reflexivity|]. apply viewBytes_new. }
  destruct Hdec as (arr & w2 & Hdec & Hview).
  assert (Hc : curveTypeOf (bytesToHex (viewBytes w publicKeyBytes))
               = if (List.length (viewBytes w publicKeyBytes) =? 48)%nat
                 then BLS12381 else ED25519).
  { rewrite curveTypeOf_spec, bytesToHex_length.
    destruct (Nat.eqb_spec (List.length (viewBytes w publicKeyBytes)) 48)
      as [E|E].
    - rewrite E. reflexivity.
    - destruct (Nat.eqb_spec (2 * List.length (viewBytes w publicKeyBytes)) 96);
        [lia | reflexivity]. }
  destruct (decryptThenSign_signs kf p
              (orderTxParams orderParams networkParams)
              (curveTypeOf (bytesToHex (viewBytes w publicKeyBytes)))
              w' arr w2 signBytes Hdec Henc) as [Hev Hres].
  rewrite Hview, Hc in Hev, Hres. rewrite Hsig, Hpk in Hres.
  rewrite Hc. unfold events_of in Hev.
  split; [exact Hres | exact Hev].
Qed.

Lemma encrypted_key_signs_order_witness :
  exists req,
    fst (createSignedOrder (P:=ToyPlatform) sampleAccount
           (js "correct-password") sampleOrder sampleNetwork w0) = Ok req
    /\ sig_publicKey (signature (raw_transaction req))
       = bytesToHex samplePublicKey.
Proof.
  eexists. split.
  - refine (proj1 (encrypted_key_signs_order ToyPlatform ToyLaws
              (mkUint8Array 1 0 32) (mkUint8Array 0 0 32)
              (js "correct-password") "addr"
              (snd (new_Uint8Array samplePublicKey
                      (snd (new_Uint8Array sampleKey w0))))
              (snd (encryptPrivateKey (P:=ToyPlatform) (mkUint8Array 1 0 32)
                      (mkUint8Array 0 0 32) (js "correct-password") "addr"
                      (snd (new_Uint8Array samplePublicKey
                              (snd (new_Uint8Array sampleKey w0))))))
              w0 sampleKeyfile sampleOrder sampleNetwork _
              (repeat Byte.x01 64) _ _ _)).
    + vm_compute. reflexivity.
    + reflexivity.
    + reflexivity.
  - reflexivity.
Defined.

(** X21.  Decryption gives back what was encrypted, and that is the whole
    buffer behind the key array: for every key array and public-key array,
    on primitives that obey the laws, [decryptPrivateKey] of the keyfile
    [encryptPrivateKey] returned, under the same password, returns an array
    holding the bytes of [privateKeyBytes.buffer]; these are the bytes of
    the key when the array starts at offset 0 and spans its buffer. *)
Theorem decrypt_returns_encrypted_buffer (P : Platform) (L : PlatformLaws P)
    (publicKeyBytes privateKeyBytes : Uint8Array) (p : JsString)
    (addr : string) (w : World) :
  exists kf arr w1 w2,
    encryptPrivateKey publicKeyBytes privateKeyBytes p addr w = (Ok kf, w1)
    /\ decryptPrivateKey kf p w1 = (Ok arr, w2)
    /\ viewBytes w2 arr = bufferBytes w (ta_buffer privateKeyBytes)
    /\ (ta_byteOffset privateKeyBytes = 0%nat ->
        ta_length privateKeyBytes
        = List.length (bufferBytes w (ta_buffer privateKeyBytes)) ->
        viewBytes w2 arr = viewBytes w privateKeyBytes).
Proof.
  destruct (decrypt_encrypt_buffer publicKeyBytes privateKeyBytes p p addr w
              eq_refl) as (kf & arr & w1 & w2 & He & Hd & Hv).
  exists kf, arr, w1, w2. repeat split; try assumption.
  intros Hoff Hlen. rewrite Hv. unfold viewBytes.
  rewrite Hoff, Hlen. cbn [skipn]. symmetry. apply firstn_all.
Qed.

Lemma decrypt_returns_encrypted_buffer_witness :
  exists kf arr w1 w2,
    encryptPrivateKey (P:=ToyPlatform) (mkUint8Array 1 0 32)
      (mkUint8Array 0 0 32) (js "correct-password") "addr"
      (snd (new_Uint8Array samplePublicKey
              (snd (new_Uint8Array sampleKey w0)))) = (Ok kf, w1)
    /\ decryptPrivateKey (P:=ToyPlatform) kf (js "correct-password") w1
       = (Ok arr, w2)
    /\ viewBytes w2 arr = sampleKey.
Proof.
  destruct (decrypt_returns_encrypted_buffer ToyPlatform ToyLaws
              (mkUint8Array 1 0 32) (mkUint8Array 0 0 32)
              (js "correct-password") "addr"
              (snd (new_Uint8Array samplePublicKey
                      (snd (new_Uint8Array sampleKey w0)))))
    as (kf & arr & w1 & w2 & H1 & H2 & H3 & _).
  exists kf, arr, w1, w2. split; [exact H1|]. split; [exact H2|].
  rewrite H3. reflexivity.
Defined.

(* ------------------------------------------------------------------ *)
(** ** The handlers of the order summary component *)

Section HandlerFacts.
Import EditCloseOrderSummary.
Context {P : Platform} {I : Imports}.

Lemma guarded_run build c progress failed ui w :
  guarded build c progress failed ui w =
  match build w with
  | (Ok signedTx, w1) =>
      match submitSignedTransaction signedTx c with
      | Ok _ =>
          (Ok tt,
           mkUi false (toasts ui ++ [progress])
                (submitted ui ++ [(signedTx, c)]) (S (closed ui)),
           w1)
      | Throw e =>
          (Ok tt,
           mkUi false
                (toasts ui ++ [ErrorToast (failed ++ Error_toString e)%string])
                (submitted ui ++ [(signedTx, c)]) (closed ui),
           w1)
      end
  | (Throw e, w1) =>
      (Ok tt,
       mkUi false
            (toasts ui ++ [ErrorToast (failed ++ Error_toString e)%string])
            (submitted ui) (closed ui),
       w1)
  end.
Proof.
  unfold guarded, ubind, try_catch_finally, update, await, submit.
  cbn. destruct (build w) as [[signedTx|e] w1]; cbn; [|reflexivity].
  destruct (submitSignedTransaction signedTx c); reflexivity.
Qed.

Lemma handleEditAskOrder_ready props wallet o password :
  ready props = Some (wallet, o, password) ->
  handleEditAskOrder props =
  guarded (createSignedEditOrder (account wallet) password
             (editParamsOf props o) (networkParamsOf props))
          (committee (tradingPair props))
          (ProgressToast "Edit order in Progress" (symbol (payAsset props))
                         (symbol (receiveAsset props)))
          "Failed to edit order: ".
Proof.
  unfold ready, handleEditAskOrder.
  destruct (selectedCanopyWallet props) as [wl|]; [|discriminate].
  destruct (order props) as [o'|]; [|discriminate].
  destruct (truthy_string (filename wl)); [|discriminate].
  destruct (getKeyfilePassword (filename wl)) as [[|u rest]|];
    try discriminate.
  intros E; injection E as <- <- <-. reflexivity.
Qed.

Lemma handleDeleteAskOrder_ready props wallet o password :
  ready props = Some (wallet, o, password) ->
  handleDeleteAskOrder props =
  guarded (createSignedDeleteOrder (account wallet) password
             (deleteParamsOf props o) (networkParamsOf props))
          (committee (tradingPair props))
          (ProgressToast "Cancelation in Progress" (symbol (payAsset props))
                         (symbol (receiveAsset props)))
          "Failed to delete order: ".
Proof.
  unfold ready, handleDeleteAskOrder.
  destruct (selectedCanopyWallet props) as [wl|]; [|discriminate].
  destruct (order props) as [o'|]; [|discriminate].
  destruct (truthy_string (filename wl)); [|discriminate].
  destruct (getKeyfilePassword (filename wl)) as [[|u rest]|];
    try discriminate.
  intros E; injection E as <- <- <-. reflexivity.
Qed.

Lemma handlers_not_ready props ui w :
  ready props = None ->
  exists description,
    (description = noWalletOrOrder \/ description = noPassword)
    /\ handleEditAskOrder props ui w
       = (Ok tt, toast (ErrorToast description) ui, w)
    /\ handleDeleteAskOrder props ui w
       = (Ok tt, toast (ErrorToast description) ui, w).
Proof.
  unfold ready, handleEditAskOrder, handleDeleteAskOrder, update.
  destruct (selectedCanopyWallet props) as [wl|];
    [|intros _; eexists; split; [left; reflexivity | split; reflexivity]].
  destruct (order props) as [o'|];
    [|intros _; eexists; split; [left; reflexivity | split; reflexivity]].
  destruct (truthy_string (filename wl));
    [|intros _; eexists; split; [left; reflexivity | split; reflexivity]].
  destruct (getKeyfilePassword (filename wl)) as [[|u rest]|];
    try discriminate;
    intros _; eexists; (split; [right; reflexivity | split; reflexivity]).
Qed.

End HandlerFacts.

(** X16.  Without a selected wallet that has a file name, without an order,
    or without a non-empty stored password for that file, both handlers only
    show an error toast: no key is decrypted, nothing is signed or
    submitted, [onClose] is not called and the loading flag is not
    touched. *)
Theorem handlers_need_wallet_order_and_password (P : Platform)
    (I : EditCloseOrderSummary.Imports)
    (props : EditCloseOrderSummary.Props) (ui : EditCloseOrderSummary.Ui)
    (w : World) :
  EditCloseOrderSummary.ready props = None ->
  exists description,
    (description = EditCloseOrderSummary.noWalletOrOrder
     \/ description = EditCloseOrderSummary.noPassword)
    /\ EditCloseOrderSummary.handleEditAskOrder props ui w
       = (Ok tt,
          EditCloseOrderSummary.mkUi
            (EditCloseOrderSummary.isLoading ui)
            (EditCloseOrderSummary.toasts ui
               ++ [EditCloseOrderSummary.ErrorToast description])
            (EditCloseOrderSummary.submitted ui)
            (EditCloseOrderSummary.closed ui),
          w)
    /\ EditCloseOrderSummary.handleDeleteAskOrder props ui w
       = EditCloseOrderSummary.handleEditAskOrder props ui w.
Proof.
  intros H.
  destruct (handlers_not_ready props ui w H) as (d & Hd & He & Hx).
  exists d. split; [exact Hd|]. rewrite He, Hx. split; reflexivity.
Qed.

Lemma handlers_need_wallet_order_and_password_witness :
  exists description,
    (description = EditCloseOrderSummary.noWalletOrOrder
     \/ description = EditCloseOrderSummary.noPassword)
    /\ EditCloseOrderSummary.handleEditAskOrder (P:=ToyPlatform)
         (I:=ToyImports) propsWithoutPassword ui0 w0
       = (Ok tt,
          EditCloseOrderSummary.mkUi false
            [EditCloseOrderSummary.ErrorToast description] [] 0,
          w0)
    /\ EditCloseOrderSummary.handleDeleteAskOrder (P:=ToyPlatform)
         (I:=ToyImports) propsWithoutPassword ui0 w0
       = EditCloseOrderSummary.handleEditAskOrder (P:=ToyPlatform)
           (I:=ToyImports) propsWithoutPassword ui0 w0.
Proof.
  exact (handlers_need_wallet_order_and_password ToyPlatform ToyImports
           propsWithoutPassword ui0 w0 eq_refl).
Defined.

(** X17.  With wallet, order and password present, when decryption of the
    stored key fails (a wrong stored password, a damaged keyfile) each
    handler ends without throwing: it shows one error toast made of
    [Failed to edit order: ] or [Failed to delete order: ] and the text of
    the error, submits nothing, does not call [onClose], and leaves the
    loading flag off. *)
Theorem handlers_report_decryption_failure (P : Platform)
    (I : EditCloseOrderSummary.Imports)
    (props : EditCloseOrderSummary.Props) (ui : EditCloseOrderSummary.Ui)
    (w w1 : World) (wallet : EditCloseOrderSummary.SelectedWallet)
    (o : EditCloseOrderSummary.Order) (password : JsString) (e : JsError) :
  EditCloseOrderSummary.ready props = Some (wallet, o, password) ->
  decryptPrivateKey
    (encryptedKeyfile (EditCloseOrderSummary.account wallet)) password w
  = (Throw e, w1) ->
  EditCloseOrderSummary.handleEditAskOrder props ui w
  = (Ok tt,
     EditCloseOrderSummary.mkUi false
       (EditCloseOrderSummary.toasts ui
          ++ [EditCloseOrderSummary.ErrorToast
                ("Failed to edit order: " ++ Error_toString e)%string])
       (EditCloseOrderSummary.submitted ui)
       (EditCloseOrderSummary.closed ui),
     w1)
  /\ EditCloseOrderSummary.handleDeleteAskOrder props ui w
     = (Ok tt,
        EditCloseOrderSummary.mkUi false
          (EditCloseOrderSummary.toasts ui
             ++ [EditCloseOrderSummary.ErrorToast
                   ("Failed to delete order: " ++ Error_toString e)%string])
          (EditCloseOrderSummary.submitted ui)
          (EditCloseOrderSummary.closed ui),
        w1).
Proof.
  intros Hready Hdec.
  rewrite (handleEditAskOrder_ready _ _ _ _ Hready),
    (handleDeleteAskOrder_ready _ _ _ _ Hready), !guarded_run.
  rewrite createSignedEditOrder_run, createSignedDeleteOrder_run.
  rewrite !(decryptThenSign_failure _ _ _ _ _ _ _ Hdec).
  split; reflexivity.
Qed.

Lemma handlers_report_decryption_failure_witness :
  EditCloseOrderSummary.handleDeleteAskOrder (P:=ToyPlatform)
    (I:=ToyImports) propsWithDamagedKeyfile ui0 w0
  = (Ok tt,
     EditCloseOrderSummary.mkUi false
       [EditCloseOrderSummary.ErrorToast
          ("Failed to delete order: "
             ++ Error_toString
                  (Error ("Failed to decrypt private key: "
                            ++ message hexError_nonhex)))%string]
       [] 0,
     w0).
Proof.
  exact (proj2 (handlers_report_decryption_failure ToyPlatform ToyImports
                  propsWithDamagedKeyfile ui0 w0 w0 _ _
                  (js "correct-password")
                  (Error ("Failed to decrypt private key: "
                            ++ message hexError_nonhex)%string)
                  eq_refl eq_refl)).
Defined.

(** X18.  With wallet, order and password present, when the edit flow
    returns a transaction and the submission succeeds, the edit handler
    submits that transaction once, for the committee of the trading pair,
    shows the progress toast, calls [onClose] once and leaves the loading
    flag off; the transaction is an [editOrder] for the id of the order, with
    chain id 1, the committee as network id, the minimum fee, and the polled
    height, or 0 when there is none, as [createdHeight]. *)
Theorem edit_handler_submits_and_closes (P : Platform)
    (I : EditCloseOrderSummary.Imports)
    (props : EditCloseOrderSummary.Props) (ui : EditCloseOrderSummary.Ui)
    (w w1 : World) (wallet : EditCloseOrderSummary.SelectedWallet)
    (o : EditCloseOrderSummary.Order) (password : JsString)
    (signedTx : SendRawTransactionRequest) :
  EditCloseOrderSummary.ready props = Some (wallet, o, password) ->
  createSignedEditOrder (EditCloseOrderSummary.account wallet) password
    (EditCloseOrderSummary.editParamsOf props o)
    (EditCloseOrderSummary.networkParamsOf props) w = (Ok signedTx, w1) ->
  EditCloseOrderSummary.submitSignedTransaction signedTx
    (EditCloseOrderSummary.committee (EditCloseOrderSummary.tradingPair props))
  = Ok tt ->
  EditCloseOrderSummary.handleEditAskOrder props ui w
  = (Ok tt,
     EditCloseOrderSummary.mkUi false
       (EditCloseOrderSummary.toasts ui
          ++ [EditCloseOrderSummary.ProgressToast "Edit order in Progress"
                (EditCloseOrderSummary.symbol
                   (EditCloseOrderSummary.payAsset props))
                (EditCloseOrderSummary.symbol
                   (EditCloseOrderSummary.receiveAsset props))])
       (EditCloseOrderSummary.submitted ui
          ++ [(signedTx,
               EditCloseOrderSummary.committee
                 (EditCloseOrderSummary.tradingPair props))])
       (S (EditCloseOrderSummary.closed ui)),
     w1)
  /\ tx_type (unsigned (raw_transaction signedTx)) = "editOrder"
  /\ (exists m, tx_msg (unsigned (raw_transaction signedTx)) = MsgEditOrder m
                /\ eo_orderId m = EditCloseOrderSummary.id o)
  /\ tx_chainID (unsigned (raw_transaction signedTx)) = 1
  /\ tx_networkID (unsigned (raw_transaction signedTx))
     = EditCloseOrderSummary.committee (EditCloseOrderSummary.tradingPair props)
  /\ tx_fee (unsigned (raw_transaction signedTx))
     = EditCloseOrderSummary.MINIMUN_FEE
  /\ tx_createdHeight (unsigned (raw_transaction signedTx))
     = match EditCloseOrderSummary.height props with
       | Some h => h
       | None => 0
       end.
Proof.
  intros Hready Hbuild Hsubmit.
  rewrite (handleEditAskOrder_ready _ _ _ _ Hready), guarded_run.
  rewrite Hbuild, Hsubmit. split; [reflexivity|].
  rewrite createSignedEditOrder_run in Hbuild.
  destruct (decryptThenSign_result _ _ _ _ _ _ _ Hbuild) as [Hu _].
  rewrite Hu. cbn.
  split; [reflexivity|]. split; [eexists; split; reflexivity|].
  repeat split.
  unfold EditCloseOrderSummary.heightOrZero.
  destruct (EditCloseOrderSummary.height props) as [h|]; [|reflexivity].
  destruct (Z.eqb_spec h 0); congruence.
Qed.

Lemma edit_handler_submits_and_closes_witness :
  exists signedTx w1,
    EditCloseOrderSummary.handleEditAskOrder (P:=ToyPlatform)
      (I:=ToyImports) sampleProps ui0 w0
    = (Ok tt,
       EditCloseOrderSummary.mkUi false
         [EditCloseOrderSummary.ProgressToast "Edit order in Progress"
            "USDC" "CNPY"]
         [(signedTx, 2)] 1,
       w1)
    /\ tx_createdHeight (unsigned (raw_transaction signedTx)) = 0.
Proof.
  assert (E : createSignedEditOrder (P:=ToyPlatform) sampleAccount
                (js "correct-password")
                (EditCloseOrderSummary.editParamsOf (I:=ToyImports)
                   sampleProps (EditCloseOrderSummary.mkOrder "0f" "aa"))
                (EditCloseOrderSummary.networkParamsOf (I:=ToyImports)
                   sampleProps) w0
              = (Ok _, _)) by (vm_compute; reflexivity).
  destruct (edit_handler_submits_and_closes ToyPlatform ToyImports
              sampleProps ui0 w0 _ _ _ (js "correct-password") _
              eq_refl E eq_refl) as (H1 & _ & _ & _ & _ & _ & H2).
  eexists; eexists. split; [exact H1 | exact H2].
Defined.

(** X19.  The same for the delete handler: on success it submits the
    [deleteOrder] transaction for the id of the order once, shows the
    cancelation toast, calls [onClose] once and leaves the loading flag
    off. *)
Theorem delete_handler_submits_and_closes (P : Platform)
    (I : EditCloseOrderSummary.Imports)
    (props : EditCloseOrderSummary.Props) (ui : EditCloseOrderSummary.Ui)
    (w w1 : World) (wallet : EditCloseOrderSummary.SelectedWallet)
    (o : EditCloseOrderSummary.Order) (password : JsString)
    (signedTx : SendRawTransactionRequest) :
  EditCloseOrderSummary.ready props = Some (wallet, o, password) ->
  createSignedDeleteOrder (EditCloseOrderSummary.account wallet) password
    (EditCloseOrderSummary.deleteParamsOf props o)
    (EditCloseOrderSummary.networkParamsOf props) w = (Ok signedTx, w1) ->
  EditCloseOrderSummary.submitSignedTransaction signedTx
    (EditCloseOrderSummary.committee (EditCloseOrderSummary.tradingPair props))
  = Ok tt ->
  EditCloseOrderSummary.handleDeleteAskOrder props ui w
  = (Ok tt,
     EditCloseOrderSummary.mkUi false
       (EditCloseOrderSummary.toasts ui
          ++ [EditCloseOrderSummary.ProgressToast "Cancelation in Progress"
                (EditCloseOrderSummary.symbol
                   (EditCloseOrderSummary.payAsset props))
                (EditCloseOrderSummary.symbol
                   (EditCloseOrderSummary.receiveAsset props))])
       (EditCloseOrderSummary.submitted ui
          ++ [(signedTx,
               EditCloseOrderSummary.committee
                 (EditCloseOrderSummary.tradingPair props))])
       (S (EditCloseOrderSummary.closed ui)),
     w1)
  /\ tx_type (unsigned (raw_transaction signedTx)) = "deleteOrder"
  /\ tx_msg (unsigned (raw_transaction signedTx))
     = MsgDeleteOrder
         {| do_orderId := EditCloseOrderSummary.id o;
            do_chainId := EditCloseOrderSummary.committee
                            (EditCloseOrderSummary.tradingPair props) |}
  /\ tx_chainID (unsigned (raw_transaction signedTx)) = 1
  /\ tx_fee (unsigned (raw_transaction signedTx))
     = EditCloseOrderSummary.MINIMUN_FEE.
Proof.
  intros Hready Hbuild Hsubmit.
  rewrite (handleDeleteAskOrder_ready _ _ _ _ Hready), guarded_run.
  rewrite Hbuild, Hsubmit. split; [reflexivity|].
  rewrite createSignedDeleteOrder_run in Hbuild.
  destruct (decryptThenSign_result _ _ _ _ _ _ _ Hbuild) as [Hu _].
  rewrite Hu. cbn. repeat split.
Qed.

Lemma delete_handler_submits_and_closes_witness :
  exists signedTx w1,
    EditCloseOrderSummary.handleDeleteAskOrder (P:=ToyPlatform)
      (I:=ToyImports) sampleProps ui0 w0
    = (Ok tt,
       EditCloseOrderSummary.mkUi false
         [EditCloseOrderSummary.ProgressToast "Cancelation in Progress"
            "USDC" "CNPY"]
         [(signedTx, 2)] 1,
       w1)
    /\ tx_type (unsigned (raw_transaction signedTx)) = "deleteOrder".
Proof.
  assert (E : createSignedDeleteOrder (P:=ToyPlatform) sampleAccount
                (js "correct-password")
                (EditCloseOrderSummary.deleteParamsOf sampleProps
                   (EditCloseOrderSummary.mkOrder "0f" "aa"))
                (EditCloseOrderSummary.networkParamsOf (I:=ToyImports)
                   sampleProps) w0
              = (Ok _, _)) by (vm_compute; reflexivity).
  destruct (delete_handler_submits_and_closes ToyPlatform ToyImports
              sampleProps ui0 w0 _ _ _ (js "correct-password") _
              eq_refl E eq_refl) as (H1 & H2 & _).
  eexists; eexists. split; [exact H1 | exact H2].
Defined.

(** X20.  When its flow has returned a transaction and the submission of
    that transaction fails, a handler has submitted once, shows an error
    toast with the text of the failure, does not call [onClose], and leaves
    the loading flag off; the handler itself does not throw.  This holds of
    the edit handler and of the delete handler, each on its own flow. *)
Theorem handlers_report_submission_failure (P : Platform)
    (I : EditCloseOrderSummary.Imports)
    (props : EditCloseOrderSummary.Props) (ui : EditCloseOrderSummary.Ui)
    (w : World) (wallet : EditCloseOrderSummary.SelectedWallet)
    (o : EditCloseOrderSummary.Order) (password : JsString) :
  EditCloseOrderSummary.ready props = Some (wallet, o, password) ->
  (forall tx w' e,
      createSignedEditOrder (EditCloseOrderSummary.account wallet) password
        (EditCloseOrderSummary.editParamsOf props o)
        (EditCloseOrderSummary.networkParamsOf props) w = (Ok tx, w') ->
      EditCloseOrderSummary.submitSignedTransaction tx
        (EditCloseOrderSummary.committee
           (EditCloseOrderSummary.tradingPair props))
      = Throw e ->
      EditCloseOrderSummary.handleEditAskOrder props ui w
      = (Ok tt,
         EditCloseOrderSummary.mkUi false
           (EditCloseOrderSummary.toasts ui
              ++ [EditCloseOrderSummary.ErrorToast
                    ("Failed to edit order: " ++ Error_toString e)%string])
           (EditCloseOrderSummary.submitted ui
              ++ [(tx,
                   EditCloseOrderSummary.committee
                     (EditCloseOrderSummary.tradingPair props))])
           (EditCloseOrderSummary.closed ui),
         w'))
  /\ (forall tx w' e,
        createSignedDeleteOrder (EditCloseOrderSummary.account wallet)
          password
          (EditCloseOrderSummary.deleteParamsOf props o)
          (EditCloseOrderSummary.networkParamsOf props) w = (Ok tx, w') ->
        EditCloseOrderSummary.submitSignedTransaction tx
          (EditCloseOrderSummary.committee
             (EditCloseOrderSummary.tradingPair props))
        = Throw e ->
        EditCloseOrderSummary.handleDeleteAskOrder props ui w
        = (Ok tt,
           EditCloseOrderSummary.mkUi false
             (EditCloseOrderSummary.toasts ui
                ++ [EditCloseOrderSummary.ErrorToast
                      ("Failed to delete order: " ++ Error_toString e)%string])
             (EditCloseOrderSummary.submitted ui
                ++ [(tx,
                     EditCloseOrderSummary.committee
                       (EditCloseOrderSummary.tradingPair props))])
             (EditCloseOrderSummary.closed ui),
           w')).
Proof.
  intros Hready. split; intros tx w' e Hrun Hsub.
  - rewrite (handleEditAskOrder_ready _ _ _ _ Hready), guarded_run.
    rewrite Hrun, Hsub. reflexivity.
  - rewrite (handleDeleteAskOrder_ready _ _ _ _ Hready), guarded_run.
    rewrite Hrun, Hsub. reflexivity.
Qed.

Lemma handlers_report_submission_failure_witness :
  exists txE wE txD wD,
    EditCloseOrderSummary.handleEditAskOrder (P:=ToyPlatform)
      (I:=OfflineImports) sampleProps ui0 w0
    = (Ok tt,
       EditCloseOrderSummary.mkUi false
         [EditCloseOrderSummary.ErrorToast
            "Failed to edit order: TypeError: Failed to fetch"]
         [(txE, 2)] 0,
       wE)
    /\ EditCloseOrderSummary.handleDeleteAskOrder (P:=ToyPlatform)
         (I:=OfflineImports) sampleProps ui0 w0
       = (Ok tt,
          EditCloseOrderSummary.mkUi false
            [EditCloseOrderSummary.ErrorToast
               "Failed to delete order: TypeError: Failed to fetch"]
            [(txD, 2)] 0,
          wD).
Proof.
  assert (HE : createSignedEditOrder (P:=ToyPlatform) sampleAccount
                 (js "correct-password")
                 (EditCloseOrderSummary.editParamsOf (I:=OfflineImports)
                    sampleProps (EditCloseOrderSummary.mkOrder "0f" "aa"))
                 (EditCloseOrderSummary.networkParamsOf (I:=OfflineImports)
                    sampleProps) w0
               = (Ok _, _)) by (vm_compute; reflexivity).
  assert (HD : createSignedDeleteOrder (P:=ToyPlatform) sampleAccount
                 (js "correct-password")
                 (EditCloseOrderSummary.deleteParamsOf sampleProps
                    (EditCloseOrderSummary.mkOrder "0f" "aa"))
                 (EditCloseOrderSummary.networkParamsOf (I:=OfflineImports)
                    sampleProps) w0
               = (Ok _, _)) by (vm_compute; reflexivity).
  destruct (handlers_report_submission_failure ToyPlatform OfflineImports
              sampleProps ui0 w0 _ _ (js "correct-password") eq_refl)
    as (H1 & H2).
  eexists; eexists; eexists; eexists. split.
  - exact (H1 _ _ (mkJsError "TypeError" "Failed to fetch") HE eq_refl).
  - exact (H2 _ _ (mkJsError "TypeError" "Failed to fetch") HD eq_refl).
Defined.
